(** * MCP server platform: kernel, plugin host, middleware and orchestrator

    A shallow embedding of the TypeScript sources of the MCP server platform
    (packages [core] and [orchestration]) together with the properties that
    its design document states about them.

    Conventions of the embedding:
    - JavaScript numbers that the code only uses as integers (counters,
      [Date.now()] milliseconds, lengths) are [Z]; confidences are exact
      rationals [Q];
    - a string is written with the characters of [string]; the case mapping
      of [toLowerCase], which follows the Unicode tables of the engine and
      can change the length of a string, is a parameter of the definitions
      that call it, and the samples, which are ASCII, use the ASCII mapping;
    - a [Map] that the code iterates (registries, workflows, sessions) is an
      insertion-ordered association list; a [Map] that is only looked up
      (rate-limit counters, workflow states, context loaders) is a [gmap];
    - a call that may throw returns an [Outcome]; effects on mutable objects
      are explicit state passing, the state surviving a throw;
    - plugin code runs on what it can reach of the host: its own state, the
      log (through the logger it is given), the workflow states and the
      request context; a middleware hook runs on its own state. *)

From Stdlib Require Import ZArith QArith Ascii String List Bool Lia.
From stdpp Require Import base option list gmap strings pretty.

Set Warnings "-register-all".
Local Open Scope Z_scope.

(* ===================================================================== *)
(** * JavaScript strings                                                   *)
(* ===================================================================== *)

Module JsString.

Definition lower_ascii (c : ascii) : ascii :=
  let n := N_of_ascii c in
  if ((65 <=? n) && (n <=? 90))%N then ascii_of_N (n + 32) else c.

(** [s.toLowerCase()] for a string of ASCII characters: A-Z become a-z.
    Outside ASCII the result follows the Unicode tables of the engine and
    can be longer than [s]; the definitions that call [toLowerCase] take the
    mapping as a parameter, and it is at the samples that they are given
    this one. *)
Fixpoint ascii_toLowerCase (s : string) : string :=
  match s with
  | EmptyString => EmptyString
  | String c s' => String (lower_ascii c) (ascii_toLowerCase s')
  end.

(** [text.includes(pat)] *)
Fixpoint includes (text pat : string) : bool :=
  String.prefix pat text ||
  match text with
  | EmptyString => false
  | String _ text' => includes text' pat
  end.

(** [s.split(' ')]: never empty, [''.split(' ')] is [['']]. *)
Fixpoint split_space (s : string) : list string :=
  match s with
  | EmptyString => [EmptyString]
  | String c s' =>
      if Ascii.eqb c " "%char then EmptyString :: split_space s'
      else match split_space s' with
           | w :: ws => String c w :: ws
           | [] => [String c EmptyString]
           end
  end.

(** [xs.some(p)] and [xs.every(p)] *)
Definition some {A} (p : A -> bool) (xs : list A) : bool := existsb p xs.
Definition every {A} (p : A -> bool) (xs : list A) : bool := forallb p xs.

(** A string in a boolean position: [''] is falsy. *)
Definition truthy (s : string) : bool :=
  match s with EmptyString => false | _ => true end.

End JsString.

(* ===================================================================== *)
(** * JavaScript values, thrown values, outcomes                           *)
(* ===================================================================== *)

(** The values a JSON-RPC [arguments] field can hold ([undefined] when the
    field is missing). *)
Inductive JsValue : Type :=
  | JUndefined
  | JNull
  | JBool (b : bool)
  | JNum (q : Q)
  | JStr (s : string)
  | JArr (items : list JsValue)
  | JObj (fields : list (string * JsValue)).

(** [!v] is [negb (truthy v)]. *)
Definition truthy (v : JsValue) : bool :=
  match v with
  | JUndefined | JNull => false
  | JBool b => b
  | JNum q => negb (Qeq_bool q 0)
  | JStr s => JsString.truthy s
  | JArr _ | JObj _ => true
  end.

Inductive JsType := TUndefined | TObject | TBoolean | TNumber | TString.

(** [typeof v] *)
Definition typeof (v : JsValue) : JsType :=
  match v with
  | JUndefined => TUndefined
  | JNull | JArr _ | JObj _ => TObject
  | JBool _ => TBoolean
  | JNum _ => TNumber
  | JStr _ => TString
  end.

Definition JsType_eqb (a b : JsType) : bool :=
  match a, b with
  | TUndefined, TUndefined | TObject, TObject | TBoolean, TBoolean
  | TNumber, TNumber | TString, TString => true
  | _, _ => false
  end.

(** What a [throw] carries: an [Error], an [McpError] of the SDK (an [Error]
    with a JSON-RPC code; [message] is the text given to its constructor),
    or any other value. *)
Inductive Thrown : Type :=
  | JsError (message : string)
  | McpError (code : Z) (message : string)
  | ThrownValue (v : JsValue).

(** [error instanceof Error ? error.message : 'Unknown error']. The
    constructor of [McpError] calls [super(`MCP error ${code}: ${message}`)],
    so the [message] of such an error carries the code in front of the text
    it was built with. *)
Definition error_message (e : Thrown) : string :=
  match e with
  | JsError m => m
  | McpError code m => "MCP error " +:+ pretty code +:+ ": " +:+ m
  | ThrownValue _ => "Unknown error"
  end.

Module ErrorCode.
Definition ParseError : Z := -32700.
Definition InvalidRequest : Z := -32600.
Definition MethodNotFound : Z := -32601.
Definition InvalidParams : Z := -32602.
Definition InternalError : Z := -32603.
End ErrorCode.

Inductive Outcome (A : Type) : Type :=
  | Returns (a : A)
  | Throws (e : Thrown).
Arguments Returns {A} a.
Arguments Throws {A} e.

Definition is_returns {A} (o : Outcome A) : bool :=
  match o with Returns _ => true | Throws _ => false end.

(** Code with effects on a state [S] that may throw. *)
Definition Eff (S A : Type) : Type := S -> Outcome A * S.

Definition ret {S A} (a : A) : Eff S A := fun s => (Returns a, s).
Definition throw {S A} (e : Thrown) : Eff S A := fun s => (Throws e, s).
Definition bind {S A B} (m : Eff S A) (k : A -> Eff S B) : Eff S B :=
  fun s => match m s with
           | (Returns a, s') => k a s'
           | (Throws e, s') => (Throws e, s')
           end.
(** [try { m } catch (error) { h error }] *)
Definition try_catch {S A} (m : Eff S A) (h : Thrown -> Eff S A) : Eff S A :=
  fun s => match m s with
           | (Returns a, s') => (Returns a, s')
           | (Throws e, s') => h e s'
           end.

Notation "'do' x <- m ; k" := (bind m (fun x => k))
  (at level 10, x name, m at level 100, k at level 200).
Notation "'exec' m ; k" := (bind m (fun _ => k))
  (at level 10, m at level 100, k at level 200).

(** [for (const x of xs) { body x }] *)
Fixpoint for_of {S A} (xs : list A) (body : A -> Eff S unit) : Eff S unit :=
  match xs with
  | [] => ret tt
  | x :: xs' => exec body x; for_of xs' body
  end.

(* ===================================================================== *)
(** * Middleware (core/src/middleware.ts)                                  *)
(* ===================================================================== *)

(** [interface MCPMiddleware]; the hooks are optional. [U] is the state the
    hooks act on. *)
Record MCPMiddleware (U : Type) : Type := {
  mw_name : string;
  mw_beforeToolCall : option (string -> JsValue -> Eff U unit);
  mw_afterToolCall : option (string -> JsValue -> JsValue -> Eff U unit);
  mw_onError : option (Thrown -> string -> string -> Eff U unit)
}.
Arguments mw_name {U} _.
Arguments mw_beforeToolCall {U} _.
Arguments mw_afterToolCall {U} _.
Arguments mw_onError {U} _.

Module ValidationMiddleware.

(** [beforeToolCall(toolName, params)] *)
Definition beforeToolCall {U} (toolName : string) (params : JsValue)
  : Eff U unit :=
  if negb (truthy params) || negb (JsType_eqb (typeof params) TObject)
  then throw (JsError ("Invalid parameters for tool " +:+ toolName
                       +:+ ": expected object"))
  else ret tt.

Definition middleware {U} : MCPMiddleware U :=
  {| mw_name := "validation";
     mw_beforeToolCall := Some beforeToolCall;
     mw_afterToolCall := None;
     mw_onError := None |}.

End ValidationMiddleware.

Module RateLimitMiddleware.

(** The value stored per tool name in [callCounts]. *)
Record Entry := { count : Z; resetTime : Z }.

(** The instance: configuration and the [callCounts] map. *)
Record t := {
  maxCalls : Z;
  windowMs : Z;
  callCounts : gmap string Entry
}.

(** [new RateLimitMiddleware(maxCalls, windowMs)] *)
Definition create (maxCalls windowMs : Z) : t :=
  {| maxCalls := maxCalls; windowMs := windowMs; callCounts := ∅ |}.

Definition set_counts (rl : t) (m : gmap string Entry) : t :=
  {| maxCalls := maxCalls rl; windowMs := windowMs rl; callCounts := m |}.

(** [beforeToolCall(toolName, params)], with [now] the value read from
    [Date.now()]. *)
Definition beforeToolCall (now : Z) (toolName : string) (params : JsValue)
  : Eff t unit :=
  fun rl =>
    let key := toolName in
    match callCounts rl !! key with
    | None =>
        (Returns tt,
         set_counts rl (<[key := {| count := 1;
                                    resetTime := now + windowMs rl |}]>
                          (callCounts rl)))
    | Some record =>
        if resetTime record <? now then
          (Returns tt,
           set_counts rl (<[key := {| count := 1;
                                      resetTime := now + windowMs rl |}]>
                            (callCounts rl)))
        else if maxCalls rl <=? count record then
          (Throws (JsError ("Rate limit exceeded for tool " +:+ toolName)),
           rl)
        else
          (Returns tt,
           set_counts rl (<[key := {| count := count record + 1;
                                      resetTime := resetTime record |}]>
                            (callCounts rl)))
    end.

(** The limiter as a middleware of a server whose state [U] holds the
    clock and the limiter instance. *)
Definition middleware {U} (clock : U -> Z) (instance : U -> t)
  (update : t -> U -> U) : MCPMiddleware U :=
  {| mw_name := "rate-limit";
     mw_beforeToolCall :=
       Some (fun toolName params u =>
               let '(o, rl) :=
                 beforeToolCall (clock u) toolName params (instance u) in
               (o, update rl u));
     mw_afterToolCall := None;
     mw_onError := None |}.

(** A timed call: the tool name and the clock reading at entry. *)
Record Call := { tool : string; at_ms : Z }.

(** Feed a sequence of calls to one limiter; the calls that passed, in
    order, and the limiter afterwards. *)
Fixpoint run (rl : t) (calls : list Call) : list Call * t :=
  match calls with
  | [] => ([], rl)
  | c :: rest =>
      match beforeToolCall (at_ms c) (tool c) JUndefined rl with
      | (Returns _, rl') => let '(ps, rl'') := run rl' rest in (c :: ps, rl'')
      | (Throws _, rl') => run rl' rest
      end
  end.

Definition passed (rl : t) (calls : list Call) : list Call :=
  fst (run rl calls).

(** The passed calls of tool [k] whose entry time lies in the window
    [[from, from + width)]. *)
Definition in_window (k : string) (from width : Z) (c : Call) : bool :=
  bool_decide (tool c = k) && (from <=? at_ms c) && (at_ms c <? from + width).

Definition passed_in_window (k : string) (from width : Z) (ps : list Call)
  : Z :=
  Z.of_nat (length (filter (fun c => in_window k from width c = true) ps)).

(** The passed calls of tool [k]. *)
Definition passed_of (k : string) (ps : list Call) : Z :=
  Z.of_nat (length (filter (fun c => tool c = k) ps)).

(** A call at [now] opens a fresh counting window for [k]. *)
Definition opens_window (rl : t) (k : string) (now : Z) : Prop :=
  match callCounts rl !! k with
  | None => True
  | Some record => resetTime record < now
  end.

End RateLimitMiddleware.

(* ===================================================================== *)
(** * Insertion-ordered maps (the JavaScript [Map])                        *)
(* ===================================================================== *)

Module JsMap.

Definition t (V : Type) : Type := list (string * V).

Definition empty {V} : t V := [].

Fixpoint get {V} (k : string) (m : t V) : option V :=
  match m with
  | [] => None
  | (k', v) :: m' => if decide (k = k') then Some v else get k m'
  end.

Definition has {V} (k : string) (m : t V) : bool :=
  match get k m with Some _ => true | None => false end.

(** [m.set(k, v)]: an existing key keeps its position, a new key goes to
    the end. *)
Fixpoint set {V} (k : string) (v : V) (m : t V) : t V :=
  match m with
  | [] => [(k, v)]
  | (k', v') :: m' =>
      if decide (k = k') then (k, v) :: m' else (k', v') :: set k v m'
  end.

Fixpoint delete {V} (k : string) (m : t V) : t V :=
  match m with
  | [] => []
  | (k', v') :: m' =>
      if decide (k = k') then m' else (k', v') :: delete k m'
  end.

Definition keys {V} (m : t V) : list string := map fst m.
Definition values {V} (m : t V) : list V := map snd m.

End JsMap.

(* ===================================================================== *)
(** * Plugin host and server kernel (core/src)                             *)
(* ===================================================================== *)

Inductive LogLevel := LDebug | LInfo | LWarn | LError.

(** One call of a [Logger] method: the level, the message and the error
    passed along, if any. *)
Record LogEntry := {
  log_level : LogLevel;
  log_message : string;
  log_detail : option Thrown
}.

Record UserRequestContext := {
  rc_sessionId : string;
  rc_userId : string;
  rc_currentWorkflow : option string;
  rc_message : string;
  rc_timestamp : Z;
  rc_metadata : JsValue
}.

Record MCPMessage := { msg_role : string; msg_content : JsValue }.

Section Kernel.

(** The state that the plugins and the middleware keep for themselves (what
    their closures and fields hold). *)
Variable U : Type.
(** [JSON.stringify(v, null, 2)] *)
Variable stringify : JsValue -> string.

(** What plugin code ([initialize], handlers, [shutdown]) can reach while it
    runs: its own state and, through the context and the logger that the
    host hands out and that a plugin may keep, the host's log, the workflow
    states and the current request context (which it can only read). The
    registration functions of the context are called from [initialize]. *)
Record Reach := {
  reach_own : U;
  reach_log : list LogEntry;
  reach_workflowStates : gmap string JsValue;
  reach_requestContext : option UserRequestContext
}.

Record MCPToolDefinition := {
  tool_name : string;
  tool_description : string;
  tool_inputSchema : JsValue;
  tool_handler : JsValue -> Eff Reach JsValue
}.

Record MCPResourceDefinition := {
  res_uri : string;
  res_name : string;
  res_description : option string;
  res_mimeType : option string;
  res_handler : Eff Reach JsValue
}.

Record MCPPromptDefinition := {
  prompt_name : string;
  prompt_description : string;
  prompt_arguments : JsValue;
  prompt_handler : JsValue -> Eff Reach (list MCPMessage)
}.

Record PluginMetadata := {
  meta_id : string;
  meta_name : string;
  meta_version : string;
  meta_description : string
}.

(** What a plugin's [initialize] does with the context it is given, step
    by step. *)
Inductive InitStep :=
  | CallRegisterTool (tool : MCPToolDefinition)
  | CallRegisterResource (resource : MCPResourceDefinition)
  | CallRegisterPrompt (prompt : MCPPromptDefinition)
  | Act (f : Eff Reach unit)
  | Raise (e : Thrown).

Record MCPPlugin := {
  metadata : option PluginMetadata;
  initialize : list InitStep;
  shutdown : option (Eff Reach unit)
}.

(** [class PluginManager]; [logger] holds the calls made to the logger and
    [world] the state that the plugins and the middleware keep for
    themselves. *)
Record PluginManager := {
  plugins : JsMap.t MCPPlugin;
  tools : JsMap.t MCPToolDefinition;
  resources : JsMap.t MCPResourceDefinition;
  prompts : JsMap.t MCPPromptDefinition;
  logger : list LogEntry;
  currentRequestContext : option UserRequestContext;
  workflowStates : gmap string JsValue;
  world : U
}.

(** [new PluginManager(logger)] *)
Definition new_PluginManager (w : U) : PluginManager :=
  {| plugins := JsMap.empty; tools := JsMap.empty;
     resources := JsMap.empty; prompts := JsMap.empty;
     logger := []; currentRequestContext := None;
     workflowStates := ∅; world := w |}.

Definition set_plugins (f : JsMap.t MCPPlugin -> JsMap.t MCPPlugin)
  : Eff PluginManager unit := fun pm =>
  (Returns tt,
   {| plugins := f (plugins pm); tools := tools pm;
      resources := resources pm; prompts := prompts pm;
      logger := logger pm;
      currentRequestContext := currentRequestContext pm;
      workflowStates := workflowStates pm; world := world pm |}).

Definition set_tools
  (f : JsMap.t MCPToolDefinition -> JsMap.t MCPToolDefinition)
  : Eff PluginManager unit := fun pm =>
  (Returns tt,
   {| plugins := plugins pm; tools := f (tools pm);
      resources := resources pm; prompts := prompts pm;
      logger := logger pm;
      currentRequestContext := currentRequestContext pm;
      workflowStates := workflowStates pm; world := world pm |}).

Definition set_resources
  (f : JsMap.t MCPResourceDefinition -> JsMap.t MCPResourceDefinition)
  : Eff PluginManager unit := fun pm =>
  (Returns tt,
   {| plugins := plugins pm; tools := tools pm;
      resources := f (resources pm); prompts := prompts pm;
      logger := logger pm;
      currentRequestContext := currentRequestContext pm;
      workflowStates := workflowStates pm; world := world pm |}).

Definition set_prompts
  (f : JsMap.t MCPPromptDefinition -> JsMap.t MCPPromptDefinition)
  : Eff PluginManager unit := fun pm =>
  (Returns tt,
   {| plugins := plugins pm; tools := tools pm;
      resources := resources pm; prompts := f (prompts pm);
      logger := logger pm;
      currentRequestContext := currentRequestContext pm;
      workflowStates := workflowStates pm; world := world pm |}).

Definition set_workflowStates
  (f : gmap string JsValue -> gmap string JsValue)
  : Eff PluginManager unit := fun pm =>
  (Returns tt,
   {| plugins := plugins pm; tools := tools pm;
      resources := resources pm; prompts := prompts pm;
      logger := logger pm;
      currentRequestContext := currentRequestContext pm;
      workflowStates := f (workflowStates pm); world := world pm |}).

(** [setRequestContext(context)] *)
Definition setRequestContext (context : option UserRequestContext)
  : Eff PluginManager unit := fun pm =>
  (Returns tt,
   {| plugins := plugins pm; tools := tools pm;
      resources := resources pm; prompts := prompts pm;
      logger := logger pm;
      currentRequestContext := context;
      workflowStates := workflowStates pm; world := world pm |}).

(** A call [this.logger.<level>(message, detail)]. *)
Definition log (l : LogLevel) (message : string) (detail : option Thrown)
  : Eff PluginManager unit := fun pm =>
  (Returns tt,
   {| plugins := plugins pm; tools := tools pm;
      resources := resources pm; prompts := prompts pm;
      logger := logger pm ++ [{| log_level := l; log_message := message;
                                 log_detail := detail |}];
      currentRequestContext := currentRequestContext pm;
      workflowStates := workflowStates pm; world := world pm |}).

(** A middleware hook is given the tool name and the arguments, no context
    and no logger: it runs on [world] and leaves the rest of the manager
    alone. *)
Definition in_world {A} (f : Eff U A) : Eff PluginManager A := fun pm =>
  let '(o, w) := f (world pm) in
  (o,
   {| plugins := plugins pm; tools := tools pm;
      resources := resources pm; prompts := prompts pm;
      logger := logger pm;
      currentRequestContext := currentRequestContext pm;
      workflowStates := workflowStates pm; world := w |}).

(** What plugin code reaches of a manager. *)
Definition reach (pm : PluginManager) : Reach :=
  {| reach_own := world pm; reach_log := logger pm;
     reach_workflowStates := workflowStates pm;
     reach_requestContext := currentRequestContext pm |}.

(** Plugin code runs on what it can reach; the registries and the request
    context are as before when it is done. *)
Definition in_reach {A} (f : Eff Reach A) : Eff PluginManager A := fun pm =>
  let '(o, r) := f (reach pm) in
  (o,
   {| plugins := plugins pm; tools := tools pm;
      resources := resources pm; prompts := prompts pm;
      logger := reach_log r;
      currentRequestContext := currentRequestContext pm;
      workflowStates := reach_workflowStates r; world := reach_own r |}).

(** Plugin code that keeps to its own state. *)
Definition privately {A} (f : Eff U A) : Eff Reach A := fun r =>
  let '(o, w) := f (reach_own r) in
  (o,
   {| reach_own := w; reach_log := reach_log r;
      reach_workflowStates := reach_workflowStates r;
      reach_requestContext := reach_requestContext r |}).

(** A call [logger.<level>(message, detail)] on the logger built by
    [createPluginLogger(pluginName)], which forwards to the host's logger
    with the plugin's name in front. *)
Definition createPluginLogger (pluginName : string) (l : LogLevel)
  (message : string) (detail : option Thrown) : Eff Reach unit := fun r =>
  (Returns tt,
   {| reach_own := reach_own r;
      reach_log := reach_log r
                   ++ [{| log_level := l;
                          log_message := "[" +:+ pluginName +:+ "] "
                                         +:+ message;
                          log_detail := detail |}];
      reach_workflowStates := reach_workflowStates r;
      reach_requestContext := reach_requestContext r |}).

(** The object built by [createPluginContext(pluginId, config)]: its
    closures capture [pluginId] and the manager, nothing else. *)
Record PluginContext := {
  ctx_pluginId : string;
  ctx_config : JsValue
}.

Definition createPluginContext (pluginId : string) (config : JsValue)
  : PluginContext :=
  {| ctx_pluginId := pluginId;
     ctx_config := if truthy config then config else JObj [] |}.

(** [context.registerTool(tool)] *)
Definition registerTool (context : PluginContext) (tool : MCPToolDefinition)
  : Eff PluginManager unit :=
  let fullName := ctx_pluginId context +:+ ":" +:+ tool_name tool in
  exec set_tools (JsMap.set fullName tool);
  log LDebug ("Registered tool: " +:+ fullName) None.

(** [context.registerResource(resource)] *)
Definition registerResource (context : PluginContext)
  (resource : MCPResourceDefinition) : Eff PluginManager unit :=
  exec set_resources (JsMap.set (res_uri resource) resource);
  log LDebug ("Registered resource: " +:+ res_uri resource) None.

(** [context.registerPrompt(prompt)] *)
Definition registerPrompt (context : PluginContext)
  (prompt : MCPPromptDefinition) : Eff PluginManager unit :=
  let fullName := ctx_pluginId context +:+ ":" +:+ prompt_name prompt in
  exec set_prompts (JsMap.set fullName prompt);
  log LDebug ("Registered prompt: " +:+ fullName) None.

(** [plugin.initialize.call(context)] *)
Definition run_initialize (context : PluginContext) (steps : list InitStep)
  : Eff PluginManager unit :=
  for_of steps (fun step =>
    match step with
    | CallRegisterTool tool => registerTool context tool
    | CallRegisterResource resource => registerResource context resource
    | CallRegisterPrompt prompt => registerPrompt context prompt
    | Act f => in_reach f
    | Raise e => throw e
    end).

Definition plugin_id_or_unknown (plugin : MCPPlugin) : string :=
  match metadata plugin with
  | Some md => if JsString.truthy (meta_id md) then meta_id md else "unknown"
  | None => "unknown"
  end.

(** [registerPlugin(plugin, config)] *)
Definition registerPlugin (plugin : MCPPlugin) (config : JsValue)
  : Eff PluginManager unit :=
  try_catch
    (match metadata plugin with
     | None => throw (JsError "Plugin missing required metadata")
     | Some md =>
         if negb (JsString.truthy (meta_id md)) then
           throw (JsError "Plugin missing required metadata")
         else fun pm =>
           if JsMap.has (meta_id md) (plugins pm) then
             throw (JsError ("Plugin already registered: " +:+ meta_id md)) pm
           else
             (let context := createPluginContext (meta_id md) config in
              exec run_initialize context (initialize plugin);
              exec set_plugins (JsMap.set (meta_id md) plugin);
              log LInfo ("Registered plugin: " +:+ meta_name md +:+ " v"
                         +:+ meta_version md) None) pm
     end)
    (fun error =>
       exec log LError ("Failed to register plugin "
                        +:+ plugin_id_or_unknown plugin +:+ ":") (Some error);
       throw error).

(** The body of the loop of [shutdownPlugins] for one map entry. *)
Definition shutdown_one (entry : string * MCPPlugin)
  : Eff PluginManager unit :=
  let '(name, plugin) := entry in
  try_catch
    (match shutdown plugin with
     | Some f =>
         exec in_reach f;
         log LInfo ("Shutdown plugin: " +:+ name) None
     | None => ret tt
     end)
    (fun error =>
       log LError ("Failed to shutdown plugin " +:+ name +:+ ":")
           (Some error)).

(** [shutdownPlugins()] *)
Definition shutdownPlugins : Eff PluginManager unit := fun pm =>
  (exec for_of (plugins pm) shutdown_one;
   exec set_plugins (fun _ => JsMap.empty);
   exec set_tools (fun _ => JsMap.empty);
   exec set_resources (fun _ => JsMap.empty);
   exec set_prompts (fun _ => JsMap.empty);
   set_workflowStates (fun _ => ∅)) pm.

Definition getTool (name : string) (pm : PluginManager)
  : option MCPToolDefinition := JsMap.get name (tools pm).
Definition getResource (uri : string) (pm : PluginManager)
  : option MCPResourceDefinition := JsMap.get uri (resources pm).
Definition getPrompt (name : string) (pm : PluginManager)
  : option MCPPromptDefinition := JsMap.get name (prompts pm).
Definition getLoadedPluginNames (pm : PluginManager) : list string :=
  JsMap.keys (plugins pm).

(** [getWorkflowState(workflowId)] and [setWorkflowState(workflowId, state)]
    of the manager. *)
Definition getWorkflowState (workflowId : string) (pm : PluginManager)
  : option JsValue := workflowStates pm !! workflowId.

Definition setWorkflowState (workflowId : string) (state : JsValue)
  : Eff PluginManager unit :=
  set_workflowStates (fun m => <[workflowId := state]> m).

(** [this.currentRequestContext?.currentWorkflow], when it is truthy. *)
Definition current_workflow (pm : PluginManager) : option string :=
  match currentRequestContext pm with
  | Some rc =>
      match rc_currentWorkflow rc with
      | Some workflowId =>
          if JsString.truthy workflowId then Some workflowId else None
      | None => None
      end
  | None => None
  end.

(** [context.getWorkflowState()], the same closure in the registration
    context and in the per-call context. *)
Definition context_getWorkflowState (pm : PluginManager) : option JsValue :=
  match current_workflow pm with
  | Some workflowId => getWorkflowState workflowId pm
  | None => None
  end.

(** [context.updateWorkflowState(state)] *)
Definition context_updateWorkflowState (state : JsValue)
  : Eff PluginManager unit := fun pm =>
  match current_workflow pm with
  | Some workflowId => setWorkflowState workflowId state pm
  | None => ret tt pm
  end.

(** The manager with its log and plugin state replaced. *)
Definition with_log_world (pm : PluginManager) (l : list LogEntry) (w : U)
  : PluginManager :=
  {| plugins := plugins pm; tools := tools pm; resources := resources pm;
     prompts := prompts pm; logger := l;
     currentRequestContext := currentRequestContext pm;
     workflowStates := workflowStates pm; world := w |}.

(** The design's account of the host shutting one plugin down, to compare
    [shutdownPlugins] with: a plugin without [shutdown] is passed over;
    otherwise its [shutdown] runs once, and the host logs that it returned
    or, with the error, that it threw. *)
Definition shut_down_by_design (pm : PluginManager)
  (entry : string * MCPPlugin) : PluginManager :=
  match shutdown entry.2 with
  | None => pm
  | Some f =>
      let after := in_reach f pm in
      snd (match fst after with
           | Returns _ => log LInfo ("Shutdown plugin: " +:+ entry.1) None
           | Throws error =>
               log LError ("Failed to shutdown plugin " +:+ entry.1 +:+ ":")
                   (Some error)
           end (snd after))
  end.

(** The four registries of the host. *)
Definition registries (pm : PluginManager) :=
  (plugins pm, tools pm, resources pm, prompts pm).

(** ** The server (core/src/server.ts) *)

(** [class MCPServer]: the middleware list of the configuration and the
    plugin manager. *)
Record MCPServer := {
  middleware : list (MCPMiddleware U);
  pluginManager : PluginManager
}.

Definition in_pm {A} (f : Eff PluginManager A) : Eff MCPServer A :=
  fun srv =>
    let '(o, pm) := f (pluginManager srv) in
    (o, {| middleware := middleware srv; pluginManager := pm |}).

(** The [params] of a [tools/call] request. *)
Record CallToolParams := { ct_name : string; ct_arguments : JsValue }.

(** [typeof result === 'string' ? result : JSON.stringify(result, null, 2)] *)
Definition render_text (result : JsValue) : string :=
  match result with
  | JStr s => s
  | v => stringify v
  end.

(** The registration fields of the context built by
    [createToolExecutionContext()]. *)
Definition execution_registerTool (tool : MCPToolDefinition)
  : Eff MCPServer unit :=
  throw (JsError "Cannot register tools during execution").
Definition execution_registerResource (resource : MCPResourceDefinition)
  : Eff MCPServer unit :=
  throw (JsError "Cannot register resources during execution").
Definition execution_registerPrompt (prompt : MCPPromptDefinition)
  : Eff MCPServer unit :=
  throw (JsError "Cannot register prompts during execution").

Definition call_before (name : string) (arguments : JsValue)
  (m : MCPMiddleware U) : Eff MCPServer unit :=
  match mw_beforeToolCall m with
  | Some hook => in_pm (in_world (hook name arguments))
  | None => ret tt
  end.

Definition call_after (name : string) (arguments result : JsValue)
  (m : MCPMiddleware U) : Eff MCPServer unit :=
  match mw_afterToolCall m with
  | Some hook => in_pm (in_world (hook name arguments result))
  | None => ret tt
  end.

Definition call_onError (error : Thrown) (name : string)
  (m : MCPMiddleware U) : Eff MCPServer unit :=
  match mw_onError m with
  | Some hook => in_pm (in_world (hook error "tool" name))
  | None => ret tt
  end.

(** The handler set for [CallToolRequestSchema] in [setupHandlers]: the
    path of the stdio transport. *)
Definition callToolRequestHandler (params : CallToolParams)
  : Eff MCPServer string := fun srv =>
  let name := ct_name params in
  let arguments := ct_arguments params in
  match getTool name (pluginManager srv) with
  | None =>
      throw (McpError ErrorCode.MethodNotFound ("Tool not found: " +:+ name))
            srv
  | Some tool =>
      try_catch
        (exec for_of (middleware srv) (call_before name arguments);
         do result <- in_pm (in_reach (tool_handler tool arguments));
         exec for_of (middleware srv) (call_after name arguments result);
         ret (render_text result))
        (fun error =>
           exec in_pm (log LError ("Tool execution failed: " +:+ name)
                           (Some error));
           exec for_of (middleware srv) (call_onError error name);
           throw (McpError ErrorCode.InternalError
                    ("Tool execution failed: " +:+ error_message error)))
        srv
  end.

(** [handleToolCall(params)]: the path of the HTTP and WebSocket
    transports. *)
Definition handleToolCall (params : CallToolParams)
  : Eff MCPServer string := fun srv =>
  match getTool (ct_name params) (pluginManager srv) with
  | None =>
      throw (McpError ErrorCode.MethodNotFound
               ("Tool not found: " +:+ ct_name params)) srv
  | Some tool =>
      (do result <-
         in_pm (in_reach (tool_handler tool (ct_arguments params)));
       ret (render_text result)) srv
  end.

Record ToolInfo := {
  ti_name : string; ti_description : string; ti_inputSchema : JsValue
}.

(** [handleToolsList()] *)
Definition handleToolsList : Eff MCPServer (list ToolInfo) := fun srv =>
  ret (map (fun '(name, tool) =>
              {| ti_name := name;
                 ti_description := tool_description tool;
                 ti_inputSchema := tool_inputSchema tool |})
           (tools (pluginManager srv))) srv.

(** [x || fallback] for an optional string. *)
Definition or_default (x : option string) (fallback : string) : string :=
  match x with
  | Some s => if JsString.truthy s then s else fallback
  | None => fallback
  end.

Record ResourceInfo := {
  ri_uri : string; ri_name : string;
  ri_description : option string; ri_mimeType : option string
}.

(** [handleResourcesList()] *)
Definition handleResourcesList : Eff MCPServer (list ResourceInfo) :=
  fun srv =>
    ret (map (fun '(uri, resource) =>
                {| ri_uri := uri;
                   ri_name := res_name resource;
                   ri_description := res_description resource;
                   ri_mimeType := res_mimeType resource |})
             (resources (pluginManager srv))) srv.

Record ResourceContents := {
  rc_uri : string; rc_mimeType : string; rc_text : string
}.

(** [handleResourceRead(params)] with [params = {uri}] *)
Definition handleResourceRead (uri : string)
  : Eff MCPServer ResourceContents := fun srv =>
  match getResource uri (pluginManager srv) with
  | None =>
      throw (McpError ErrorCode.InvalidRequest
               ("Resource not found: " +:+ uri)) srv
  | Some resource =>
      (do content <- in_pm (in_reach (res_handler resource));
       ret {| rc_uri := uri;
              rc_mimeType := or_default (res_mimeType resource) "text/plain";
              rc_text := render_text content |}) srv
  end.

Record PromptInfo := {
  pi_name : string; pi_description : string; pi_arguments : JsValue
}.

(** [handlePromptsList()] *)
Definition handlePromptsList : Eff MCPServer (list PromptInfo) := fun srv =>
  ret (map (fun '(name, prompt) =>
              {| pi_name := name;
                 pi_description := prompt_description prompt;
                 pi_arguments := prompt_arguments prompt |})
           (prompts (pluginManager srv))) srv.

(** The [params] of a [prompts/get] request. *)
Record GetPromptParams := { gp_name : string; gp_arguments : JsValue }.

(** [handlePromptGet(params)] *)
Definition handlePromptGet (params : GetPromptParams)
  : Eff MCPServer (string * list MCPMessage) := fun srv =>
  match getPrompt (gp_name params) (pluginManager srv) with
  | None =>
      throw (McpError ErrorCode.InvalidRequest
               ("Prompt not found: " +:+ gp_name params)) srv
  | Some prompt =>
      (do messages <-
         in_pm (in_reach
                  (prompt_handler prompt
                     (if truthy (gp_arguments params) then gp_arguments params
                      else JObj [])));
       ret (prompt_description prompt, messages)) srv
  end.

(** The methods the transport handler dispatches on; [OtherMethod] is any
    method name outside the six. *)
Inductive Method :=
  | ToolsList
  | ToolsCall (params : CallToolParams)
  | ResourcesList
  | ResourcesRead (uri : string)
  | PromptsList
  | PromptsGet (params : GetPromptParams)
  | OtherMethod (name : string).

Inductive Payload :=
  | ToolsListResult (tools : list ToolInfo)
  | ToolsCallResult (text : string)
  | ResourcesListResult (resources : list ResourceInfo)
  | ResourcesReadResult (contents : ResourceContents)
  | PromptsListResult (prompts : list PromptInfo)
  | PromptsGetResult (description : string) (messages : list MCPMessage).

(** The request object a transport emits with its ['request'] event. *)
Record TransportRequest := {
  req_id : JsValue;
  req_method : Method;
  req_sessionId : option string;
  req_userId : option string;
  req_workflowId : option string;
  req_message : option string;
  req_metadata : JsValue
}.

(** What is passed to [respond]. *)
Inductive RpcResponse :=
  | RpcResult (id : JsValue) (result : Payload)
  | RpcFailure (id : JsValue) (code : Z) (message : string).

(** The ['request'] listener installed by [setupTransportHandlers]; [now] is
    the clock reading. *)
Definition on_request (now : Z) (request : TransportRequest)
  : MCPServer -> RpcResponse * MCPServer := fun srv =>
  let body : Eff MCPServer Payload :=
    exec in_pm (setRequestContext (Some
           {| rc_sessionId := or_default (req_sessionId request) "anonymous";
              rc_userId := or_default (req_userId request) "anonymous";
              rc_currentWorkflow := req_workflowId request;
              rc_message := or_default (req_message request) "";
              rc_timestamp := now;
              rc_metadata := req_metadata request |}));
    match req_method request with
    | ToolsList =>
        do r <- handleToolsList; ret (ToolsListResult r)
    | ToolsCall params =>
        do r <- handleToolCall params; ret (ToolsCallResult r)
    | ResourcesList =>
        do r <- handleResourcesList; ret (ResourcesListResult r)
    | ResourcesRead uri =>
        do r <- handleResourceRead uri; ret (ResourcesReadResult r)
    | PromptsList =>
        do r <- handlePromptsList; ret (PromptsListResult r)
    | PromptsGet params =>
        do r <- handlePromptGet params; ret (PromptsGetResult r.1 r.2)
    | OtherMethod m => throw (JsError ("Unknown method: " +:+ m))
    end in
  let '(response, srv1) :=
    match body srv with
    | (Returns r, srv') => (RpcResult (req_id request) r, srv')
    | (Throws error, srv') =>
        (RpcFailure (req_id request) (-32603) (error_message error),
         snd (in_pm (log LError "Request failed:" (Some error)) srv'))
    end in
  (response, snd (in_pm (setRequestContext None) srv1)).

(** A server computation whose outcome and effect on the plugin manager do
    not depend on the configured middleware. *)
Definition middleware_blind {A} (m : Eff MCPServer A) : Prop :=
  forall (mws mws' : list (MCPMiddleware U)) (pm : PluginManager),
    fst (m {| middleware := mws; pluginManager := pm |})
    = fst (m {| middleware := mws'; pluginManager := pm |})
    /\ pluginManager (snd (m {| middleware := mws; pluginManager := pm |}))
       = pluginManager (snd (m {| middleware := mws'; pluginManager := pm |})).

End Kernel.

Arguments tool_name {U}.
Arguments tool_description {U}.
Arguments tool_inputSchema {U}.
Arguments tool_handler {U}.
Arguments res_uri {U}.
Arguments res_name {U}.
Arguments res_description {U}.
Arguments res_mimeType {U}.
Arguments res_handler {U}.
Arguments prompt_name {U}.
Arguments prompt_description {U}.
Arguments prompt_arguments {U}.
Arguments prompt_handler {U}.
Arguments metadata {U}.
Arguments initialize {U}.
Arguments shutdown {U}.
Arguments plugins {U}.
Arguments tools {U}.
Arguments resources {U}.
Arguments prompts {U}.
Arguments logger {U}.
Arguments currentRequestContext {U}.
Arguments workflowStates {U}.
Arguments world {U}.
Arguments new_PluginManager {U}.
Arguments log {U}.
Arguments in_world {U A}.
Arguments reach_own {U}.
Arguments reach_log {U}.
Arguments reach_workflowStates {U}.
Arguments reach_requestContext {U}.
Arguments reach {U}.
Arguments in_reach {U A}.
Arguments privately {U A}.
Arguments createPluginLogger {U}.
Arguments registerTool {U}.
Arguments registerResource {U}.
Arguments registerPrompt {U}.
Arguments run_initialize {U}.
Arguments registerPlugin {U}.
Arguments shutdown_one {U}.
Arguments shutdownPlugins {U}.
Arguments getTool {U}.
Arguments getResource {U}.
Arguments getPrompt {U}.
Arguments getLoadedPluginNames {U}.
Arguments registries {U}.
Arguments with_log_world {U}.
Arguments middleware_blind {U A}.
Arguments setRequestContext {U}.
Arguments getWorkflowState {U}.
Arguments setWorkflowState {U}.
Arguments current_workflow {U}.
Arguments context_getWorkflowState {U}.
Arguments context_updateWorkflowState {U}.
Arguments shut_down_by_design {U}.
Arguments middleware {U}.
Arguments pluginManager {U}.
Arguments in_pm {U A}.
Arguments execution_registerTool {U}.
Arguments execution_registerResource {U}.
Arguments execution_registerPrompt {U}.
Arguments callToolRequestHandler {U}.
Arguments handleToolCall {U}.
Arguments handleToolsList {U}.
Arguments handleResourcesList {U}.
Arguments handleResourceRead {U}.
Arguments handlePromptsList {U}.
Arguments handlePromptGet {U}.
Arguments on_request {U}.

(* ===================================================================== *)
(** * Orchestration (packages/orchestration)                               *)
(* ===================================================================== *)

(** ** Types (types/src/orchestration.ts); dates are epoch milliseconds *)

Record WorkflowDefinition := {
  wf_id : string;
  wf_name : string;
  wf_description : string;
  triggers : list string;
  capabilities : list string;
  requiredContext : list string;
  category : option string
}.

Record WorkflowCheckpoint := {
  cp_id : string;
  cp_timestamp : Z;
  cp_step : string;
  cp_description : option string;
  cp_data : JsValue
}.

Record WorkflowHistoryEntry := {
  he_timestamp : Z;
  he_action : string;
  he_details : JsValue
}.

Record WorkflowMetadata := {
  startedAt : Z;
  lastModified : Z;
  completionPercentage : Q;
  isDraft : bool
}.

Record WorkflowState := {
  ws_workflowId : string;
  currentStep : string;
  ws_data : JsValue;
  ws_metadata : WorkflowMetadata;
  ws_checkpoints : list WorkflowCheckpoint
}.

Record WorkflowContext := {
  wc_workflowId : string;
  wc_state : WorkflowState;
  hydratedData : JsValue;
  wc_tools : list string;
  wc_history : list WorkflowHistoryEntry;
  wc_checkpoints : list WorkflowCheckpoint
}.

Record GlobalContext := {
  gc_userId : string;
  gc_userName : string;
  preferences : JsValue;
  activeProjects : list string;
  recentWorkflows : option (list string)
}.

Inductive Role := RUser | RAssistant | RSystem.

Record ConversationEntry := {
  ce_id : string;
  ce_timestamp : Z;
  ce_role : Role;
  ce_content : string
}.

Record UserSession := {
  sessionId : string;
  userId : string;
  userName : string;
  activeWorkflow : option string;
  currentContext : string;
  globalContext : GlobalContext;
  workflowContext : option WorkflowContext;
  conversationHistory : list ConversationEntry;
  createdAt : Z;
  updatedAt : Z
}.

Record Intent := {
  intent_name : string;
  intent_confidence : Q;
  intent_parameters : option JsValue
}.

Record ExtractedEntity := {
  entity_type : string;
  entity_value : string;
  entity_confidence : Q
}.

Record IntentAnalysis := {
  confidence : Q;
  intents : list Intent;
  entities : list ExtractedEntity;
  shouldSwitchWorkflow : bool;
  targetWorkflow : option string;
  extractedData : option JsValue
}.

(** ** The workflow registry (workflow-registry.ts) *)

Module WorkflowRegistry.

Definition t := JsMap.t WorkflowDefinition.

Definition register (definition : WorkflowDefinition) (r : t) : t :=
  JsMap.set (wf_id definition) definition r.

Definition get (id : string) (r : t) : option WorkflowDefinition :=
  JsMap.get id r.

Definition getAll (r : t) : list WorkflowDefinition := JsMap.values r.

(** [findByTrigger(trigger)], with the case mapping of the engine *)
Definition findByTrigger (toLowerCase : string -> string) (trigger : string)
  (r : t) : list WorkflowDefinition :=
  let lowerTrigger := toLowerCase trigger in
  List.filter
    (fun workflow =>
       JsString.some
         (fun t => JsString.includes (toLowerCase t) lowerTrigger)
         (triggers workflow))
    (getAll r).

Definition has (id : string) (r : t) : bool := JsMap.has id r.

Definition size (r : t) : nat := length r.

(** [workflow.category] *)
Definition category_of (workflow : WorkflowDefinition) : option string :=
  category workflow.

(** [findByCategory(category)] *)
Definition findByCategory (category : string) (r : t)
  : list WorkflowDefinition :=
  List.filter
    (fun workflow => bool_decide (category_of workflow = Some category))
    (getAll r).

(** [unregister(id)]: whether the id was registered, and the registry
    without it. *)
Definition unregister (id : string) (r : t) : bool * t :=
  (JsMap.has id r, JsMap.delete id r).

(** [clear()] *)
Definition clear (r : t) : t := JsMap.empty.

(** Every entry sits under the id of its definition, as [register] puts
    it. *)
Definition well_keyed (r : t) : Prop :=
  Forall (fun entry : string * WorkflowDefinition =>
            entry.1 = wf_id entry.2) r.

End WorkflowRegistry.

(** ** The rule-based intent detector (intent-detector.ts) *)

Module RuleBasedIntentDetector.

Local Open Scope Q_scope.

(** [Math.max(a, b)] *)
Definition Math_max (a b : Q) : Q := if Qle_bool a b then b else a.

Definition exitSignals : list string :=
  ["done"; "finished"; "complete"; "exit"; "stop"; "end session"; "quit"].

(** [fuzzyMatch(text, pattern)] *)
Definition fuzzyMatch (text pattern : string) : bool :=
  let words := JsString.split_space pattern in
  JsString.every (fun word => JsString.includes text word) words.

Definition string_length (s : string) : Q :=
  inject_Z (Z.of_nat (String.length s)).

Section Detector.

(** [s.toLowerCase()], the case mapping of the engine. *)
Variable toLowerCase : string -> string.

(** One turn of the loop of [calculateConfidence]. *)
Definition confidence_step (lowerMessage : string) (maxConfidence : Q)
  (trigger : string) : Q :=
  let lowerTrigger := toLowerCase trigger in
  if bool_decide (lowerMessage = lowerTrigger) then
    Math_max maxConfidence 1
  else if JsString.includes lowerMessage lowerTrigger then
    let ratio := string_length lowerTrigger / string_length lowerMessage in
    Math_max maxConfidence (ratio * (8 # 10))
  else if fuzzyMatch lowerMessage lowerTrigger then
    Math_max maxConfidence (6 # 10)
  else maxConfidence.

(** [calculateConfidence(message, triggers)]. The quotient and the product
    are exact here and rounded to doubles in the code; the rounded product
    [0.875 * 0.8] lies above the double [0.7] where the exact one equals
    7/10, so the properties about the threshold of [analyzeMessage] keep
    away from a ratio of exactly 7/8. *)
Definition calculateConfidence (message : string) (triggers : list string)
  : Q :=
  let lowerMessage := toLowerCase message in
  fold_left (confidence_step lowerMessage) triggers 0.

(** The regular-expression extractors [extractEntities(message)] and
    [extractWorkflowData(message, workflow)] (the latter also reads the
    clock). *)
Variable extractEntities : string -> list ExtractedEntity.
Variable extractWorkflowData : Z -> string -> WorkflowDefinition -> JsValue.

(** [analyzeMessage(message, session)] at clock reading [now]. *)
Definition analyzeMessage (registry : WorkflowRegistry.t) (now : Z)
  (message : string) (session : UserSession) : IntentAnalysis :=
  let lowerMessage := toLowerCase message in
  let shouldExit :=
    JsString.some (fun signal => JsString.includes lowerMessage signal)
                  exitSignals in
  if shouldExit && from_option JsString.truthy false (activeWorkflow session)
  then
    {| confidence := 9 # 10;
       intents := [ {| intent_name := "exit_workflow";
                       intent_confidence := 9 # 10;
                       intent_parameters := None |} ];
       entities := [];
       shouldSwitchWorkflow := true;
       targetWorkflow := None;
       extractedData := Some (JObj [("reason", JStr "user_requested")]) |}
  else
    let matchingWorkflows :=
      List.filter
        (fun workflow =>
           JsString.some
             (fun trigger =>
                JsString.includes lowerMessage (toLowerCase trigger))
             (triggers workflow))
        (WorkflowRegistry.getAll registry) in
    match matchingWorkflows with
    | bestMatch :: _ =>
        let confidence := calculateConfidence message (triggers bestMatch) in
        {| confidence := confidence;
           intents := [ {| intent_name := "switch_workflow";
                           intent_confidence := confidence;
                           intent_parameters :=
                             Some (JObj [("targetWorkflow",
                                          JStr (wf_id bestMatch))]) |} ];
           entities := extractEntities message;
           shouldSwitchWorkflow := negb (Qle_bool confidence (7 # 10));
           targetWorkflow := Some (wf_id bestMatch);
           extractedData := Some (extractWorkflowData now message bestMatch) |}
    | [] =>
        {| confidence := 1 # 10;
           intents := [ {| intent_name := "continue_current";
                           intent_confidence := 1 # 10;
                           intent_parameters := None |} ];
           entities := extractEntities message;
           shouldSwitchWorkflow := false;
           targetWorkflow := None;
           extractedData := None |}
    end.

End Detector.

End RuleBasedIntentDetector.

(** ** The context manager (context-manager.ts) *)

Module ContextManager.

(** [ContextLoader.loadContext(workflowId, sessionId)] *)
Definition ContextLoader : Type := string -> string -> Outcome WorkflowContext.

Record t := {
  registry : WorkflowRegistry.t;
  loaders : gmap string ContextLoader
}.

Definition registerLoader (workflowId : string) (loader : ContextLoader)
  (cm : t) : t :=
  {| registry := registry cm;
     loaders := <[workflowId := loader]> (loaders cm) |}.

(** [recent.indexOf(x)] followed by [recent.splice(index, 1)] when the index
    is not [-1]: the first occurrence goes. *)
Fixpoint remove_first (x : string) (recent : list string) : list string :=
  match recent with
  | [] => []
  | y :: rest => if decide (x = y) then rest else y :: remove_first x rest
  end.

(** The update of [session.globalContext.recentWorkflows] at the end of
    [switchContext]. *)
Definition update_recent (targetWorkflow : string)
  (recentWorkflows : option (list string)) : list string :=
  let recent := from_option id [] recentWorkflows in
  let recent := remove_first targetWorkflow recent in
  let recent := targetWorkflow :: recent in
  if (10 <? length recent)%nat then take 10 recent else recent.

Definition set_recent (recent : list string) (g : GlobalContext)
  : GlobalContext :=
  {| gc_userId := gc_userId g; gc_userName := gc_userName g;
     preferences := preferences g; activeProjects := activeProjects g;
     recentWorkflows := Some recent |}.

(** The context built when no loader is registered. *)
Definition basic_context (now : Z) (targetWorkflow : string)
  (workflow : WorkflowDefinition) (initData : JsValue) : WorkflowContext :=
  {| wc_workflowId := targetWorkflow;
     wc_state :=
       {| ws_workflowId := targetWorkflow;
          currentStep := "initial";
          ws_data := if truthy initData then initData else JObj [];
          ws_metadata := {| startedAt := now; lastModified := now;
                            completionPercentage := 0%Q; isDraft := true |};
          ws_checkpoints := [] |};
     hydratedData := JObj [];
     wc_tools := capabilities workflow;
     wc_history := [];
     wc_checkpoints := [] |}.

(** [switchContext(session, targetWorkflow, initData)]: the session as the
    call leaves it. Each [throw] comes before the first write to the
    session. *)
Definition switchContext (cm : t) (now : Z) (session : UserSession)
  (targetWorkflow : option string) (initData : JsValue)
  : Outcome UserSession :=
  match targetWorkflow with
  | Some target =>
      if JsString.truthy target then
        match WorkflowRegistry.get target (registry cm) with
        | None => Throws (JsError ("Workflow not found: " +:+ target))
        | Some workflow =>
            let loaded :=
              match loaders cm !! target with
              | Some loader => loader target (sessionId session)
              | None => Returns (basic_context now target workflow initData)
              end in
            match loaded with
            | Throws e => Throws e
            | Returns context =>
                Returns
                  {| sessionId := sessionId session;
                     userId := userId session;
                     userName := userName session;
                     activeWorkflow := Some target;
                     currentContext := target;
                     globalContext :=
                       set_recent
                         (update_recent target
                            (recentWorkflows (globalContext session)))
                         (globalContext session);
                     workflowContext := Some context;
                     conversationHistory := conversationHistory session;
                     createdAt := createdAt session;
                     updatedAt := updatedAt session |}
            end
        end
      else
        Returns
          {| sessionId := sessionId session; userId := userId session;
             userName := userName session;
             activeWorkflow := None; currentContext := "general";
             globalContext := globalContext session;
             workflowContext := None;
             conversationHistory := conversationHistory session;
             createdAt := createdAt session; updatedAt := updatedAt session |}
  | None =>
      Returns
        {| sessionId := sessionId session; userId := userId session;
           userName := userName session;
           activeWorkflow := None; currentContext := "general";
           globalContext := globalContext session;
           workflowContext := None;
           conversationHistory := conversationHistory session;
           createdAt := createdAt session; updatedAt := updatedAt session |}
  end.

Definition set_workflowContext (context : option WorkflowContext)
  (session : UserSession) : UserSession :=
  {| sessionId := sessionId session; userId := userId session;
     userName := userName session;
     activeWorkflow := activeWorkflow session;
     currentContext := currentContext session;
     globalContext := globalContext session;
     workflowContext := context;
     conversationHistory := conversationHistory session;
     createdAt := createdAt session; updatedAt := updatedAt session |}.

(** [updateWorkflowProgress(session, step, percentage)] at clock reading
    [now]. *)
Definition updateWorkflowProgress (now : Z) (session : UserSession)
  (step : string) (percentage : Q) : UserSession :=
  match workflowContext session with
  | Some context =>
      let state := wc_state context in
      set_workflowContext
        (Some
           {| wc_workflowId := wc_workflowId context;
              wc_state :=
                {| ws_workflowId := ws_workflowId state;
                   currentStep := step;
                   ws_data := ws_data state;
                   ws_metadata :=
                     {| startedAt := startedAt (ws_metadata state);
                        lastModified := now;
                        completionPercentage := percentage;
                        isDraft := isDraft (ws_metadata state) |};
                   ws_checkpoints := ws_checkpoints state |};
              hydratedData := hydratedData context;
              wc_tools := wc_tools context;
              wc_history :=
                wc_history context
                ++ [ {| he_timestamp := now;
                        he_action := "progress_update";
                        he_details :=
                          JObj [("step", JStr step);
                                ("percentage", JNum percentage)] |} ];
              wc_checkpoints := wc_checkpoints context |})
        session
  | None => session
  end.

Section Checkpoints.

(** The decimal rendering of a number in a template string. *)
Variable show_Z : Z -> string.

(** [addWorkflowCheckpoint(session, description, data)] at clock reading
    [now]. The arrays [state.checkpoints] and [workflowContext.checkpoints]
    are two objects, as [switchContext] builds them. *)
Definition addWorkflowCheckpoint (now : Z) (session : UserSession)
  (description : option string) (data : JsValue) : UserSession :=
  match workflowContext session with
  | Some context =>
      let state := wc_state context in
      let checkpoint :=
        {| cp_id := "checkpoint_" +:+ show_Z now;
           cp_timestamp := now;
           cp_step := currentStep state;
           cp_description :=
             Some (match description with
                   | Some text =>
                       if JsString.truthy text then text
                       else "Checkpoint at " +:+ currentStep state
                   | None => "Checkpoint at " +:+ currentStep state
                   end);
           cp_data := if truthy data then data else JObj [] |} in
      set_workflowContext
        (Some
           {| wc_workflowId := wc_workflowId context;
              wc_state :=
                {| ws_workflowId := ws_workflowId state;
                   currentStep := currentStep state;
                   ws_data := ws_data state;
                   ws_metadata := ws_metadata state;
                   ws_checkpoints := ws_checkpoints state ++ [checkpoint] |};
              hydratedData := hydratedData context;
              wc_tools := wc_tools context;
              wc_history :=
                wc_history context
                ++ [ {| he_timestamp := now;
                        he_action := "checkpoint_added";
                        he_details :=
                          JObj [("checkpointId", JStr (cp_id checkpoint));
                                ("description",
                                 match description with
                                 | Some text => JStr text
                                 | None => JUndefined
                                 end)] |} ];
              wc_checkpoints := wc_checkpoints context ++ [checkpoint] |})
        session
  | None => session
  end.

End Checkpoints.

(** The two checkpoint lists of a session's workflow context, if it has
    one. *)
Definition checkpoints_of (session : UserSession)
  : option (list WorkflowCheckpoint * list WorkflowCheckpoint) :=
  match workflowContext session with
  | Some context =>
      Some (ws_checkpoints (wc_state context), wc_checkpoints context)
  | None => None
  end.

End ContextManager.

(** ** Session stores (types/src/orchestration.ts, stores/memory-store.ts) *)

(** [interface SessionStore] over a store state [ST]. *)
Class SessionStore (ST : Type) := {
  store_get : string -> Eff ST (option UserSession);
  store_set : UserSession -> Eff ST unit;
  store_delete : string -> Eff ST unit;
  store_exists : string -> Eff ST bool;
  store_cleanup : option (Z -> Eff ST nat)
}.

Module InMemorySessionStore.

(** The field [sessions]. *)
Definition t := JsMap.t UserSession.

Definition get (sessionId : string) : Eff t (option UserSession) :=
  fun sessions => (Returns (JsMap.get sessionId sessions), sessions).

Definition set (session : UserSession) : Eff t unit :=
  fun sessions =>
    (Returns tt, JsMap.set (sessionId session) session sessions).

Definition delete (sessionId : string) : Eff t unit :=
  fun sessions => (Returns tt, JsMap.delete sessionId sessions).

Definition exists_ (sessionId : string) : Eff t bool :=
  fun sessions => (Returns (JsMap.has sessionId sessions), sessions).

(** [cleanup(olderThan)] *)
Definition cleanup (olderThan : Z) : Eff t nat :=
  fun sessions =>
    let stale := fun entry : string * UserSession =>
                   (updatedAt (snd entry) <? olderThan)%Z in
    (Returns (length (List.filter stale sessions)),
     List.filter (fun entry => negb (stale entry)) sessions).

End InMemorySessionStore.

#[export] Instance InMemorySessionStore_store
  : SessionStore InMemorySessionStore.t :=
  {| store_get := InMemorySessionStore.get;
     store_set := InMemorySessionStore.set;
     store_delete := InMemorySessionStore.delete;
     store_exists := InMemorySessionStore.exists_;
     store_cleanup := Some InMemorySessionStore.cleanup |}.

(** ** The session manager (session-manager.ts) *)

Module SessionManager.

Section WithStore.

Context {ST : Type} `{SessionStore ST}.

(** [now] is the clock reading during the call and [generated] the value
    [generateSessionId()] would return. *)
Variable now : Z.
Variable generated : string.

(** [sessionId || this.generateSessionId()] *)
Definition id_or_generated (sessionId : option string) : string :=
  match sessionId with
  | Some s => if JsString.truthy s then s else generated
  | None => generated
  end.

(** [createSession(userId, userName, sessionId)] *)
Definition createSession (userId userName : string)
  (sessionId : option string) : Eff ST UserSession :=
  let session :=
    {| sessionId := id_or_generated sessionId;
       userId := userId;
       userName := userName;
       activeWorkflow := None;
       currentContext := "general";
       globalContext :=
         {| gc_userId := userId; gc_userName := userName;
            preferences := JObj []; activeProjects := [];
            recentWorkflows := Some [] |};
       workflowContext := None;
       conversationHistory := [];
       createdAt := now;
       updatedAt := now |} in
  exec store_set session;
  ret session.

(** [getSession(sessionId)] *)
Definition getSession (sessionId : string) : Eff ST (option UserSession) :=
  store_get sessionId.

(** [getOrCreateSession(sessionId, userId, userName)] *)
Definition getOrCreateSession (sessionId : option string)
  (userId userName : string) : Eff ST UserSession :=
  match sessionId with
  | Some sid =>
      if JsString.truthy sid then
        do existing <- getSession sid;
        match existing with
        | Some session => ret session
        | None => createSession userId userName sessionId
        end
      else createSession userId userName sessionId
  | None => createSession userId userName sessionId
  end.

Definition stamp (session : UserSession) : UserSession :=
  {| sessionId := sessionId session; userId := userId session;
     userName := userName session;
     activeWorkflow := activeWorkflow session;
     currentContext := currentContext session;
     globalContext := globalContext session;
     workflowContext := workflowContext session;
     conversationHistory := conversationHistory session;
     createdAt := createdAt session; updatedAt := now |}.

(** [updateSession(session)]; the result is the session object as the call
    leaves it. *)
Definition updateSession (session : UserSession) : Eff ST UserSession :=
  let session := stamp session in
  exec store_set session;
  ret session.

(** [deleteSession(sessionId)] *)
Definition deleteSession (sessionId : string) : Eff ST bool :=
  do present <- store_exists sessionId;
  if present then exec store_delete sessionId; ret true
  else ret false.

(** [session.conversationHistory.push(message)] *)
Definition push_message (message : ConversationEntry) (session : UserSession)
  : UserSession :=
  {| sessionId := sessionId session; userId := userId session;
     userName := userName session;
     activeWorkflow := activeWorkflow session;
     currentContext := currentContext session;
     globalContext := globalContext session;
     workflowContext := workflowContext session;
     conversationHistory := conversationHistory session ++ [message];
     createdAt := createdAt session; updatedAt := updatedAt session |}.

(** [addMessage(sessionId, message)] *)
Definition addMessage (sessionId : string) (message : ConversationEntry)
  : Eff ST unit :=
  do session <- getSession sessionId;
  match session with
  | Some session =>
      exec updateSession (push_message message session);
      ret tt
  | None => ret tt
  end.

(** [cleanup()] with the configured [sessionTimeout]. *)
Definition cleanup (sessionTimeout : Z) : Eff ST nat :=
  let cutoffTime := (now - sessionTimeout)%Z in
  match store_cleanup with
  | Some f => f cutoffTime
  | None => ret 0%nat
  end.

End WithStore.

End SessionManager.

(** ** The orchestrator (orchestrator.ts) *)

Module Orchestrator.

Section Facade.

(** [s.toLowerCase()], the case mapping of the engine. *)
Variable toLowerCase : string -> string.
Variable extractEntities : string -> list ExtractedEntity.
Variable extractWorkflowData : Z -> string -> WorkflowDefinition -> JsValue.
(** The decimal rendering of a number in a template string. *)
Variable show_Z : Z -> string.

(** [class Orchestrator] with the default in-memory store. The context
    manager and the rule-based detector hold the same registry object as the
    orchestrator, hence the single field. A configured detector replaces the
    rule-based one. *)
Record t := {
  workflowRegistry : WorkflowRegistry.t;
  loaders : gmap string ContextManager.ContextLoader;
  intentDetector : option (string -> UserSession -> IntentAnalysis);
  sessions : InMemorySessionStore.t
}.

(** [session.sessionId] *)
Definition id_of (session : UserSession) : string := sessionId session.

Definition contextManager (o : t) : ContextManager.t :=
  {| ContextManager.registry := workflowRegistry o;
     ContextManager.loaders := loaders o |}.

(** [new Orchestrator()] *)
Definition create : t :=
  {| workflowRegistry := JsMap.empty; loaders := ∅;
     intentDetector := None; sessions := JsMap.empty |}.

(** [registerWorkflow(definition)] *)
Definition registerWorkflow (definition : WorkflowDefinition) (o : t) : t :=
  {| workflowRegistry := WorkflowRegistry.register definition (workflowRegistry o);
     loaders := loaders o; intentDetector := intentDetector o;
     sessions := sessions o |}.

Definition in_sessions {A} (f : Eff InMemorySessionStore.t A) : Eff t A :=
  fun o =>
    let '(r, s) := f (sessions o) in
    (r, {| workflowRegistry := workflowRegistry o; loaders := loaders o;
           intentDetector := intentDetector o; sessions := s |}).

Definition analyze (o : t) (now : Z) (message : string)
  (session : UserSession) : IntentAnalysis :=
  match intentDetector o with
  | Some detector => detector message session
  | None =>
      RuleBasedIntentDetector.analyzeMessage toLowerCase extractEntities
        extractWorkflowData (workflowRegistry o) now message session
  end.

Record ProcessResult := {
  result_session : UserSession;
  result_intent : IntentAnalysis;
  workflowChanged : bool
}.

(** [processMessage(message, sessionId, userId, userName)] at clock reading
    [now]. The in-memory store hands out the object it holds and copies it
    shallowly on [set], so the history array that [addMessage] pushes to is
    the one of [session]: after [addMessage] the local session carries the
    new entry. *)
Definition processMessage (now : Z) (generated : string) (message : string)
  (sessionId : option string) (userId userName : string)
  : Eff t ProcessResult :=
  do session <- in_sessions
      (SessionManager.getOrCreateSession now generated sessionId userId
         userName);
  let entry := {| ce_id := "msg_" +:+ show_Z now; ce_timestamp := now;
                  ce_role := RUser; ce_content := message |} in
  exec in_sessions (SessionManager.addMessage now (id_of session) entry);
  let session :=
    SessionManager.stamp now (SessionManager.push_message entry session) in
  fun o =>
    let intent := analyze o now message session in
    (do switched <-
       (if shouldSwitchWorkflow intent
           && from_option JsString.truthy false (targetWorkflow intent)
        then
          match ContextManager.switchContext (contextManager o) now session
                  (targetWorkflow intent)
                  (from_option id JUndefined (extractedData intent)) with
          | Returns session' => ret (session', true)
          | Throws e => throw e
          end
        else ret (session, false));
     do session <- in_sessions (SessionManager.updateSession now switched.1);
     ret {| result_session := session; result_intent := intent;
            workflowChanged := switched.2 |}) o.

(** [switchWorkflow(sessionId, targetWorkflow, initData)] *)
Definition switchWorkflow (now : Z) (sessionId : string)
  (targetWorkflow : option string) (initData : JsValue)
  : Eff t UserSession :=
  do found <- in_sessions (SessionManager.getSession sessionId);
  match found with
  | None => throw (JsError ("Session not found: " +:+ sessionId))
  | Some session =>
      fun o =>
        match ContextManager.switchContext (contextManager o) now session
                targetWorkflow initData with
        | Returns session' =>
            in_sessions (SessionManager.updateSession now session') o
        | Throws e => throw e o
        end
  end.

(** [updateWorkflowProgress(sessionId, step, percentage)] *)
Definition updateWorkflowProgress (now : Z) (sessionId : string)
  (step : string) (percentage : Q) : Eff t unit :=
  do found <- in_sessions (SessionManager.getSession sessionId);
  match found with
  | None => throw (JsError ("Session not found: " +:+ sessionId))
  | Some session =>
      exec in_sessions
             (SessionManager.updateSession now
                (ContextManager.updateWorkflowProgress now session step
                   percentage));
      ret tt
  end.

(** [addWorkflowCheckpoint(sessionId, description, data)] *)
Definition addWorkflowCheckpoint (now : Z) (sessionId : string)
  (description : option string) (data : JsValue) : Eff t unit :=
  do found <- in_sessions (SessionManager.getSession sessionId);
  match found with
  | None => throw (JsError ("Session not found: " +:+ sessionId))
  | Some session =>
      exec in_sessions
             (SessionManager.updateSession now
                (ContextManager.addWorkflowCheckpoint show_Z now session
                   description data));
      ret tt
  end.

(** [cleanupExpiredSessions()] for a session manager configured with
    [sessionTimeout]. *)
Definition cleanupExpiredSessions (now sessionTimeout : Z) : Eff t nat :=
  in_sessions (SessionManager.cleanup now sessionTimeout).

End Facade.

End Orchestrator.

(* ===================================================================== *)
(** * Sample plugins, middleware and workflows                             *)
(* ===================================================================== *)

Module Samples.

(** The plugin code of the samples keeps a journal of what ran. *)
Definition Journal : Type := list string.

Definition note {A} (line : string) (a : A) : Eff Journal A :=
  fun journal => (Returns a, journal ++ [line]).

Definition ping : MCPToolDefinition Journal :=
  {| tool_name := "ping"; tool_description := "Answers pong";
     tool_inputSchema := JObj [("type", JStr "object")];
     tool_handler :=
       fun _ => privately (note "ping.handler" (JStr "pong")) |}.

Definition late : MCPToolDefinition Journal :=
  {| tool_name := "late"; tool_description := "Registered after start-up";
     tool_inputSchema := JObj [("type", JStr "object")];
     tool_handler := fun _ => privately (note "late.handler" JNull) |}.

Definition status : MCPResourceDefinition Journal :=
  {| res_uri := "demo://status"; res_name := "status";
     res_description := None; res_mimeType := None;
     res_handler := privately (note "status.handler" (JStr "ok")) |}.

Definition greet : MCPPromptDefinition Journal :=
  {| prompt_name := "greet"; prompt_description := "A greeting";
     prompt_arguments := JArr [];
     prompt_handler := fun _ => privately (note "greet.handler" []) |}.

Definition meta (id : string) : PluginMetadata :=
  {| meta_id := id; meta_name := id; meta_version := "1.0.0";
     meta_description := "sample" |}.

(** A plugin registering the tool [ping], with a [shutdown] that returns. *)
Definition demo : MCPPlugin Journal :=
  {| metadata := Some (meta "demo");
     initialize := [CallRegisterTool Journal ping];
     shutdown := Some (privately (note "demo.shutdown" tt)) |}.

(** A plugin whose [shutdown] warns through the logger of its context and
    then throws. *)
Definition flaky : MCPPlugin Journal :=
  {| metadata := Some (meta "flaky");
     initialize := [];
     shutdown := Some (exec privately (note "flaky.shutdown" tt);
                       exec createPluginLogger "flaky" LWarn "closing" None;
                       throw (JsError "socket closed")) |}.

(** A plugin without [shutdown]. *)
Definition quiet : MCPPlugin Journal :=
  {| metadata := Some (meta "quiet");
     initialize := [CallRegisterResource Journal status];
     shutdown := None |}.

(** A second plugin whose [shutdown] returns. *)
Definition omega : MCPPlugin Journal :=
  {| metadata := Some (meta "omega");
     initialize := [CallRegisterPrompt Journal greet];
     shutdown := Some (privately (note "omega.shutdown" tt)) |}.

(** The host after [registerPlugin(demo)]. *)
Definition host_demo : PluginManager Journal :=
  snd (registerPlugin demo JUndefined (new_PluginManager [])).

(** The host after registering [demo], [flaky], [quiet] and [omega], in
    this order. *)
Definition host_four : PluginManager Journal :=
  snd (for_of [demo; flaky; quiet; omega]
         (fun plugin => registerPlugin plugin JUndefined)
         (new_PluginManager [])).

(** A middleware with all three hooks, each leaving a line in the journal. *)
Definition audit : MCPMiddleware Journal :=
  {| mw_name := "audit";
     mw_beforeToolCall := Some (fun _ _ => note "audit.before" tt);
     mw_afterToolCall := Some (fun _ _ _ => note "audit.after" tt);
     mw_onError := Some (fun _ _ _ => note "audit.onError" tt) |}.

(** A server configured with [audit] and the validation middleware, after
    [registerPlugin(demo)]. *)
Definition server : MCPServer Journal :=
  {| middleware := [audit; ValidationMiddleware.middleware];
     pluginManager := host_demo |}.

Definition ping_request (arguments : JsValue) : TransportRequest :=
  {| req_id := JNum 1;
     req_method := ToolsCall {| ct_name := "demo:ping";
                                ct_arguments := arguments |};
     req_sessionId := None; req_userId := None; req_workflowId := None;
     req_message := None; req_metadata := JUndefined |}.

(** The workflow of the design document's scenarios. *)
Definition character_creation : WorkflowDefinition :=
  {| wf_id := "character-creation"; wf_name := "Character creation";
     wf_description := "Builds a character sheet";
     triggers := ["create character"];
     capabilities := ["create_character"];
     requiredContext := []; category := None |}.

(** A workflow registered under the empty id. *)
Definition unnamed_workflow : WorkflowDefinition :=
  {| wf_id := ""; wf_name := "Unnamed"; wf_description := "No id";
     triggers := ["unnamed"]; capabilities := [];
     requiredContext := []; category := None |}.

Definition context_manager : ContextManager.t :=
  {| ContextManager.registry :=
       WorkflowRegistry.register unnamed_workflow
         (WorkflowRegistry.register character_creation JsMap.empty);
     ContextManager.loaders := ∅ |}.

(** A session in the general context with the given [recentWorkflows]. *)
Definition session_with (recent : option (list string)) : UserSession :=
  {| sessionId := "s1"; userId := "u"; userName := "U";
     activeWorkflow := None; currentContext := "general";
     globalContext :=
       {| gc_userId := "u"; gc_userName := "U"; preferences := JObj [];
          activeProjects := []; recentWorkflows := recent |};
     workflowContext := None; conversationHistory := [];
     createdAt := 0; updatedAt := 0 |}.

(** [session.globalContext.recentWorkflows] after a call that returned. *)
Definition recent_after (o : Outcome UserSession) : option (list string) :=
  match o with
  | Returns session => recentWorkflows (globalContext session)
  | Throws _ => None
  end.

(** An orchestrator with [character_creation] registered. *)
Definition orchestrator : Orchestrator.t :=
  Orchestrator.registerWorkflow character_creation Orchestrator.create.

Definition hello : ConversationEntry :=
  {| ce_id := "msg_5"; ce_timestamp := 5; ce_role := RUser;
     ce_content := "hello" |}.

(** A plugin whose [initialize] registers a tool and then throws. *)
Definition broken : MCPPlugin Journal :=
  {| metadata := Some (meta "broken");
     initialize := [CallRegisterTool Journal ping; Raise Journal (JsError "boom");
                    CallRegisterTool Journal late];
     shutdown := None |}.

(** A resource of another plugin under the uri of [status]. *)
Definition status_again : MCPResourceDefinition Journal :=
  {| res_uri := "demo://status"; res_name := "status of omega";
     res_description := None; res_mimeType := Some "text/plain";
     res_handler := privately (note "status_again.handler" (JStr "fine")) |}.

(** Requests of two users in two sessions, both in the workflow
    ["character-creation"]. *)
Definition request_of (session user : string) : UserRequestContext :=
  {| rc_sessionId := session; rc_userId := user;
     rc_currentWorkflow := Some "character-creation";
     rc_message := ""; rc_timestamp := 0; rc_metadata := JUndefined |}.

(** A session with the given id and time of last update. *)
Definition session_named (id : string) (updated : Z) : UserSession :=
  {| sessionId := id; userId := "u"; userName := "U";
     activeWorkflow := None; currentContext := "general";
     globalContext :=
       {| gc_userId := "u"; gc_userName := "U"; preferences := JObj [];
          activeProjects := []; recentWorkflows := Some [] |};
     workflowContext := None; conversationHistory := [hello];
     createdAt := 0; updatedAt := updated |}.

(** A store with the sessions ["old"], last updated at 100, and ["new"],
    last updated at 900. *)
Definition two_sessions : InMemorySessionStore.t :=
  JsMap.set "new" (session_named "new" 900)
    (JsMap.set "old" (session_named "old" 100) JsMap.empty).

(** The session [session_with None] after entering
    ["character-creation"]. *)
Definition session_in_workflow : UserSession :=
  match ContextManager.switchContext context_manager 7 (session_with None)
          (Some "character-creation") JUndefined with
  | Returns session => session
  | Throws _ => session_with None
  end.

End Samples.

(* ===================================================================== *)
(** * Properties                                                           *)
(* ===================================================================== *)

(** ** Effects *)

(** A loop keeps whatever each turn keeps. *)
Lemma for_of_keeps {S A T : Type} (g : S -> T) (body : A -> Eff S unit)
  (xs : list A) :
  (forall x s, g (snd (body x s)) = g s) ->
  forall s, g (snd (for_of xs body s)) = g s.
Proof.
  intros Hbody. induction xs as [|x xs IH]; intros s; [done|].
  simpl. unfold bind. specialize (Hbody x s).
  destruct (body x s) as [[[]|e] s1]; simpl in *; [|done].
  by rewrite IH.
Qed.

(** ** Validation middleware *)

Section ValidationProps.

Context {U : Type}.

(** C5, as stated, fails: an array argument passes the validation
    middleware, because [typeof] of an array is ['object']. *)
Lemma validation_accepts_array :
  ValidationMiddleware.beforeToolCall "demo:echo" (JArr [JStr "hi"]) tt
  = (Returns tt, tt).
Proof. reflexivity. Qed.

(** C5, amended: [beforeToolCall] of the validation middleware returns
    normally exactly for plain objects and for arrays, and throws
    ["Invalid parameters ... expected object"] for [undefined], [null] and
    every boolean, number and string; it never changes the state. *)
Theorem validation_before_spec (toolName : string) (params : JsValue) (u : U) :
  ValidationMiddleware.beforeToolCall toolName params u =
  match params with
  | JObj _ | JArr _ => (Returns tt, u)
  | _ => (Throws (JsError ("Invalid parameters for tool " +:+ toolName
                           +:+ ": expected object")), u)
  end.
Proof.
  unfold ValidationMiddleware.beforeToolCall.
  destruct params as [| |b|q|s|items|fields]; simpl; try reflexivity.
  - destruct b; reflexivity.
  - destruct (Qeq_bool q 0); reflexivity.
  - destruct s; reflexivity.
Qed.

End ValidationProps.

(** ** Rate-limit middleware *)

Section RateLimitProps.

Import RateLimitMiddleware.

Lemma before_config now k p rl :
  maxCalls (snd (beforeToolCall now k p rl)) = maxCalls rl
  /\ windowMs (snd (beforeToolCall now k p rl)) = windowMs rl.
Proof.
  unfold beforeToolCall.
  destruct (callCounts rl !! k) as [record|]; [|done].
  destruct (resetTime record <? now)%Z; [done|].
  destruct (maxCalls rl <=? count record)%Z; done.
Qed.

Lemma before_other now k k' p rl :
  k <> k' ->
  callCounts (snd (beforeToolCall now k p rl)) !! k' = callCounts rl !! k'.
Proof.
  intros Hne. unfold beforeToolCall.
  destruct (callCounts rl !! k) as [record|]; simpl.
  - destruct (resetTime record <? now)%Z; simpl.
    + by rewrite lookup_insert_ne.
    + destruct (maxCalls rl <=? count record)%Z; simpl; [done|].
      by rewrite lookup_insert_ne.
  - by rewrite lookup_insert_ne.
Qed.

(** A call that opens a window leaves the record [{1, now + windowMs}]. *)
Lemma before_opens now k p rl :
  opens_window rl k now ->
  fst (beforeToolCall now k p rl) = Returns tt
  /\ callCounts (snd (beforeToolCall now k p rl)) !! k
     = Some {| count := 1; resetTime := now + windowMs rl |}.
Proof.
  unfold opens_window, beforeToolCall.
  destruct (callCounts rl !! k) as [record|]; simpl.
  - intros Hlt. apply Z.ltb_lt in Hlt. rewrite Hlt. simpl.
    by rewrite lookup_insert_eq.
  - intros _. by rewrite lookup_insert_eq.
Qed.

Lemma passed_of_cons_same k c ps :
  tool c = k -> passed_of k (c :: ps) = (1 + passed_of k ps)%Z.
Proof.
  intros Hk. unfold passed_of. rewrite filter_cons_True by done.
  simpl length. lia.
Qed.

Lemma passed_of_cons_other k c ps :
  tool c <> k -> passed_of k (c :: ps) = passed_of k ps.
Proof.
  intros Hk. unfold passed_of. by rewrite filter_cons_False.
Qed.

Lemma passed_of_nonneg k ps : (0 <= passed_of k ps)%Z.
Proof. unfold passed_of. lia. Qed.

(** Inside a window: with [c] calls already counted, at most
    [maxCalls - c] further calls of the tool pass before the clock leaves the
    window. *)
Lemma passed_within_window k r rest :
  forall rl c,
    callCounts rl !! k = Some {| count := c; resetTime := r |} ->
    (c <= maxCalls rl)%Z ->
    (forall x, x ∈ rest -> tool x = k -> (at_ms x <= r)%Z) ->
    (passed_of k (passed rl rest) <= maxCalls rl - c)%Z.
Proof.
  induction rest as [|x rest IH]; intros rl c Hrec Hc Hin.
  - unfold passed, passed_of. simpl. lia.
  - unfold passed. simpl.
    destruct (decide (tool x = k)) as [Hk|Hk].
    + assert (at_ms x <= r)%Z as Hle by (apply Hin; [left|done]).
      unfold beforeToolCall at 1. rewrite Hk, Hrec. simpl.
      destruct (r <? at_ms x)%Z eqn:Hreset; [apply Z.ltb_lt in Hreset; lia|].
      destruct (maxCalls rl <=? c)%Z eqn:Hfull.
      * apply (IH rl c); [done|done|].
        intros y Hy. apply Hin. by right.
      * apply Z.leb_gt in Hfull.
        set (rl' := set_counts rl _).
        specialize (IH rl' (c + 1)%Z).
        destruct (run rl' rest) as [ps rl''] eqn:Hrun. simpl.
        rewrite passed_of_cons_same by done.
        unfold passed in IH. rewrite Hrun in IH. simpl in IH.
        assert (passed_of k ps <= maxCalls rl' - (c + 1))%Z as Hps.
        { apply IH.
          - subst rl'. simpl. by rewrite lookup_insert_eq.
          - subst rl'. simpl. lia.
          - intros y Hy. apply Hin. by right. }
        subst rl'. simpl in Hps. lia.
    + pose proof (before_other (at_ms x) (tool x) k JUndefined rl Hk) as Hoth.
      pose proof (before_config (at_ms x) (tool x) JUndefined rl) as [Hm _].
      destruct (beforeToolCall (at_ms x) (tool x) JUndefined rl)
        as [[|e] rl'] eqn:Hb; simpl in Hoth, Hm.
      * specialize (IH rl' c).
        destruct (run rl' rest) as [ps rl''] eqn:Hrun. simpl.
        rewrite passed_of_cons_other by done.
        unfold passed in IH. rewrite Hrun in IH. simpl in IH.
        rewrite <- Hm. apply IH.
        -- by rewrite Hoth.
        -- lia.
        -- intros y Hy. apply Hin. by right.
      * rewrite <- Hm. apply (IH rl' c).
        -- by rewrite Hoth.
        -- lia.
        -- intros y Hy. apply Hin. by right.
Qed.

(** C3, as stated, fails: with [maxCalls = 2] and [windowMs = 10] the calls
    at 0, 9, 11 and 12 ms all pass, so three calls pass inside the 10 ms
    window that starts at 9. (And with [maxCalls = 0] the call that opens a
    window passes, uncounted against the limit.) *)
Lemma rate_limit_sliding_window_exceeded :
  let rl := create 2 10 in
  let calls := [ {| tool := "demo:echo"; at_ms := 0 |};
                 {| tool := "demo:echo"; at_ms := 9 |};
                 {| tool := "demo:echo"; at_ms := 11 |};
                 {| tool := "demo:echo"; at_ms := 12 |} ] in
  passed rl calls = calls
  /\ passed_in_window "demo:echo" 9 (windowMs rl) (passed rl calls) = 3%Z
  /\ (maxCalls rl < 3)%Z
  /\ passed_in_window "demo:echo" 0 10
       (passed (create 0 10) [ {| tool := "demo:echo"; at_ms := 0 |} ])
     = 1%Z.
Proof. vm_compute. repeat split; reflexivity. Qed.

(** C3, amended: the limiter counts per fixed window. For [maxCalls >= 1],
    from a call of tool [k] at [t0] that opens a window (no record yet, or
    [t0] after the recorded reset time), at most [maxCalls] calls of [k]
    pass as long as every later call of [k] comes no later than
    [t0 + windowMs]; calls of other tools do not count. *)
Theorem rate_limit_fixed_window (rl : t) (k : string) (t0 : Z)
  (rest : list Call) :
  (1 <= maxCalls rl)%Z ->
  opens_window rl k t0 ->
  (forall x, x ∈ rest -> tool x = k -> (at_ms x <= t0 + windowMs rl)%Z) ->
  (passed_of k (passed rl ({| tool := k; at_ms := t0 |} :: rest))
   <= maxCalls rl)%Z.
Proof.
  intros Hmax Hopen Hin.
  destruct (before_opens t0 k JUndefined rl Hopen) as [Hret Hrec].
  pose proof (before_config t0 k JUndefined rl) as [Hm _].
  unfold passed. simpl.
  destruct (beforeToolCall t0 k JUndefined rl) as [o rl'] eqn:Hb.
  simpl in Hret, Hrec, Hm. subst o.
  pose proof (passed_within_window k (t0 + windowMs rl) rest rl' 1 Hrec) as Hw.
  unfold passed in Hw.
  destruct (run rl' rest) as [ps rl''] eqn:Hrun. simpl in *.
  rewrite passed_of_cons_same by done.
  rewrite Hm in Hw. specialize (Hw Hmax Hin). lia.
Qed.

(** The theorem at [maxCalls = 2], [windowMs = 10]: of four calls between
    0 and 10 ms, two pass. *)
Lemma rate_limit_fixed_window_witness :
  (passed_of "demo:echo"
     (passed (create 2 10)
        ({| tool := "demo:echo"; at_ms := 0 |}
         :: [ {| tool := "demo:echo"; at_ms := 3 |};
              {| tool := "other:tool"; at_ms := 50 |};
              {| tool := "demo:echo"; at_ms := 9 |};
              {| tool := "demo:echo"; at_ms := 10 |} ]))
   <= maxCalls (create 2 10))%Z.
Proof.
  apply (rate_limit_fixed_window (create 2 10) "demo:echo" 0).
  - vm_compute. discriminate.
  - vm_compute. exact I.
  - intros x Hx Hk.
    repeat (apply elem_of_cons in Hx as [->|Hx]; [vm_compute; discriminate || (simpl in Hk; discriminate)|]).
    by apply elem_of_nil in Hx.
Defined.

End RateLimitProps.

(** ** Insertion-ordered maps *)

Section JsMapProps.

Context {V : Type}.

Lemma JsMap_get_set_eq (k : string) (v : V) (m : JsMap.t V) :
  JsMap.get k (JsMap.set k v m) = Some v.
Proof.
  induction m as [|[k' v'] m IH]; simpl.
  - by rewrite decide_True.
  - destruct (decide (k = k')) as [->|Hne]; simpl.
    + by rewrite decide_True.
    + by rewrite decide_False.
Qed.

Lemma JsMap_get_set_ne (k k' : string) (v : V) (m : JsMap.t V) :
  k <> k' -> JsMap.get k' (JsMap.set k v m) = JsMap.get k' m.
Proof.
  intros Hne. induction m as [|[k0 v0] m IH]; simpl.
  - by rewrite decide_False.
  - destruct (decide (k = k0)) as [->|Hne0]; simpl.
    + by rewrite !decide_False.
    + destruct (decide (k' = k0)); [done|apply IH].
Qed.

(** A new key goes to the end of the iteration order. *)
Lemma JsMap_set_fresh (k : string) (v : V) (m : JsMap.t V) :
  JsMap.has k m = false -> JsMap.set k v m = m ++ [(k, v)].
Proof.
  unfold JsMap.has. induction m as [|[k' v'] m IH]; simpl; [done|].
  destruct (decide (k = k')); [done|].
  intros Hm. by rewrite IH.
Qed.

End JsMapProps.

(** ** Plugin host *)

Section PluginHostProps.

Context {U : Type}.

Implicit Types (pm : PluginManager U) (plugin : MCPPlugin U).

Lemma run_initialize_plugins context steps pm :
  plugins (snd (run_initialize context steps pm)) = plugins pm.
Proof.
  unfold run_initialize. apply (for_of_keeps plugins).
  intros step s. destruct step as [tool|resource|prompt|f|e]; try done.
  unfold in_reach. by destruct (f (reach s)) as [o r].
Qed.

(** A successful [registerPlugin] puts the plugin last in the iteration
    order of [plugins]. *)
Lemma registerPlugin_appends plugin config pm pm' md :
  metadata plugin = Some md ->
  registerPlugin plugin config pm = (Returns tt, pm') ->
  plugins pm' = plugins pm ++ [(meta_id md, plugin)].
Proof.
  intros Hmd. unfold registerPlugin, try_catch. rewrite Hmd.
  destruct (JsString.truthy (meta_id md)); simpl; [|discriminate].
  destruct (JsMap.has (meta_id md) (plugins pm)) eqn:Hhas; simpl;
    [discriminate|].
  unfold bind.
  pose proof (run_initialize_plugins
                (createPluginContext (meta_id md) config)
                (initialize plugin) pm) as Hkeep.
  destruct (run_initialize _ _ pm) as [[[]|e] pm1]; simpl in *;
    [|discriminate].
  intros [= <-]. simpl. rewrite Hkeep. by apply JsMap_set_fresh.
Qed.

(** One turn of the loop of [shutdownPlugins] never throws, and does what
    the design says of one plugin. *)
Lemma shutdown_one_by_design (name : string) plugin pm :
  shutdown_one (name, plugin) pm
  = (Returns tt, shut_down_by_design pm (name, plugin)).
Proof.
  unfold shutdown_one, shut_down_by_design, try_catch, bind. cbn [fst snd].
  destruct (shutdown plugin) as [f|]; [|done].
  by destruct (in_reach f pm) as [[[]|e] pm1].
Qed.

(** The whole loop: the plugins are taken in iteration order, whatever the
    outcomes of their [shutdown]s. *)
Lemma shutdown_loop (entries : list (string * MCPPlugin U)) :
  forall pm,
    for_of entries shutdown_one pm
    = (Returns tt, foldl shut_down_by_design pm entries).
Proof.
  induction entries as [|[name plugin] entries IH]; intros pm; [done|].
  cbn [for_of foldl]. unfold bind. rewrite shutdown_one_by_design.
  apply IH.
Qed.

(** [shutdownPlugins()] never throws and leaves the four registries and the
    workflow states empty. *)
Lemma shutdownPlugins_spec pm :
  exists lines context w,
    shutdownPlugins pm
    = (Returns tt,
       {| plugins := JsMap.empty; tools := JsMap.empty;
          resources := JsMap.empty; prompts := JsMap.empty;
          logger := lines;
          currentRequestContext := context;
          workflowStates := ∅; world := w |}).
Proof.
  unfold shutdownPlugins, bind. rewrite shutdown_loop. by eexists _, _, _.
Qed.

(** C4, as stated, fails: after [registerPlugin(demo)] has returned, a call
    of [registerTool] on the context that [demo] was initialised with
    returns normally and adds ["demo:late"] to the tool registry. *)
Lemma registration_context_open_after_initialize :
  let context := createPluginContext "demo" JUndefined in
  registerPlugin Samples.demo JUndefined (new_PluginManager [])
  = (Returns tt, Samples.host_demo)
  /\ getTool "demo:late" Samples.host_demo = None
  /\ fst (registerTool context Samples.late Samples.host_demo) = Returns tt
  /\ getTool "demo:late"
       (snd (registerTool context Samples.late Samples.host_demo))
     = Some Samples.late.
Proof. repeat split; reflexivity. Qed.

(** C4, amended: the registration context is never sealed. After
    [registerPlugin] has returned for a plugin with id [pluginId], the
    context's [registerTool], [registerPrompt] and [registerResource] still
    return normally and store the entry under ["{pluginId}:{name}"]
    (the resource under its uri); it is the separate per-call context given
    to handlers whose three registration functions throw, leaving the server
    as it is. *)
Theorem registration_context_never_sealed plugin config pm pm' md
  (stringify : JsValue -> string) :
  metadata plugin = Some md ->
  registerPlugin plugin config pm = (Returns tt, pm') ->
  let context := createPluginContext (meta_id md) config in
  (forall tool,
      fst (registerTool context tool pm') = Returns tt
      /\ getTool (meta_id md +:+ ":" +:+ tool_name tool)
           (snd (registerTool context tool pm')) = Some tool)
  /\ (forall prompt,
        fst (registerPrompt context prompt pm') = Returns tt
        /\ getPrompt (meta_id md +:+ ":" +:+ prompt_name prompt)
             (snd (registerPrompt context prompt pm')) = Some prompt)
  /\ (forall resource,
        fst (registerResource context resource pm') = Returns tt
        /\ getResource (res_uri resource)
             (snd (registerResource context resource pm')) = Some resource)
  /\ (forall tool resource prompt (srv : MCPServer U),
        execution_registerTool tool srv
        = (Throws (JsError "Cannot register tools during execution"), srv)
        /\ execution_registerResource resource srv
          = (Throws (JsError "Cannot register resources during execution"),
             srv)
        /\ execution_registerPrompt prompt srv
          = (Throws (JsError "Cannot register prompts during execution"),
             srv)).
Proof.
  intros _ _ context. repeat split.
  - unfold registerTool, getTool. simpl. apply JsMap_get_set_eq.
  - unfold registerPrompt, getPrompt. simpl. apply JsMap_get_set_eq.
  - unfold registerResource, getResource. simpl. apply JsMap_get_set_eq.
Qed.

(** C6, amended: [shutdownPlugins] never throws and calls the [shutdown] of
    every plugin that has one exactly once, in registration order (the
    iteration order of [plugins], first registered first): what it leaves
    of the host is what the design's account of shutting one plugin down,
    applied to the plugins from first to last, leaves of it, with the
    registries and the workflow states cleared. Each [shutdown] runs on what
    the ones before it left; the host logs ["Shutdown plugin: id"] when it
    returned and ["Failed to shutdown plugin id:"] with the error when it
    threw, and goes on to the next plugin in either case. *)
Theorem shutdown_in_registration_order pm :
  let after := foldl shut_down_by_design pm (plugins pm) in
  shutdownPlugins pm
  = (Returns tt,
     {| plugins := JsMap.empty; tools := JsMap.empty;
        resources := JsMap.empty; prompts := JsMap.empty;
        logger := logger after;
        currentRequestContext := currentRequestContext after;
        workflowStates := ∅; world := world after |}).
Proof.
  intros after. subst after.
  unfold shutdownPlugins, bind. by rewrite shutdown_loop.
Qed.

(** C7, amended: whatever was registered before, [registerPlugin] followed
    by [shutdownPlugins] leaves the plugin, tool, resource and prompt
    registries empty; the state before the registration comes back when it
    was that of a new host. *)
Theorem register_then_shutdown_clears_registries plugin config pm (w : U) :
  registries (snd (shutdownPlugins (snd (registerPlugin plugin config pm))))
  = (JsMap.empty, JsMap.empty, JsMap.empty, JsMap.empty)
  /\ registries
       (snd (shutdownPlugins
               (snd (registerPlugin plugin config (new_PluginManager w)))))
     = registries (new_PluginManager w).
Proof.
  split.
  - by destruct (shutdownPlugins_spec (snd (registerPlugin plugin config pm)))
      as (lines & context & w' & ->).
  - by destruct (shutdownPlugins_spec
                   (snd (registerPlugin plugin config (new_PluginManager w))))
      as (lines & context & w' & ->).
Qed.

End PluginHostProps.

(** The theorem at the sample plugin [demo]. *)
Lemma registration_context_never_sealed_witness :
  fst (registerTool (createPluginContext "demo" JUndefined) Samples.late
         Samples.host_demo) = Returns tt
  /\ getTool "demo:late"
       (snd (registerTool (createPluginContext "demo" JUndefined)
               Samples.late Samples.host_demo)) = Some Samples.late.
Proof.
  apply (registration_context_never_sealed Samples.demo JUndefined
           (new_PluginManager []) Samples.host_demo (Samples.meta "demo")
           (fun _ => "")); reflexivity.
Defined.

(** C6, as stated, fails: with [demo], [flaky], [quiet] and [omega]
    registered in this order, the [shutdown]s run first to last, not last to
    first; [flaky]'s failure is logged, after the line that [flaky] itself
    wrote, and [omega]'s [shutdown] still runs. *)
Lemma shutdown_order_is_not_reversed :
  getLoadedPluginNames Samples.host_four = ["demo"; "flaky"; "quiet"; "omega"]
  /\ world (snd (shutdownPlugins Samples.host_four))
     = ["demo.shutdown"; "flaky.shutdown"; "omega.shutdown"]
  /\ world (snd (shutdownPlugins Samples.host_four))
     <> ["omega.shutdown"; "flaky.shutdown"; "demo.shutdown"]
  /\ map log_message
       (drop (length (logger Samples.host_four))
          (logger (snd (shutdownPlugins Samples.host_four))))
     = ["Shutdown plugin: demo"; "[flaky] closing";
        "Failed to shutdown plugin flaky:"; "Shutdown plugin: omega"].
Proof. repeat split; try reflexivity. vm_compute. discriminate. Qed.

(** C7, as stated, fails: with [demo] registered before, registering
    [quiet] and shutting down does not bring back the registries that held
    [demo] and its tool. *)
Lemma register_then_shutdown_loses_earlier_plugins :
  let before := Samples.host_demo in
  let after :=
    snd (shutdownPlugins (snd (registerPlugin Samples.quiet JUndefined before)))
  in
  fst (registerPlugin Samples.quiet JUndefined before) = Returns tt
  /\ getLoadedPluginNames before = ["demo"]
  /\ is_Some (getTool "demo:ping" before)
  /\ getLoadedPluginNames after = []
  /\ getTool "demo:ping" after = None
  /\ registries after <> registries before.
Proof.
  repeat split; try reflexivity.
  - vm_compute. eauto.
  - intros Heq. apply (f_equal (fun r => length r.1.1.1)) in Heq.
    vm_compute in Heq. discriminate.
Qed.


(** ** The two dispatch paths of [tools/call] *)

Section DispatchProps.

Context {U : Type}.
Variable stringify : JsValue -> string.

(** [handleToolCall], which serves the HTTP and WebSocket transports, never
    consults the configured middleware. *)
Lemma handleToolCall_ignores_middleware (params : CallToolParams)
  (mws mws' : list (MCPMiddleware U)) (pm : PluginManager U) :
  let r := handleToolCall stringify params
             {| middleware := mws; pluginManager := pm |} in
  let r' := handleToolCall stringify params
              {| middleware := mws'; pluginManager := pm |} in
  fst r = fst r' /\ pluginManager (snd r) = pluginManager (snd r').
Proof.
  unfold handleToolCall. simpl.
  destruct (getTool (ct_name params) pm) as [tool|]; simpl; [|done].
  unfold bind, in_pm, in_reach. simpl.
  destruct (tool_handler tool (ct_arguments params) (reach pm)) as [[v|e] r];
    done.
Qed.

(** On the stdio path a [beforeToolCall] that throws keeps the tool from
    running: the first middleware's hook failing leads straight to the error
    handling. *)
Lemma callTool_before_failure (params : CallToolParams)
  (m : MCPMiddleware U) (mws : list (MCPMiddleware U)) (pm : PluginManager U)
  (tool : MCPToolDefinition U) hook e w :
  getTool (ct_name params) pm = Some tool ->
  mw_beforeToolCall m = Some hook ->
  hook (ct_name params) (ct_arguments params) (world pm) = (Throws e, w) ->
  (forall m', m' ∈ m :: mws -> mw_onError m' = None) ->
  exists pm',
    callToolRequestHandler stringify params
      {| middleware := m :: mws; pluginManager := pm |}
    = (Throws (McpError ErrorCode.InternalError
                 ("Tool execution failed: " +:+ error_message e)),
       {| middleware := m :: mws; pluginManager := pm' |})
    /\ world pm' = w.
Proof.
  intros Htool Hhook Hthrow Hquiet.
  unfold callToolRequestHandler. simpl. rewrite Htool.
  unfold try_catch, bind. simpl.
  unfold call_before at 1. rewrite Hhook.
  unfold in_pm, in_world. simpl. rewrite Hthrow. simpl.
  assert (forall l srv, (forall m', m' ∈ l -> mw_onError m' = None) ->
            for_of l (call_onError U e (ct_name params)) srv
            = (Returns tt, srv)) as Hfor.
  { induction l as [|m0 l IH]; intros srv Hl; [done|].
    simpl. unfold bind, call_onError at 1.
    rewrite (Hl m0) by left. simpl. apply IH.
    intros m' Hm'. apply Hl. by right. }
  unfold call_onError at 1. rewrite (Hquiet m) by left. simpl.
  rewrite Hfor by (intros m' Hm'; apply Hquiet; by right).
  simpl. eauto.
Qed.

End DispatchProps.

(** C1 fails on the HTTP and WebSocket path. With the middleware
    [audit; validation] configured: for [arguments = {}] the stdio handler
    runs [audit]'s hooks around the tool, and for [arguments = null] it
    rejects the call before the tool runs; the transport listener runs the
    tool with no hook at all in both cases and answers [null] arguments
    with a result. *)
Theorem tools_call_transport_path_skips_middleware
  (stringify : JsValue -> string) :
  let stdio arguments :=
    callToolRequestHandler stringify
      {| ct_name := "demo:ping"; ct_arguments := arguments |} Samples.server in
  let http arguments :=
    on_request stringify 0 (Samples.ping_request arguments) Samples.server in
  fst (stdio (JObj [])) = Returns "pong"
  /\ world (pluginManager (snd (stdio (JObj []))))
     = ["audit.before"; "ping.handler"; "audit.after"]
  /\ fst (stdio JNull)
     = Throws (McpError (-32603)
         "Tool execution failed: Invalid parameters for tool demo:ping: expected object")
  /\ world (pluginManager (snd (stdio JNull)))
     = ["audit.before"; "audit.onError"]
  /\ fst (http (JObj [])) = RpcResult (JNum 1) (ToolsCallResult "pong")
  /\ world (pluginManager (snd (http (JObj [])))) = ["ping.handler"]
  /\ fst (http JNull) = RpcResult (JNum 1) (ToolsCallResult "pong")
  /\ world (pluginManager (snd (http JNull))) = ["ping.handler"].
Proof. repeat split; reflexivity. Qed.

(** ** Strings *)

Section StringProps.

Import JsString.

Lemma prefix_length (pat text : string) :
  String.prefix pat text = true -> (String.length pat <= String.length text)%nat.
Proof.
  revert text. induction pat as [|c pat IH]; intros [|d text]; simpl;
    try (intros; lia); try discriminate.
  destruct (ascii_dec c d); [|discriminate].
  intros Hp. apply IH in Hp. lia.
Qed.

Lemma includes_length (text pat : string) :
  includes text pat = true -> (String.length pat <= String.length text)%nat.
Proof.
  induction text as [|c text IH].
  - cbn [includes]. rewrite orb_false_r. apply prefix_length.
  - cbn [includes]. intros [Hp|Hi]%orb_true_iff.
    + by apply prefix_length.
    + apply IH in Hi. simpl. lia.
Qed.

End StringProps.

(** ** Intent confidence *)

Section ConfidenceProps.

Import JsString RuleBasedIntentDetector.
Local Open Scope Q_scope.

(** The case mapping of the engine: any function. *)
Variable toLowerCase : string -> string.

Lemma ratio_le_1 (a b : nat) :
  (a <= b)%nat ->
  inject_Z (Z.of_nat a) / inject_Z (Z.of_nat b) <= 1.
Proof.
  intros Hab. destruct b as [|b].
  - assert (a = 0%nat) as -> by lia. by vm_compute.
  - apply Qle_shift_div_r.
    + replace 0 with (inject_Z 0) by done. rewrite <- Zlt_Qlt. lia.
    + rewrite Qmult_1_l. rewrite <- Zle_Qle. lia.
Qed.

Lemma scaled_ratio_lt_1 (a b : nat) :
  (a <= b)%nat ->
  inject_Z (Z.of_nat a) / inject_Z (Z.of_nat b) * (8 # 10) < 1.
Proof.
  intros Hab. apply Qle_lt_trans with (1 * (8 # 10)).
  - apply Qmult_le_compat_r; [by apply ratio_le_1|done].
  - done.
Qed.

Lemma Math_max_le_1 (a b : Q) : a <= 1 -> b <= 1 -> Math_max a b <= 1.
Proof. intros Ha Hb. unfold Math_max. by destruct (Qle_bool a b). Qed.

Lemma Math_max_1_r (a : Q) : a <= 1 -> Math_max a 1 = 1.
Proof.
  intros Ha. unfold Math_max. by apply Qle_bool_iff in Ha as ->.
Qed.

Lemma Math_max_1_l (b : Q) : b < 1 -> Math_max 1 b = 1.
Proof.
  intros Hb. unfold Math_max.
  destruct (Qle_bool 1 b) eqn:Hle; [|done].
  apply Qle_bool_iff in Hle. by apply Qle_not_lt in Hle.
Qed.

Lemma confidence_step_le_1 (lowerMessage : string) (acc : Q) (t : string) :
  acc <= 1 -> confidence_step toLowerCase lowerMessage acc t <= 1.
Proof.
  intros Hacc. unfold confidence_step.
  case_bool_decide; [by apply Math_max_le_1|].
  destruct (includes lowerMessage (toLowerCase t)) eqn:Hinc.
  - apply Math_max_le_1; [done|]. apply Qlt_le_weak.
    apply scaled_ratio_lt_1. by apply includes_length.
  - destruct (fuzzyMatch lowerMessage (toLowerCase t));
      [by apply Math_max_le_1|done].
Qed.

Lemma confidence_step_at_1 (lowerMessage t : string) :
  confidence_step toLowerCase lowerMessage 1 t = 1.
Proof.
  unfold confidence_step.
  case_bool_decide; [done|].
  destruct (includes lowerMessage (toLowerCase t)) eqn:Hinc.
  - apply Math_max_1_l, scaled_ratio_lt_1. by apply includes_length.
  - by destruct (fuzzyMatch lowerMessage (toLowerCase t)).
Qed.

Lemma confidence_fold_at_1 (lowerMessage : string) (ts : list string) :
  fold_left (confidence_step toLowerCase lowerMessage) ts 1 = 1.
Proof.
  induction ts as [|t ts IH]; [done|].
  simpl. by rewrite confidence_step_at_1.
Qed.

Lemma confidence_fold_exact (lowerMessage t : string) (ts : list string) :
  forall acc,
    acc <= 1 -> t ∈ ts -> toLowerCase t = lowerMessage ->
    fold_left (confidence_step toLowerCase lowerMessage) ts acc = 1.
Proof.
  induction ts as [|t' ts IH]; intros acc Hacc Hin Heq.
  - by apply elem_of_nil in Hin.
  - simpl. apply elem_of_cons in Hin as [<-|Hin].
    + unfold confidence_step at 2. rewrite bool_decide_eq_true_2 by done.
      rewrite Math_max_1_r by done. apply confidence_fold_at_1.
    + apply IH; [by apply confidence_step_le_1|done|done].
Qed.

(** A trigger that is longer than the message once both are lower-cased
    can only match fuzzily. *)
Lemma confidence_step_longer (message t : string) (acc : Q) :
  (String.length (toLowerCase message) < String.length (toLowerCase t))%nat ->
  confidence_step toLowerCase (toLowerCase message) acc t
  = if fuzzyMatch (toLowerCase message) (toLowerCase t)
    then Math_max acc (6 # 10) else acc.
Proof.
  intros Hlen. unfold confidence_step.
  rewrite bool_decide_eq_false_2.
  - destruct (includes (toLowerCase message) (toLowerCase t)) eqn:Hinc;
      [|done].
    apply includes_length in Hinc. lia.
  - intros Heq. rewrite Heq in Hlen. lia.
Qed.

Lemma confidence_fold_longer (message : string) (ts : list string) :
  Forall (fun t => (String.length (toLowerCase message)
                    < String.length (toLowerCase t))%nat) ts ->
  fold_left (confidence_step toLowerCase (toLowerCase message)) ts (6 # 10)
  = 6 # 10
  /\ fold_left (confidence_step toLowerCase (toLowerCase message)) ts 0
     = if existsb (fun t => fuzzyMatch (toLowerCase message) (toLowerCase t))
                  ts
       then 6 # 10 else 0.
Proof.
  induction 1 as [|t ts Hlen _ [IH6 IH0]]; [done|].
  simpl. rewrite !confidence_step_longer by done.
  destruct (fuzzyMatch (toLowerCase message) (toLowerCase t)); simpl.
  - by change (Math_max (6 # 10) (6 # 10)) with (6 # 10);
      change (Math_max 0 (6 # 10)) with (6 # 10).
  - done.
Qed.

(** C8, as stated, fails: the trigger ["help me"] is longer than the
    message ["helpme"], yet both of its words occur in the message, so the
    confidence is 0.6. *)
Lemma longer_trigger_matches_fuzzily :
  (String.length "helpme" < String.length "help me")%nat
  /\ calculateConfidence ascii_toLowerCase "helpme" ["help me"] = 6 # 10.
Proof. split; [vm_compute; lia|reflexivity]. Qed.

(** C8, amended: when every trigger, lower-cased, is longer than the
    lower-cased message, the confidence is 0.6 if all space-separated words
    of some lower-cased trigger occur in the lower-cased message, and 0
    otherwise; and a trigger whose lower-casing is that of the message
    yields exactly 1. The lengths compared are those of the lower-cased
    strings, as in the code: lower-casing can lengthen a string. *)
Theorem confidence_boundaries (message : string) (triggers : list string) :
  (Forall (fun t => (String.length (toLowerCase message)
                     < String.length (toLowerCase t))%nat) triggers ->
   calculateConfidence toLowerCase message triggers
   = if existsb (fun t => fuzzyMatch (toLowerCase message) (toLowerCase t))
                triggers
     then 6 # 10 else 0)
  /\ (forall t, t ∈ triggers -> toLowerCase t = toLowerCase message ->
                calculateConfidence toLowerCase message triggers = 1).
Proof.
  split.
  - intros Hlong. by apply confidence_fold_longer.
  - intros t Hin Heq. unfold calculateConfidence.
    by apply (confidence_fold_exact _ t).
Qed.

End ConfidenceProps.

(** The theorem at the triggers ["help me"; "assist me now"] for the message
    ["helpme"], and at the trigger ["Create Character"] for the message
    ["create CHARACTER"], all ASCII. *)
Lemma confidence_boundaries_witness :
  RuleBasedIntentDetector.calculateConfidence JsString.ascii_toLowerCase
    "helpme" ["help me"; "assist me now"] = (6 # 10)%Q
  /\ RuleBasedIntentDetector.calculateConfidence JsString.ascii_toLowerCase
       "create CHARACTER" ["new hero"; "Create Character"] = 1%Q.
Proof.
  split.
  - apply (proj1 (confidence_boundaries JsString.ascii_toLowerCase "helpme"
                    ["help me"; "assist me now"])).
    repeat constructor.
  - apply (proj2 (confidence_boundaries JsString.ascii_toLowerCase
                    "create CHARACTER" ["new hero"; "Create Character"])
             "Create Character").
    + apply list_elem_of_In. simpl. tauto.
    + reflexivity.
Defined.

(** ** Context switching *)

Section ContextProps.

Import ContextManager.

Lemma remove_first_not_elem (x : string) (l : list string) :
  NoDup l -> x ∉ remove_first x l.
Proof.
  induction 1 as [|y l Hy Hl IH]; simpl; [apply not_elem_of_nil|].
  destruct (decide (x = y)) as [->|Hne]; [done|].
  rewrite not_elem_of_cons. by split.
Qed.

Lemma remove_first_sublist (x : string) (l : list string) :
  remove_first x l `sublist_of` l.
Proof.
  induction l as [|y l IH]; simpl; [done|].
  destruct (decide (x = y)).
  - by apply sublist_cons.
  - by apply sublist_skip.
Qed.

Lemma update_recent_head (w : string) (recent : option (list string)) :
  update_recent w recent !! 0%nat = Some w.
Proof.
  unfold update_recent. by destruct (10 <? _)%nat.
Qed.

Lemma update_recent_length (w : string) (recent : option (list string)) :
  (length (update_recent w recent) <= 10)%nat.
Proof.
  unfold update_recent.
  destruct (10 <? _)%nat eqn:Hlen.
  - rewrite length_take. lia.
  - apply Nat.ltb_ge in Hlen. done.
Qed.

Lemma update_recent_NoDup (w : string) (recent : option (list string)) :
  NoDup (from_option id [] recent) -> NoDup (update_recent w recent).
Proof.
  intros Hnd. unfold update_recent.
  assert (NoDup (w :: remove_first w (from_option id [] recent))) as Hall.
  { apply NoDup_cons. split; [by apply remove_first_not_elem|].
    eapply sublist_NoDup; [exact Hnd|apply remove_first_sublist]. }
  destruct (10 <? _)%nat; [|done].
  eapply sublist_NoDup; [exact Hall|apply sublist_take].
Qed.

(** C9, as stated, fails, in two ways. Duplicates already in
    [recentWorkflows] survive the switch, which removes one occurrence of
    the target only; and a workflow registered under the empty id is taken
    for "no target", so the list is left alone and does not start with it. *)
Lemma recent_workflows_not_always_deduplicated :
  Samples.recent_after
    (switchContext Samples.context_manager 0
       (Samples.session_with (Some ["story"; "story"]))
       (Some "character-creation") JUndefined)
  = Some ["character-creation"; "story"; "story"]
  /\ WorkflowRegistry.has "" (registry Samples.context_manager) = true
  /\ Samples.recent_after
       (switchContext Samples.context_manager 0
          (Samples.session_with (Some ["story"])) (Some "") JUndefined)
     = Some ["story"].
Proof. repeat split; reflexivity. Qed.

(** C9, amended: for a registered workflow [w] with a non-empty id (and a
    context loader, if one is registered for [w], that returns),
    [switchContext(session, w, _)] returns and afterwards [recentWorkflows]
    has [w] at index 0 and at most 10 entries; it has no duplicates provided
    the list had none before the call. *)
Theorem switchContext_recent_workflows (cm : ContextManager.t) (now : Z)
  (session : UserSession) (w : string) (initData : JsValue) :
  WorkflowRegistry.has w (registry cm) = true ->
  w <> "" ->
  (forall loader, loaders cm !! w = Some loader ->
                  is_returns (loader w (sessionId session)) = true) ->
  exists session' recent,
    switchContext cm now session (Some w) initData = Returns session'
    /\ recentWorkflows (globalContext session') = Some recent
    /\ recent !! 0%nat = Some w
    /\ (length recent <= 10)%nat
    /\ (NoDup (from_option id [] (recentWorkflows (globalContext session)))
        -> NoDup recent).
Proof.
  intros Hreg Hw Hloader. unfold switchContext.
  assert (JsString.truthy w = true) as -> by by destruct w.
  unfold WorkflowRegistry.has, JsMap.has in Hreg.
  unfold WorkflowRegistry.get.
  destruct (JsMap.get w (registry cm)) as [workflow|]; [|discriminate].
  assert (exists context,
            match loaders cm !! w with
            | Some loader => loader w (sessionId session)
            | None => Returns (basic_context now w workflow initData)
            end = Returns context) as [context ->].
  { destruct (loaders cm !! w) as [loader|] eqn:Hl; [|eauto].
    specialize (Hloader loader eq_refl).
    destruct (loader w (sessionId session)); [eauto|discriminate]. }
  eexists _, _. split; [reflexivity|]. simpl.
  split; [reflexivity|].
  split; [apply update_recent_head|].
  split; [apply update_recent_length|apply update_recent_NoDup].
Qed.

End ContextProps.

(** The theorem at the sample context manager, for a session that visited
    ["story"] and ["character-creation"] before. *)
Lemma switchContext_recent_workflows_witness :
  exists session' recent,
    ContextManager.switchContext Samples.context_manager 7
      (Samples.session_with (Some ["story"; "character-creation"]))
      (Some "character-creation") JUndefined = Returns session'
    /\ recentWorkflows (globalContext session') = Some recent
    /\ recent !! 0%nat = Some "character-creation"
    /\ (length recent <= 10)%nat
    /\ (NoDup ["story"; "character-creation"] -> NoDup recent).
Proof.
  apply (switchContext_recent_workflows Samples.context_manager 7
           (Samples.session_with (Some ["story"; "character-creation"]))
           "character-creation" JUndefined).
  - reflexivity.
  - discriminate.
  - intros loader Hl. vm_compute in Hl. discriminate.
Defined.

(** ** Sessions *)

Section SessionProps.

(** With any store: when [get] finds nothing, [addMessage] does nothing
    more. *)
Lemma addMessage_not_found {ST : Type} `{SessionStore ST} (now : Z)
  (sessionId : string) (message : ConversationEntry) (st st' : ST) :
  store_get sessionId st = (Returns None, st') ->
  SessionManager.addMessage now sessionId message st = (Returns tt, st').
Proof.
  intros Hget.
  unfold SessionManager.addMessage, SessionManager.getSession, bind.
  by rewrite Hget.
Qed.

(** C10: for a [sessionId] that the in-memory store does not hold,
    [addMessage] returns normally and leaves the store as it was: no session
    is created and no history is appended. *)
Theorem addMessage_absent_session (now : Z)
  (sessions : InMemorySessionStore.t) (sessionId : string)
  (message : ConversationEntry) :
  JsMap.get sessionId sessions = None ->
  SessionManager.addMessage now sessionId message sessions
  = (Returns tt, sessions).
Proof.
  intros Habsent. apply addMessage_not_found.
  simpl. unfold InMemorySessionStore.get. by rewrite Habsent.
Qed.

End SessionProps.

(** The theorem at a store holding the session ["s1"] only, for the id
    ["s2"]. *)
Lemma addMessage_absent_session_witness :
  SessionManager.addMessage 5 "s2" Samples.hello
    (JsMap.set "s1" (Samples.session_with None) JsMap.empty
     : InMemorySessionStore.t)
  = (Returns tt, JsMap.set "s1" (Samples.session_with None) JsMap.empty).
Proof.
  apply (addMessage_absent_session 5
           (JsMap.set "s1" (Samples.session_with None) JsMap.empty)
           "s2" Samples.hello).
  reflexivity.
Defined.

(** ** [processMessage] and exit signals *)

Section ProcessMessageProps.

Variable toLowerCase : string -> string.
Variable extractEntities : string -> list ExtractedEntity.
Variable extractWorkflowData : Z -> string -> WorkflowDefinition -> JsValue.
Variable show_Z : Z -> string.

(** With the rule-based detector, a message carrying an exit signal for a
    stored session with an active workflow is recognised ("exit_workflow"),
    but [processMessage] requires a target workflow before it switches
    context, and the exit intent has none: nothing is switched. *)
Lemma processMessage_exit_signal (o : Orchestrator.t) (now : Z)
  (generated message sid userId userName w : string) (session : UserSession) :
  Orchestrator.intentDetector o = None ->
  JsString.truthy sid = true ->
  JsMap.get sid (Orchestrator.sessions o) = Some session ->
  sessionId session = sid ->
  activeWorkflow session = Some w ->
  JsString.truthy w = true ->
  JsString.some
    (fun signal => JsString.includes (toLowerCase message) signal)
    RuleBasedIntentDetector.exitSignals = true ->
  exists res o',
    Orchestrator.processMessage toLowerCase extractEntities
      extractWorkflowData show_Z
      now generated message (Some sid) userId userName o
    = (Returns res, o')
    /\ map intent_name (intents (Orchestrator.result_intent res))
       = ["exit_workflow"]
    /\ Orchestrator.workflowChanged res = false
    /\ activeWorkflow (Orchestrator.result_session res) = Some w
    /\ currentContext (Orchestrator.result_session res)
       = currentContext session
    /\ JsMap.get sid (Orchestrator.sessions o')
       = Some (Orchestrator.result_session res).
Proof.
  intros Hdet Hsid Hget Hid Hactive Hw Hexit.
  unfold Orchestrator.processMessage, bind, Orchestrator.in_sessions, SessionManager.getOrCreateSession,
    SessionManager.getSession.
  rewrite Hsid. unfold bind. simpl store_get.
  unfold InMemorySessionStore.get at 1. rewrite Hget. unfold ret at 1.
  unfold SessionManager.addMessage, SessionManager.getSession, bind.
  simpl store_get. unfold InMemorySessionStore.get at 1.
  unfold Orchestrator.id_of. rewrite Hid. cbn [Orchestrator.sessions].
  rewrite Hget.
  unfold SessionManager.updateSession, bind. cbn.
  unfold Orchestrator.analyze. cbn. rewrite Hdet.
  unfold RuleBasedIntentDetector.analyzeMessage.
  rewrite Hexit. cbn [activeWorkflow SessionManager.stamp
                      SessionManager.push_message].
  rewrite Hactive. cbn. rewrite Hw. cbn.
  eexists _, _. split; [reflexivity|]. cbn.
  rewrite Hid, !JsMap_get_set_eq. by repeat split.
Qed.

End ProcessMessageProps.

(** C2 fails on the code. In the orchestrator of the scenario, the message
    ["create character"] opens the workflow ["character-creation"] in a new
    session; the message ["I'm done"] in that session then yields the intent
    ["exit_workflow"], but [workflowChanged] is [false] and the session, as
    returned and as stored, still has the workflow active. *)
Theorem exit_signal_leaves_workflow_active
  (extractEntities : string -> list ExtractedEntity)
  (extractWorkflowData : Z -> string -> WorkflowDefinition -> JsValue)
  (show_Z : Z -> string) :
  let processMessage :=
    Orchestrator.processMessage JsString.ascii_toLowerCase extractEntities
      extractWorkflowData show_Z in
  exists first second o1 o2,
    processMessage 1000 "session_1000_k3x9q2m1z" "create character" None
      "u" "U" Samples.orchestrator = (Returns first, o1)
    /\ activeWorkflow (Orchestrator.result_session first)
       = Some "character-creation"
    /\ processMessage 2000 "session_2000_unused00" "I'm done"
         (Some (sessionId (Orchestrator.result_session first))) "u" "U" o1
       = (Returns second, o2)
    /\ map intent_name (intents (Orchestrator.result_intent second))
       = ["exit_workflow"]
    /\ Orchestrator.workflowChanged second = false
    /\ activeWorkflow (Orchestrator.result_session second)
       = Some "character-creation"
    /\ currentContext (Orchestrator.result_session second)
       = "character-creation"
    /\ JsMap.get "session_1000_k3x9q2m1z" (Orchestrator.sessions o2)
       = Some (Orchestrator.result_session second).
Proof.
  intros processMessage. subst processMessage. eexists _, _, _, _.
  split; [lazy; reflexivity|]. split; [reflexivity|].
  split; [lazy; reflexivity|]. repeat split; reflexivity.
Qed.

(* ===================================================================== *)
(** * Further properties of the rate limiter                               *)
(* ===================================================================== *)

Section RateLimitMore.

Import RateLimitMiddleware.

Lemma run_app (rl : t) (a b : list Call) :
  run rl (a ++ b)
  = (fst (run rl a) ++ fst (run (snd (run rl a)) b),
     snd (run (snd (run rl a)) b)).
Proof.
  revert rl. induction a as [|x a IH]; intros rl; simpl.
  - by destruct (run rl b).
  - destruct (beforeToolCall (at_ms x) (tool x) JUndefined rl) as [[[]|e] rl'].
    + rewrite IH. destruct (run rl' a) as [pa rla]. simpl.
      by destruct (run rla b).
    + apply IH.
Qed.

(** The decision for a call of [k] reads the configuration and the record
    of [k] only. *)
Lemma before_agree now k p (rl1 rl2 : t) :
  maxCalls rl1 = maxCalls rl2 -> windowMs rl1 = windowMs rl2 ->
  callCounts rl1 !! k = callCounts rl2 !! k ->
  fst (beforeToolCall now k p rl1) = fst (beforeToolCall now k p rl2)
  /\ callCounts (snd (beforeToolCall now k p rl1)) !! k
     = callCounts (snd (beforeToolCall now k p rl2)) !! k.
Proof.
  intros Hm Hw Hk. unfold beforeToolCall. rewrite <- Hk, Hm, Hw.
  destruct (callCounts rl1 !! k) as [record|] eqn:Hrec; simpl.
  - destruct (resetTime record <? now)%Z; simpl.
    + by rewrite !lookup_insert_eq.
    + destruct (maxCalls rl2 <=? count record)%Z; simpl.
      * by rewrite Hrec, Hk.
      * by rewrite !lookup_insert_eq.
  - by rewrite !lookup_insert_eq.
Qed.

Lemma run_config (calls : list Call) :
  forall rl, maxCalls (snd (run rl calls)) = maxCalls rl
             /\ windowMs (snd (run rl calls)) = windowMs rl.
Proof.
  induction calls as [|x calls IH]; intros rl; [done|].
  simpl.
  pose proof (before_config (at_ms x) (tool x) JUndefined rl) as [Hm Hw].
  destruct (beforeToolCall (at_ms x) (tool x) JUndefined rl) as [[[]|e] rl'];
    simpl in Hm, Hw.
  - destruct (IH rl') as [Hm' Hw']. destruct (run rl' calls). simpl in *.
    split; congruence.
  - destruct (IH rl') as [Hm' Hw']. split; congruence.
Qed.

Lemma passed_isolated_gen (k : string) (calls : list Call) :
  forall rl1 rl2,
    maxCalls rl1 = maxCalls rl2 -> windowMs rl1 = windowMs rl2 ->
    callCounts rl1 !! k = callCounts rl2 !! k ->
    filter (fun c => tool c = k) (passed rl1 calls)
    = passed rl2 (filter (fun c => tool c = k) calls).
Proof.
  induction calls as [|x calls IH]; intros rl1 rl2 Hm Hw Hk; [done|].
  unfold passed in *. simpl.
  pose proof (before_config (at_ms x) (tool x) JUndefined rl1) as [Hm1 Hw1].
  destruct (decide (tool x = k)) as [Hx|Hx].
  - rewrite filter_cons_True by done. simpl.
    pose proof (before_config (at_ms x) (tool x) JUndefined rl2) as [Hm2 Hw2].
    pose proof (before_agree (at_ms x) (tool x) JUndefined rl1 rl2 Hm Hw)
      as Hag.
    rewrite Hx in Hag. specialize (Hag Hk). destruct Hag as [Ho Hk'].
    rewrite Hx in *.
    destruct (beforeToolCall (at_ms x) k JUndefined rl1) as [o1 rl1'].
    destruct (beforeToolCall (at_ms x) k JUndefined rl2) as [o2 rl2'].
    simpl in *. subst o2.
    specialize (IH rl1' rl2').
    destruct o1 as [[]|e].
    + destruct (run rl1' calls) as [p1 s1].
      destruct (run rl2' (filter (fun c => tool c = k) calls)) as [p2 s2].
      simpl in *. rewrite filter_cons_True by done.
      f_equal. apply IH; congruence.
    + apply IH; congruence.
  - rewrite filter_cons_False by done.
    pose proof (before_other (at_ms x) (tool x) k JUndefined rl1 Hx) as Hoth.
    destruct (beforeToolCall (at_ms x) (tool x) JUndefined rl1)
      as [[[]|e] rl1']; simpl in *.
    + specialize (IH rl1' rl2).
      destruct (run rl1' calls) as [p1 s1]. simpl in *.
      rewrite filter_cons_False by done. apply IH; congruence.
    + apply IH; congruence.
Qed.

(** The limiter treats every tool on its own: among interleaved calls, the
    calls of a tool that pass are the ones that would pass had the calls of
    all other tools never been made. *)
Theorem rate_limit_tools_are_independent (rl : t) (k : string)
  (calls : list Call) :
  filter (fun c => tool c = k) (passed rl calls)
  = passed rl (filter (fun c => tool c = k) calls).
Proof. by apply passed_isolated_gen. Qed.

Lemma before_counts_in_range now k p (rl : t) :
  (1 <= maxCalls rl)%Z ->
  (forall k' r, callCounts rl !! k' = Some r ->
                (1 <= count r <= maxCalls rl)%Z) ->
  forall k' r, callCounts (snd (beforeToolCall now k p rl)) !! k' = Some r ->
               (1 <= count r <= maxCalls rl)%Z.
Proof.
  intros Hmax Hinv k' r. unfold beforeToolCall.
  destruct (callCounts rl !! k) as [record|] eqn:Hrec; simpl.
  - destruct (resetTime record <? now)%Z; simpl.
    + destruct (decide (k = k')) as [<-|Hne].
      * rewrite lookup_insert_eq. intros [= <-]. simpl. lia.
      * rewrite lookup_insert_ne by done. apply Hinv.
    + destruct (maxCalls rl <=? count record)%Z eqn:Hfull; simpl.
      * apply Hinv.
      * apply Z.leb_gt in Hfull. pose proof (Hinv k record Hrec) as Hk.
        destruct (decide (k = k')) as [<-|Hne].
        -- rewrite lookup_insert_eq. intros [= <-]. simpl. lia.
        -- rewrite lookup_insert_ne by done. apply Hinv.
  - destruct (decide (k = k')) as [<-|Hne].
    + rewrite lookup_insert_eq. intros [= <-]. simpl. lia.
    + rewrite lookup_insert_ne by done. apply Hinv.
Qed.

Lemma run_counts_in_range (calls : list Call) :
  forall rl,
    (1 <= maxCalls rl)%Z ->
    (forall k r, callCounts rl !! k = Some r ->
                 (1 <= count r <= maxCalls rl)%Z) ->
    forall k r, callCounts (snd (run rl calls)) !! k = Some r ->
                (1 <= count r <= maxCalls rl)%Z.
Proof.
  induction calls as [|x calls IH]; intros rl Hmax Hinv; [done|].
  simpl.
  pose proof (before_config (at_ms x) (tool x) JUndefined rl) as [Hm _].
  pose proof (before_counts_in_range (at_ms x) (tool x) JUndefined rl Hmax Hinv)
    as Hstep.
  destruct (beforeToolCall (at_ms x) (tool x) JUndefined rl) as [[[]|e] rl'];
    simpl in *.
  - specialize (IH rl'). destruct (run rl' calls) as [ps rl'']. simpl in *.
    rewrite <- Hm. apply IH; rewrite Hm; done.
  - rewrite <- Hm. apply IH; rewrite Hm; done.
Qed.

(** Whatever calls a limiter created with [maxCalls >= 1] has seen, every
    counter it holds lies between 1 and [maxCalls]. *)
Theorem rate_limit_counts_in_range (m w : Z) (calls : list Call)
  (k : string) (r : Entry) :
  (1 <= m)%Z ->
  callCounts (snd (run (create m w) calls)) !! k = Some r ->
  (1 <= count r <= m)%Z.
Proof.
  intros Hm. apply (run_counts_in_range calls (create m w)); [done|].
  intros k' r'. simpl. by rewrite lookup_empty.
Qed.

Lemma passed_in_one_window (k : string) (from : Z) (mid : list Call) :
  forall rl,
    (1 <= maxCalls rl)%Z ->
    (forall x, x ∈ mid -> tool x = k ->
               (from <= at_ms x < from + windowMs rl)%Z) ->
    (passed_of k (passed rl mid)
     <= match callCounts rl !! k with
        | Some r => Z.max 0 (maxCalls rl - count r)
        | None => 0
        end + maxCalls rl)%Z.
Proof.
  induction mid as [|x mid IH]; intros rl Hmax Hin.
  - unfold passed, passed_of. simpl. destruct (callCounts rl !! k); lia.
  - assert (forall y, y ∈ mid -> tool y = k ->
                      (from <= at_ms y < from + windowMs rl)%Z) as Hin'.
    { intros y Hy. apply Hin. by right. }
    pose proof (before_config (at_ms x) (tool x) JUndefined rl) as [Hm Hw].
    unfold passed. simpl.
    destruct (decide (tool x = k)) as [Hk|Hk].
    + assert (from <= at_ms x < from + windowMs rl)%Z as Hx
        by (apply Hin; [left|done]).
      assert (forall rl',
                 maxCalls rl' = maxCalls rl ->
                 callCounts rl' !! k
                 = Some {| count := 1; resetTime := at_ms x + windowMs rl |} ->
                 (passed_of k (passed rl' mid) <= maxCalls rl - 1)%Z) as Hopen.
      { intros rl' Hm' Hrec'. rewrite <- Hm'.
        apply (passed_within_window k (at_ms x + windowMs rl) mid rl' 1);
          [done|lia|].
        intros y Hy Hky. specialize (Hin' y Hy Hky). lia. }
      rewrite Hk in *. unfold beforeToolCall in *.
      destruct (callCounts rl !! k) as [record|] eqn:Hrec.
      * destruct (resetTime record <? at_ms x)%Z.
        -- match goal with
           | |- context [run ?s mid] =>
               specialize (Hopen s eq_refl); simpl in Hopen;
               rewrite lookup_insert_eq in Hopen; specialize (Hopen eq_refl);
               unfold passed in Hopen;
               destruct (run s mid) as [ps s'] eqn:Hrun
           end.
           simpl in *. rewrite passed_of_cons_same by done. lia.
        -- destruct (maxCalls rl <=? count record)%Z eqn:Hfull.
           ++ specialize (IH rl Hmax Hin'). rewrite Hrec in IH. apply IH.
           ++ apply Z.leb_gt in Hfull.
              match goal with
              | |- context [run ?s mid] => specialize (IH s)
              end.
              simpl in IH. rewrite lookup_insert_eq in IH. simpl in IH.
              specialize (IH Hmax Hin'). unfold passed in IH.
              match goal with
              | |- context [run ?s mid] =>
                  destruct (run s mid) as [ps s'] eqn:Hrun
              end.
              simpl in *. rewrite passed_of_cons_same by done. lia.
      * match goal with
        | |- context [run ?s mid] =>
            specialize (Hopen s eq_refl); simpl in Hopen;
            rewrite lookup_insert_eq in Hopen; specialize (Hopen eq_refl);
            unfold passed in Hopen;
            destruct (run s mid) as [ps s'] eqn:Hrun
        end.
        simpl in *. rewrite passed_of_cons_same by done. lia.
    + pose proof (before_other (at_ms x) (tool x) k JUndefined rl Hk) as Hoth.
      destruct (beforeToolCall (at_ms x) (tool x) JUndefined rl)
        as [[[]|e] rl'] eqn:Hb; simpl in Hoth, Hm, Hw.
      * specialize (IH rl'). rewrite Hm, Hw, Hoth in IH.
        specialize (IH Hmax Hin'). unfold passed in IH.
        destruct (run rl' mid) as [ps rl''] eqn:Hrun. simpl in *.
        by rewrite passed_of_cons_other.
      * specialize (IH rl'). rewrite Hm, Hw, Hoth in IH.
        by apply IH.
Qed.

(** The bound that does hold for sliding windows: whatever came before, of
    the calls of one tool that all arrive inside one interval of length
    [windowMs], at most [2 * maxCalls] pass (the rest of one counting window
    and the whole of the next). *)
Theorem rate_limit_sliding_window_twice (m w : Z) (pre mid : list Call)
  (k : string) (from : Z) :
  (1 <= m)%Z ->
  (forall x, x ∈ mid -> tool x = k -> (from <= at_ms x < from + w)%Z) ->
  (passed_of k (passed (snd (run (create m w) pre)) mid) <= 2 * m)%Z.
Proof.
  intros Hm Hin.
  destruct (run_config pre (create m w)) as [Hmax Hwin]. simpl in Hmax, Hwin.
  pose proof (passed_in_one_window k from mid (snd (run (create m w) pre)))
    as Hbound.
  rewrite Hmax, Hwin in Hbound. specialize (Hbound Hm Hin).
  destruct (callCounts (snd (run (create m w) pre)) !! k) as [r|] eqn:Hrec.
  - assert (1 <= count r <= m)%Z; [|lia].
    apply (run_counts_in_range pre (create m w) Hm) with (k := k); [|done].
    intros k' r'. simpl. by rewrite lookup_empty.
  - lia.
Qed.

(** A burst at one instant against a fresh limiter: with [maxCalls = n >= 1]
    and [windowMs >= 0], of [n + extra] simultaneous calls of a tool exactly
    the first [n] pass, and a call of the tool more than [windowMs] later
    passes again. *)
Lemma burst_from (k : string) (now r : Z) (j : nat) :
  forall rl c,
    callCounts rl !! k = Some {| count := c; resetTime := r |} ->
    (now <= r)%Z -> (c <= maxCalls rl)%Z ->
    passed rl (replicate j {| tool := k; at_ms := now |})
    = replicate (Nat.min j (Z.to_nat (maxCalls rl - c)))
        {| tool := k; at_ms := now |}
    /\ callCounts (snd (run rl (replicate j {| tool := k; at_ms := now |})))
         !! k
       = Some {| count := c + Z.of_nat (Nat.min j (Z.to_nat (maxCalls rl - c)));
                 resetTime := r |}.
Proof.
  induction j as [|j IH]; intros rl c Hrec Hnow Hc.
  - split; [done|]. simpl. rewrite Hrec. do 2 f_equal. lia.
  - unfold passed in *. simpl. unfold beforeToolCall. rewrite Hrec.
    simpl.
    destruct (r <? now)%Z eqn:Hreset; [apply Z.ltb_lt in Hreset; lia|].
    destruct (maxCalls rl <=? c)%Z eqn:Hfull.
    + apply Z.leb_le in Hfull.
      destruct (IH rl c Hrec Hnow Hc) as [Hp Hs].
      replace (Z.to_nat (maxCalls rl - c)) with 0%nat in * by lia.
      rewrite Nat.min_0_r in *. simpl. by split.
    + apply Z.leb_gt in Hfull.
      match goal with
      | |- context [run ?s (replicate j _)] =>
          destruct (IH s (c + 1)%Z) as [Hp Hs]
      end; [simpl; by rewrite lookup_insert_eq|done|simpl; lia|].
      simpl in Hp, Hs.
      match goal with
      | |- context [run ?s (replicate j ?x)] =>
          destruct (run s (replicate j x)) as [ps s']
      end.
      simpl in *. subst ps.
      replace (Z.to_nat (maxCalls rl - c))
        with (S (Z.to_nat (maxCalls rl - (c + 1)))) by lia.
      simpl. split; [done|]. rewrite Hs. do 2 f_equal. lia.
Qed.

Theorem rate_limit_burst (n extra : nat) (w now later : Z) (k : string) :
  (1 <= n)%nat -> (0 <= w)%Z -> (now + w < later)%Z ->
  passed (create (Z.of_nat n) w)
    (replicate (n + extra) {| tool := k; at_ms := now |}
     ++ [ {| tool := k; at_ms := later |} ])
  = replicate n {| tool := k; at_ms := now |}
    ++ [ {| tool := k; at_ms := later |} ].
Proof.
  intros Hn Hw Hlater. destruct n as [|n]; [lia|].
  unfold passed. rewrite run_app. simpl fst.
  cbn [replicate Nat.add run].
  unfold beforeToolCall at 1 3. cbn [callCounts create].
  rewrite lookup_empty.
  match goal with
  | |- context [run ?s (replicate (n + extra) ?x)] =>
      destruct (burst_from k now (now + w) (n + extra) s 1) as [Hp Hs];
        [simpl; by rewrite lookup_insert_eq|lia|simpl; lia|];
      unfold passed in Hp; simpl in Hp, Hs;
      destruct (run s (replicate (n + extra) x)) as [ps s'] eqn:Hrun
  end.
  simpl in Hrun. rewrite Hrun in Hp, Hs. simpl in Hp, Hs. subst ps.
  rewrite Nat.min_r in * by lia.
  unfold beforeToolCall. cbn [fst snd]. rewrite Hs. cbn [resetTime].
  assert ((now + w <? later)%Z = true) as -> by by apply Z.ltb_lt.
  cbn [fst app]. do 2 f_equal. f_equal. lia.
Qed.

End RateLimitMore.

(** The sliding-window bound at [maxCalls = 2], [windowMs = 10]. *)
Lemma rate_limit_sliding_window_twice_witness :
  (RateLimitMiddleware.passed_of "demo:echo"
     (RateLimitMiddleware.passed
        (snd (RateLimitMiddleware.run (RateLimitMiddleware.create 2 10)
                [ {| RateLimitMiddleware.tool := "demo:echo";
                     RateLimitMiddleware.at_ms := 0 |} ]))
        [ {| RateLimitMiddleware.tool := "demo:echo";
             RateLimitMiddleware.at_ms := 9 |};
          {| RateLimitMiddleware.tool := "demo:echo";
             RateLimitMiddleware.at_ms := 11 |};
          {| RateLimitMiddleware.tool := "demo:echo";
             RateLimitMiddleware.at_ms := 12 |};
          {| RateLimitMiddleware.tool := "demo:echo";
             RateLimitMiddleware.at_ms := 13 |} ])
   <= 2 * 2)%Z.
Proof.
  apply (rate_limit_sliding_window_twice 2 10 _ _ "demo:echo" 9).
  - lia.
  - intros x Hx _.
    repeat (apply elem_of_cons in Hx as [->|Hx]; [simpl; lia|]).
    by apply elem_of_nil in Hx.
Defined.

(** The counter invariant after two calls. *)
Lemma rate_limit_counts_in_range_witness :
  (1 <= 2 <= 3)%Z.
Proof.
  apply (rate_limit_counts_in_range 3 10
           [ {| RateLimitMiddleware.tool := "demo:echo";
                RateLimitMiddleware.at_ms := 0 |};
             {| RateLimitMiddleware.tool := "demo:echo";
                RateLimitMiddleware.at_ms := 1 |} ]
           "demo:echo"
           {| RateLimitMiddleware.count := 2;
              RateLimitMiddleware.resetTime := 10 |}).
  - lia.
  - reflexivity.
Defined.

(** The burst at [maxCalls = 2]: of four simultaneous calls two pass, and
    the call 61 s later passes. *)
Lemma rate_limit_burst_witness :
  RateLimitMiddleware.passed (RateLimitMiddleware.create 2 60000)
    (replicate (2 + 2) {| RateLimitMiddleware.tool := "demo:echo";
                          RateLimitMiddleware.at_ms := 5 |}
     ++ [ {| RateLimitMiddleware.tool := "demo:echo";
             RateLimitMiddleware.at_ms := 61000 |} ])
  = replicate 2 {| RateLimitMiddleware.tool := "demo:echo";
                   RateLimitMiddleware.at_ms := 5 |}
    ++ [ {| RateLimitMiddleware.tool := "demo:echo";
            RateLimitMiddleware.at_ms := 61000 |} ].
Proof.
  apply (rate_limit_burst 2 2 60000 5 61000 "demo:echo"); lia.
Defined.

(* ===================================================================== *)
(** * Further properties of the plugin host                                *)
(* ===================================================================== *)

Lemma for_of_app {S A : Type} (body : A -> Eff S unit) (xs ys : list A)
  (s : S) :
  for_of (xs ++ ys) body s
  = match for_of xs body s with
    | (Returns _, s') => for_of ys body s'
    | (Throws e, s') => (Throws e, s')
    end.
Proof.
  revert s. induction xs as [|x xs IH]; intros s; [done|].
  simpl. unfold bind. destruct (body x s) as [[[]|e] s1]; [apply IH|done].
Qed.

Lemma append_assoc (a b c : string) : (a +:+ b) +:+ c = a +:+ (b +:+ c).
Proof.
  induction a as [|x a IH]; [reflexivity|].
  change (String x ((a +:+ b) +:+ c) = String x (a +:+ (b +:+ c))).
  by rewrite IH.
Qed.

Lemma prefix_app (a b : string) : String.prefix a (a +:+ b) = true.
Proof.
  induction a as [|c a IH]; [by destruct b|].
  change (String.prefix (String c a) (String c (a +:+ b)) = true).
  simpl. destruct (ascii_dec c c); [apply IH|done].
Qed.

Section JsMapMore.

Context {V : Type}.

Lemma JsMap_has_set (k : string) (v : V) (m : JsMap.t V) :
  JsMap.has k (JsMap.set k v m) = true.
Proof. unfold JsMap.has. by rewrite JsMap_get_set_eq. Qed.

Lemma JsMap_set_length (k : string) (v : V) (m : JsMap.t V) :
  JsMap.has k m = true -> length (JsMap.set k v m) = length m.
Proof.
  unfold JsMap.has. induction m as [|[k' v'] m IH]; simpl; [done|].
  destruct (decide (k = k')); [done|]. intros Hm. simpl. by rewrite IH.
Qed.

End JsMapMore.

Section PluginHostMore.

Context {U : Type}.

Implicit Types (pm : PluginManager U) (plugin : MCPPlugin U).

(** Registering an id that is taken fails with ["Plugin already
    registered: id"]; [initialize] is not called, the registries and the
    plugins' state stay as they are, and the failure is logged. *)
Theorem registerPlugin_duplicate_id plugin config pm md :
  metadata plugin = Some md ->
  meta_id md <> "" ->
  JsMap.has (meta_id md) (plugins pm) = true ->
  registerPlugin plugin config pm
  = (Throws (JsError ("Plugin already registered: " +:+ meta_id md)),
     with_log_world pm
       (logger pm
        ++ [ {| log_level := LError;
                log_message := "Failed to register plugin " +:+ meta_id md
                               +:+ ":";
                log_detail :=
                  Some (JsError ("Plugin already registered: "
                                 +:+ meta_id md)) |} ])
       (world pm)).
Proof.
  intros Hmd Hid Hhas. unfold registerPlugin, try_catch, plugin_id_or_unknown.
  rewrite Hmd.
  assert (JsString.truthy (meta_id md) = true) as -> by by destruct (meta_id md).
  simpl. by rewrite Hhas.
Qed.

Lemma run_register_tools context (ts : list (MCPToolDefinition U)) :
  forall pm,
    fst (run_initialize context (map (CallRegisterTool U) ts) pm) = Returns tt
    /\ tools (snd (run_initialize context (map (CallRegisterTool U) ts) pm))
       = foldl (fun m t =>
                  JsMap.set (ctx_pluginId context +:+ ":" +:+ tool_name t) t m)
               (tools pm) ts
    /\ plugins (snd (run_initialize context (map (CallRegisterTool U) ts) pm))
       = plugins pm.
Proof.
  induction ts as [|t ts IH]; intros pm; [done|].
  unfold run_initialize in *. cbn [map for_of]. unfold bind.
  destruct (registerTool context t pm) as [o1 pm1] eqn:Hstep.
  unfold registerTool, bind, set_tools, log in Hstep. cbn in Hstep.
  injection Hstep as <- <-.
  match goal with
  | |- context [for_of ?xs ?b ?s] =>
      destruct (IH s) as (Hret & Htools & Hplug);
      set (r := for_of xs b s) in *; clearbody r; destruct r as [o s1]
  end.
  simpl in *. by subst o.
Qed.

(** When [initialize] throws after registering tools, [registerPlugin]
    rethrows the error and does not record the plugin, but the tools
    registered before the throw stay in the tool registry. *)
Theorem registerPlugin_failed_initialize_keeps_tools plugin config pm md
  (ts : list (MCPToolDefinition U)) (e : Thrown) (rest : list (InitStep U)) :
  metadata plugin = Some md ->
  meta_id md <> "" ->
  JsMap.has (meta_id md) (plugins pm) = false ->
  initialize plugin = map (CallRegisterTool U) ts ++ Raise U e :: rest ->
  fst (registerPlugin plugin config pm) = Throws e
  /\ plugins (snd (registerPlugin plugin config pm)) = plugins pm
  /\ tools (snd (registerPlugin plugin config pm))
     = foldl (fun m t => JsMap.set (meta_id md +:+ ":" +:+ tool_name t) t m)
             (tools pm) ts.
Proof.
  intros Hmd Hid Hhas Hinit.
  unfold registerPlugin, try_catch. rewrite Hmd.
  assert (JsString.truthy (meta_id md) = true) as -> by by destruct (meta_id md).
  cbn [negb]. rewrite Hhas. unfold bind.
  destruct (run_register_tools (createPluginContext (meta_id md) config) ts pm)
    as (Hret & Htools & Hplug).
  assert (run_initialize (createPluginContext (meta_id md) config)
            (initialize plugin) pm
          = (Throws e,
             snd (run_initialize (createPluginContext (meta_id md) config)
                    (map (CallRegisterTool U) ts) pm))) as ->.
  { rewrite Hinit. unfold run_initialize in *. rewrite for_of_app.
    destruct (for_of (map (CallRegisterTool U) ts) _ pm) as [o pm1].
    simpl in *. by subst o. }
  simpl. by rewrite Htools, Hplug.
Qed.

Lemma run_initialize_outside context steps key pm :
  String.prefix (ctx_pluginId context +:+ ":") key = false ->
  JsMap.get key (tools (snd (run_initialize context steps pm)))
  = JsMap.get key (tools pm)
  /\ JsMap.get key (prompts (snd (run_initialize context steps pm)))
     = JsMap.get key (prompts pm).
Proof.
  intros Hout.
  assert (forall name, ctx_pluginId context +:+ ":" +:+ name <> key) as Hne.
  { intros name <-.
    pose proof (prefix_app (ctx_pluginId context +:+ ":") name) as Hp.
    rewrite append_assoc in Hp. congruence. }
  unfold run_initialize. split.
  - apply (for_of_keeps (fun pm => JsMap.get key (tools pm))).
    intros step s. destruct step as [tool|resource|prompt|f|e]; try done.
    + cbn. by apply JsMap_get_set_ne.
    + unfold in_reach. by destruct (f (reach s)).
  - apply (for_of_keeps (fun pm => JsMap.get key (prompts pm))).
    intros step s. destruct step as [tool|resource|prompt|f|e]; try done.
    + cbn. by apply JsMap_get_set_ne.
    + unfold in_reach. by destruct (f (reach s)).
Qed.

(** Whether it succeeds or fails, [registerPlugin] of a plugin with id [id]
    adds or replaces tool and prompt entries under keys that start with
    ["id:"] only: every other key of these two registries keeps its entry. *)
Theorem registerPlugin_stays_in_namespace plugin config pm md (key : string) :
  metadata plugin = Some md ->
  String.prefix (meta_id md +:+ ":") key = false ->
  getTool key (snd (registerPlugin plugin config pm)) = getTool key pm
  /\ getPrompt key (snd (registerPlugin plugin config pm)) = getPrompt key pm.
Proof.
  intros Hmd Hout. unfold getTool, getPrompt, registerPlugin, try_catch.
  rewrite Hmd.
  destruct (JsString.truthy (meta_id md)); cbn [negb]; [|done].
  destruct (JsMap.has (meta_id md) (plugins pm)); [done|].
  unfold bind.
  pose proof (run_initialize_outside (createPluginContext (meta_id md) config)
                (initialize plugin) key pm Hout) as [Ht Hp].
  destruct (run_initialize _ _ pm) as [[[]|e] pm1]; simpl in *; done.
Qed.

(** Resources are keyed by their bare uri: a [registerResource] for a uri
    that is taken, from whichever plugin's context, returns normally and
    replaces the entry; the number of resources stays the same. *)
Theorem registerResource_replaces_same_uri (context : PluginContext)
  (resource : MCPResourceDefinition U) pm :
  JsMap.has (res_uri resource) (resources pm) = true ->
  fst (registerResource context resource pm) = Returns tt
  /\ getResource (res_uri resource) (snd (registerResource context resource pm))
     = Some resource
  /\ length (resources (snd (registerResource context resource pm)))
     = length (resources pm).
Proof.
  intros Hhas. unfold registerResource, getResource. cbn.
  split; [done|]. split; [apply JsMap_get_set_eq|by apply JsMap_set_length].
Qed.

(** The workflow state that plugins reach through their context is keyed by
    the workflow id alone: what one request stores under workflow [w] is
    what any later request with [currentWorkflow = w] reads, whatever its
    session or user. *)
Theorem workflow_state_is_shared_by_workflow_id pm
  (writer reader : UserRequestContext) (w : string) (state : JsValue) :
  rc_currentWorkflow writer = Some w ->
  rc_currentWorkflow reader = Some w ->
  w <> "" ->
  let pm1 := snd (setRequestContext (Some writer) pm) in
  let pm2 := snd (context_updateWorkflowState state pm1) in
  let pm3 := snd (setRequestContext None pm2) in
  let pm4 := snd (setRequestContext (Some reader) pm3) in
  context_getWorkflowState pm3 = None
  /\ context_getWorkflowState pm4 = Some state.
Proof.
  intros Hw Hr Hne. cbn.
  unfold context_getWorkflowState, context_updateWorkflowState,
    current_workflow. cbn. rewrite Hw, Hr.
  assert (JsString.truthy w = true) as -> by by destruct w.
  cbn. unfold getWorkflowState. cbn. split; [done|apply lookup_insert_eq].
Qed.

End PluginHostMore.

(* ===================================================================== *)
(** * Further properties of the server                                     *)
(* ===================================================================== *)

Section ServerMore.

Context {U : Type}.
Variable stringify : JsValue -> string.

Lemma blind_ret {A} (a : A) : middleware_blind (U:=U) (ret a).
Proof. by intros mws mws' pm. Qed.

Lemma blind_throw {A} (e : Thrown) : middleware_blind (U:=U) (A:=A) (throw e).
Proof. by intros mws mws' pm. Qed.

Lemma blind_in_pm {A} (f : Eff (PluginManager U) A) :
  middleware_blind (in_pm f).
Proof. intros mws mws' pm. unfold in_pm. simpl. by destruct (f pm). Qed.

Lemma blind_bind {A B} (m : Eff (MCPServer U) A) (k : A -> Eff (MCPServer U) B) :
  middleware_blind m -> (forall a, middleware_blind (k a)) ->
  middleware_blind (bind m k).
Proof.
  intros Hm Hk mws mws' pm. unfold bind.
  destruct (Hm mws mws' pm) as [Ho Hs].
  destruct (m {| middleware := mws; pluginManager := pm |}) as [o [m1 p1]].
  destruct (m {| middleware := mws'; pluginManager := pm |}) as [o' [m2 p2]].
  simpl in *. subst o' p2.
  destruct o as [a|e]; [apply Hk|done].
Qed.

Lemma handlers_blind :
  middleware_blind (U:=U) handleToolsList
  /\ (forall params, middleware_blind (U:=U) (handleToolCall stringify params))
  /\ middleware_blind (U:=U) handleResourcesList
  /\ (forall uri, middleware_blind (U:=U) (handleResourceRead stringify uri))
  /\ middleware_blind (U:=U) handlePromptsList
  /\ (forall params, middleware_blind (U:=U) (handlePromptGet params)).
Proof.
  split; [by intros mws mws' pm|].
  split.
  { intros params mws mws' pm. unfold handleToolCall. cbn.
    destruct (getTool (ct_name params) pm) as [tool|]; [|done].
    unfold bind, in_pm, in_reach. cbn.
    by destruct (tool_handler tool (ct_arguments params) (reach pm))
      as [[v|e] r]. }
  split; [by intros mws mws' pm|].
  split.
  { intros uri mws mws' pm. unfold handleResourceRead. cbn.
    destruct (getResource uri pm) as [resource|]; [|done].
    unfold bind, in_pm, in_reach. cbn.
    by destruct (res_handler resource (reach pm)) as [[v|e] r]. }
  split; [by intros mws mws' pm|].
  intros params mws mws' pm. unfold handlePromptGet. cbn.
  destruct (getPrompt (gp_name params) pm) as [prompt|]; [|done].
  unfold bind, in_pm, in_reach. cbn.
  by destruct (prompt_handler prompt _ (reach pm)) as [[v|e] r].
Qed.

(** On the HTTP and WebSocket path no method consults the middleware: the
    response to a request and what the request does to the plugin manager
    are the same whatever middleware the server is configured with. *)
Theorem on_request_ignores_middleware (now : Z) (request : TransportRequest)
  (mws mws' : list (MCPMiddleware U)) (pm : PluginManager U) :
  fst (on_request stringify now request
         {| middleware := mws; pluginManager := pm |})
  = fst (on_request stringify now request
           {| middleware := mws'; pluginManager := pm |})
  /\ pluginManager
       (snd (on_request stringify now request
               {| middleware := mws; pluginManager := pm |}))
     = pluginManager
         (snd (on_request stringify now request
                 {| middleware := mws'; pluginManager := pm |})).
Proof.
  destruct handlers_blind as (Htl & Htc & Hrl & Hrr & Hpl & Hpg).
  unfold on_request.
  match goal with
  | |- context [bind (in_pm (setRequestContext ?c)) ?k] =>
      assert (middleware_blind (bind (in_pm (setRequestContext c)) k)) as Hbody
  end.
  { apply blind_bind; [apply blind_in_pm|]. intros _.
    destruct (req_method request) as [|params| |uri| |params|m].
    - apply blind_bind; [apply Htl|intros a; apply blind_ret].
    - apply blind_bind; [apply Htc|intros a; apply blind_ret].
    - apply blind_bind; [apply Hrl|intros a; apply blind_ret].
    - apply blind_bind; [apply Hrr|intros a; apply blind_ret].
    - apply blind_bind; [apply Hpl|intros a; apply blind_ret].
    - apply blind_bind; [apply Hpg|intros a; apply blind_ret].
    - apply blind_throw. }
  destruct (Hbody mws mws' pm) as [Ho Hs]. cbv zeta.
  match goal with
  | |- context [?b {| middleware := mws; pluginManager := pm |}] =>
      destruct (b {| middleware := mws; pluginManager := pm |})
        as [o [m1 p1]];
      destruct (b {| middleware := mws'; pluginManager := pm |})
        as [o' [m2 p2]]
  end.
  simpl in Ho, Hs. subst o' p2. by destruct o.
Qed.

(** Every reply of the HTTP and WebSocket path carries the id of its
    request, every failure is reported with code [-32603] (an unknown tool,
    resource, prompt or method included), and the request context is
    cleared afterwards, after a failure as after a success. *)
Theorem on_request_reply_shape (now : Z) (request : TransportRequest)
  (srv : MCPServer U) :
  ((exists result,
       fst (on_request stringify now request srv)
       = RpcResult (req_id request) result)
   \/ (exists message,
         fst (on_request stringify now request srv)
         = RpcFailure (req_id request) (-32603) message))
  /\ currentRequestContext
       (pluginManager (snd (on_request stringify now request srv))) = None.
Proof.
  unfold on_request. cbv zeta.
  match goal with
  | |- context [match ?b srv with _ => _ end] => destruct (b srv) as [[r|e] srv']
  end; simpl; eauto.
Qed.

(** A [tools/call] for a name that is not registered: the stdio handler
    throws an [McpError] built with [MethodNotFound] (-32601) and the text
    ["Tool not found: name"], without running a hook, logging or touching
    any state; [handleToolCall] throws the same error, and the HTTP and
    WebSocket listener reports its [message], which the SDK has prefixed
    with ["MCP error -32601: "], under code -32603. *)
Theorem unknown_tool_error_codes (now : Z) (request : TransportRequest)
  (params : CallToolParams) (srv : MCPServer U) :
  getTool (ct_name params) (pluginManager srv) = None ->
  req_method request = ToolsCall params ->
  callToolRequestHandler stringify params srv
  = (Throws (McpError (-32601) ("Tool not found: " +:+ ct_name params)), srv)
  /\ fst (on_request stringify now request srv)
     = RpcFailure (req_id request) (-32603)
         ("MCP error -32601: Tool not found: " +:+ ct_name params).
Proof.
  intros Hnone Hmethod. split.
  - unfold callToolRequestHandler. by rewrite Hnone.
  - unfold on_request. rewrite Hmethod. cbv zeta.
    unfold bind, in_pm, setRequestContext, handleToolCall. cbn.
    unfold getTool in *. cbn. rewrite Hnone. reflexivity.
Qed.

Lemma onError_loop_returns (error : Thrown) (name : string)
  (mws : list (MCPMiddleware U)) :
  (forall m hook, m ∈ mws -> mw_onError m = Some hook ->
                  forall e c d u, is_returns (fst (hook e c d u)) = true) ->
  forall srv, fst (for_of mws (call_onError U error name) srv) = Returns tt.
Proof.
  induction mws as [|m mws IH]; intros Hhooks srv; [done|].
  cbn [for_of]. unfold bind.
  assert (fst (call_onError U error name m srv) = Returns tt) as Hm.
  { unfold call_onError. destruct (mw_onError m) as [hook|] eqn:Hhook; [|done].
    specialize (Hhooks m hook ltac:(left) Hhook error "tool" name
                  (world (pluginManager srv))).
    unfold in_pm, in_world.
    destruct (hook error "tool" name (world (pluginManager srv)))
      as [[[]|e] w]; [done|discriminate]. }
  destruct (call_onError U error name m srv) as [o srv1]. simpl in Hm. subst o.
  apply IH. intros m' hook Hin. apply Hhooks. by right.
Qed.

(** On the stdio path the outcome of a call of a registered tool is that of
    the first step to fail, wrapped, or the rendered result of the handler,
    provided no [onError] hook throws: when a [beforeToolCall] hook, the
    handler (run after all [beforeToolCall] hooks) or an [afterToolCall]
    hook (run after the handler, with its result) throws [error], the call
    throws [InternalError] (-32603) with the message ["Tool execution
    failed: "] followed by the message of [error]; when none of them
    throws, the call returns the handler's result, a string as it is and
    any other value as JSON text. *)
Theorem callTool_failures_are_internal_errors (params : CallToolParams)
  (srv : MCPServer U) (tool : MCPToolDefinition U) :
  getTool (ct_name params) (pluginManager srv) = Some tool ->
  (forall m hook, m ∈ middleware srv -> mw_onError m = Some hook ->
                  forall e c d u, is_returns (fst (hook e c d u)) = true) ->
  let name := ct_name params in
  let arguments := ct_arguments params in
  let failed error : Outcome string :=
    Throws (McpError (-32603)
              ("Tool execution failed: " +:+ error_message error)) in
  let before := for_of (middleware srv) (call_before U name arguments) srv in
  let handled :=
    in_pm (in_reach (tool_handler tool arguments)) (snd before) in
  fst (callToolRequestHandler stringify params srv)
  = match fst before with
    | Throws error => failed error
    | Returns _ =>
        match fst handled with
        | Throws error => failed error
        | Returns result =>
            match fst (for_of (middleware srv)
                         (call_after U name arguments result) (snd handled))
            with
            | Throws error => failed error
            | Returns _ => Returns (render_text stringify result)
            end
        end
    end.
Proof.
  intros Htool Hhooks name arguments failed before handled.
  assert (forall error srv1,
            fst ((exec in_pm (log LError ("Tool execution failed: " +:+ name)
                                (Some error));
                  exec for_of (middleware srv) (call_onError U error name);
                  throw (McpError ErrorCode.InternalError
                           ("Tool execution failed: "
                            +:+ error_message error))) srv1)
            = failed error) as Hcatch.
  { intros error srv1. unfold bind.
    destruct (in_pm (log LError ("Tool execution failed: " +:+ name)
                       (Some error)) srv1) as [o srv2] eqn:Hlog.
    unfold in_pm, log in Hlog. injection Hlog as <- <-.
    match goal with
    | |- context [for_of ?l ?b ?s] =>
        pose proof (onError_loop_returns error name l Hhooks s) as Hl;
        destruct (for_of l b s) as [o' srv3]
    end.
    simpl in Hl. by subst o'. }
  unfold callToolRequestHandler. rewrite Htool. cbv zeta.
  unfold try_catch, bind. fold name arguments. fold before.
  destruct before as [[[]|error] srv1]; cbn [fst snd]; [|apply Hcatch].
  subst handled. cbn [snd].
  destruct (in_pm (in_reach (tool_handler tool arguments)) srv1)
    as [[result|error] srv2]; cbn [fst snd]; [|apply Hcatch].
  destruct (for_of (middleware srv) (call_after U name arguments result) srv2)
    as [[[]|error] srv3]; cbn [fst snd]; [done|apply Hcatch].
Qed.

(** After [shutdownPlugins] no tool is left: on the stdio path every
    [tools/call] throws [MethodNotFound]. *)
Theorem tools_call_after_shutdown (params : CallToolParams)
  (mws : list (MCPMiddleware U)) (pm : PluginManager U) :
  fst (callToolRequestHandler stringify params
         {| middleware := mws; pluginManager := snd (shutdownPlugins pm) |})
  = Throws (McpError (-32601) ("Tool not found: " +:+ ct_name params)).
Proof.
  destruct (shutdownPlugins_spec pm) as (lines & context & w & ->).
  reflexivity.
Qed.

End ServerMore.

(* ===================================================================== *)
(** * Further properties of the orchestration layer                        *)
(* ===================================================================== *)

Section JsMapKeys.

Context {V : Type}.

Lemma JsMap_get_None_not_key (k : string) (m : JsMap.t V) :
  JsMap.get k m = None <-> k ∉ JsMap.keys m.
Proof.
  unfold JsMap.keys. induction m as [|[k' v'] m IH]; simpl.
  - split; [intros _; apply not_elem_of_nil|done].
  - destruct (decide (k = k')) as [->|Hne].
    + split; [done|]. intros Hn. exfalso. apply Hn. left.
    + rewrite IH, not_elem_of_cons. tauto.
Qed.

Lemma JsMap_get_delete_ne (k k' : string) (m : JsMap.t V) :
  k <> k' -> JsMap.get k' (JsMap.delete k m) = JsMap.get k' m.
Proof.
  intros Hne. induction m as [|[k0 v0] m IH]; simpl; [done|].
  destruct (decide (k = k0)) as [->|Hne0]; simpl.
  - by rewrite decide_False.
  - by rewrite IH.
Qed.

Lemma JsMap_delete_absent (k : string) (m : JsMap.t V) :
  JsMap.get k m = None -> JsMap.delete k m = m.
Proof.
  induction m as [|[k0 v0] m IH]; simpl; [done|].
  destruct (decide (k = k0)); [done|]. intros Hm. by rewrite IH.
Qed.

Lemma JsMap_get_delete_eq (k : string) (m : JsMap.t V) :
  NoDup (JsMap.keys m) -> JsMap.get k (JsMap.delete k m) = None.
Proof.
  unfold JsMap.keys. induction m as [|[k0 v0] m IH]; simpl; [done|].
  intros [Hk0 Hm]%NoDup_cons.
  destruct (decide (k = k0)) as [->|Hne]; simpl.
  - by apply JsMap_get_None_not_key.
  - rewrite decide_False by done. by apply IH.
Qed.

Lemma JsMap_delete_set_fresh (k : string) (v : V) (m : JsMap.t V) :
  JsMap.has k m = false -> JsMap.delete k (JsMap.set k v m) = m.
Proof.
  unfold JsMap.has. induction m as [|[k0 v0] m IH]; simpl.
  - by rewrite decide_True.
  - destruct (decide (k = k0)); [done|]. intros Hm. simpl.
    rewrite decide_False by done. by rewrite IH.
Qed.

Lemma JsMap_keys_set (k : string) (v : V) (m : JsMap.t V) :
  JsMap.keys (JsMap.set k v m)
  = if JsMap.has k m then JsMap.keys m else JsMap.keys m ++ [k].
Proof.
  unfold JsMap.has, JsMap.keys. induction m as [|[k0 v0] m IH]; simpl; [done|].
  destruct (decide (k = k0)) as [->|Hne]; simpl; [done|].
  rewrite IH. by destruct (JsMap.get k m).
Qed.

Lemma JsMap_keys_set_NoDup (k : string) (v : V) (m : JsMap.t V) :
  NoDup (JsMap.keys m) -> NoDup (JsMap.keys (JsMap.set k v m)).
Proof.
  intros Hnd. rewrite JsMap_keys_set.
  destruct (JsMap.has k m) eqn:Hhas; [done|].
  apply NoDup_app. split; [done|]. split; [|apply NoDup_singleton].
  intros x Hx Hxk. apply list_elem_of_singleton in Hxk. subst x.
  unfold JsMap.has in Hhas.
  destruct (JsMap.get k m) eqn:Hget; [done|].
  by apply JsMap_get_None_not_key in Hget.
Qed.

Lemma JsMap_get_elem (k : string) (v : V) (m : JsMap.t V) :
  (k, v) ∈ m -> is_Some (JsMap.get k m).
Proof.
  induction m as [|[k0 v0] m IH]; simpl.
  - intros H. by apply elem_of_nil in H.
  - intros [[= <- <-]|Hin]%elem_of_cons.
    + rewrite decide_True by done. eauto.
    + destruct (decide (k = k0)); eauto.
Qed.

Lemma JsMap_get_filter (P : string * V -> bool) (k : string) (m : JsMap.t V) :
  NoDup (JsMap.keys m) ->
  JsMap.get k (List.filter P m)
  = match JsMap.get k m with
    | Some v => if P (k, v) then Some v else None
    | None => None
    end.
Proof.
  unfold JsMap.keys. induction m as [|[k0 v0] m IH]; simpl; [done|].
  intros [Hk0 Hm]%NoDup_cons. specialize (IH Hm).
  destruct (decide (k = k0)) as [->|Hne].
  - destruct (P (k0, v0)) eqn:HP; simpl.
    + by rewrite decide_True.
    + rewrite IH.
      assert (JsMap.get k0 m = None) as -> by by apply JsMap_get_None_not_key.
      done.
  - destruct (P (k0, v0)); simpl; [by rewrite decide_False|done].
Qed.

End JsMapKeys.

Section RegistryProps.

Import WorkflowRegistry.

(** [register] then [get]: the definition is found under its own id, every
    other id is as before, and the registry grows by one unless the id was
    taken, in which case the old definition is replaced. *)
Theorem registry_register_get (definition : WorkflowDefinition) (r : t)
  (id : string) :
  get id (register definition r)
  = (if decide (id = wf_id definition) then Some definition else get id r)
  /\ size (register definition r)
     = (if has (wf_id definition) r then size r else S (size r)).
Proof.
  unfold get, register, size, has. split.
  - destruct (decide (id = wf_id definition)) as [->|Hne].
    + apply JsMap_get_set_eq.
    + by apply JsMap_get_set_ne.
  - destruct (JsMap.has (wf_id definition) r) eqn:Hhas.
    + by apply JsMap_set_length.
    + rewrite JsMap_set_fresh by done. rewrite length_app. simpl. lia.
Qed.

(** [unregister] undoes a [register] of a new id, and reports [true];
    unregistering an id that is not there changes nothing and reports
    [false]. *)
Theorem registry_unregister_register (definition : WorkflowDefinition)
  (r : t) :
  has (wf_id definition) r = false ->
  unregister (wf_id definition) (register definition r) = (true, r)
  /\ unregister (wf_id definition) r = (false, r).
Proof.
  intros Hfresh. unfold unregister, register, has in *. split.
  - by rewrite JsMap_has_set, JsMap_delete_set_fresh.
  - rewrite Hfresh. f_equal. apply JsMap_delete_absent.
    unfold JsMap.has in Hfresh. by destruct (JsMap.get _ r).
Qed.

Lemma register_well_keyed (definition : WorkflowDefinition) (r : t) :
  well_keyed r -> well_keyed (register definition r).
Proof.
  unfold well_keyed, register. induction r as [|[k d] r IH]; simpl.
  - intros _. by constructor.
  - intros [Hk Hr]%Forall_cons.
    destruct (decide (wf_id definition = k)); constructor; auto.
Qed.

Lemma well_keyed_get (r : t) (d : WorkflowDefinition) :
  well_keyed r -> d ∈ getAll r -> is_Some (get (wf_id d) r).
Proof.
  unfold well_keyed, getAll, JsMap.values, get.
  intros Hwk Hin. apply list_elem_of_fmap in Hin as ([k d'] & -> & Hin).
  rewrite Forall_forall in Hwk. specialize (Hwk _ Hin). simpl in Hwk.
  simpl. rewrite <- Hwk. by eapply JsMap_get_elem.
Qed.

End RegistryProps.

(** The round trip at the registry of the sample orchestrator. *)
Lemma registry_unregister_register_witness :
  WorkflowRegistry.unregister "" 
    (WorkflowRegistry.register Samples.unnamed_workflow
       (Orchestrator.workflowRegistry Samples.orchestrator))
  = (true, Orchestrator.workflowRegistry Samples.orchestrator)
  /\ WorkflowRegistry.unregister ""
       (Orchestrator.workflowRegistry Samples.orchestrator)
     = (false, Orchestrator.workflowRegistry Samples.orchestrator).
Proof.
  apply (registry_unregister_register Samples.unnamed_workflow
           (Orchestrator.workflowRegistry Samples.orchestrator)).
  reflexivity.
Defined.

Section IntentMore.

Import JsString RuleBasedIntentDetector.
Local Open Scope Q_scope.

(** The case mapping of the engine: any function. *)
Variable toLowerCase : string -> string.

Lemma Math_max_ge_l (a b : Q) : a <= Math_max a b.
Proof.
  unfold Math_max. destruct (Qle_bool a b) eqn:Hle.
  - by apply Qle_bool_iff.
  - apply Qle_refl.
Qed.

Lemma confidence_step_ge (lowerMessage : string) (acc : Q) (t : string) :
  acc <= confidence_step toLowerCase lowerMessage acc t.
Proof.
  unfold confidence_step. case_bool_decide; [apply Math_max_ge_l|].
  destruct (includes _ _); [apply Math_max_ge_l|].
  destruct (fuzzyMatch _ _); [apply Math_max_ge_l|apply Qle_refl].
Qed.

Lemma confidence_fold_range (lowerMessage : string) (ts : list string) :
  forall acc, 0 <= acc -> acc <= 1 ->
    0 <= fold_left (confidence_step toLowerCase lowerMessage) ts acc <= 1.
Proof.
  induction ts as [|t ts IH]; intros acc H0 H1; [done|].
  simpl. apply IH.
  - eapply Qle_trans; [exact H0|apply confidence_step_ge].
  - by apply confidence_step_le_1.
Qed.

(** The confidence that [calculateConfidence] returns lies between 0 and 1,
    for every message and every list of triggers. *)
Theorem confidence_in_unit_interval (message : string)
  (triggers : list string) :
  0 <= calculateConfidence toLowerCase message triggers <= 1.
Proof. unfold calculateConfidence. by apply confidence_fold_range. Qed.

Lemma short_trigger_ratio (a b : nat) :
  (8 * a < 7 * b)%nat ->
  inject_Z (Z.of_nat a) / inject_Z (Z.of_nat b) * (8 # 10) <= 7 # 10.
Proof.
  intros Hab. apply Qle_trans with ((7 # 8) * (8 # 10)); [|done].
  apply Qmult_le_compat_r; [|done].
  apply Qle_shift_div_r.
  - replace 0 with (inject_Z 0) by done. rewrite <- Zlt_Qlt. lia.
  - unfold Qle, Qmult, inject_Z. simpl. lia.
Qed.

Lemma Math_max_le (a b c : Q) : a <= c -> b <= c -> Math_max a b <= c.
Proof. intros Ha Hb. unfold Math_max. by destruct (Qle_bool a b). Qed.

Lemma confidence_step_short (message t : string) (acc : Q) :
  (8 * String.length (toLowerCase t)
   < 7 * String.length (toLowerCase message))%nat ->
  acc <= 7 # 10 ->
  confidence_step toLowerCase (toLowerCase message) acc t <= 7 # 10.
Proof.
  intros Hlen Hacc. unfold confidence_step. case_bool_decide as Heq.
  - rewrite Heq in Hlen. lia.
  - destruct (includes _ _).
    + apply Math_max_le; [done|]. unfold string_length.
      by apply short_trigger_ratio.
    + destruct (fuzzyMatch _ _); [by apply Math_max_le|done].
Qed.

Lemma confidence_fold_short (message : string) (ts : list string) :
  Forall (fun t => (8 * String.length (toLowerCase t)
                    < 7 * String.length (toLowerCase message))%nat) ts ->
  forall acc, acc <= 7 # 10 ->
    fold_left (confidence_step toLowerCase (toLowerCase message)) ts acc
    <= 7 # 10.
Proof.
  induction 1 as [|t ts Ht _ IH]; intros acc Hacc; [done|].
  simpl. apply IH. by apply confidence_step_short.
Qed.

Lemma confidence_short_triggers (message : string) (ts : list string) :
  Forall (fun t => (8 * String.length (toLowerCase t)
                    < 7 * String.length (toLowerCase message))%nat) ts ->
  calculateConfidence toLowerCase message ts <= 7 # 10.
Proof.
  intros Hts. unfold calculateConfidence. by apply confidence_fold_short.
Qed.

Variable extractEntities : string -> list ExtractedEntity.
Variable extractWorkflowData : Z -> string -> WorkflowDefinition -> JsValue.

(** A message that merely contains a trigger does not switch workflows
    unless the trigger makes up most of it: outside an active workflow, when
    every trigger of every registered workflow is, lower-cased, shorter
    than 7/8 of the lower-cased message, [analyzeMessage] never asks for a
    switch. The lengths are those of the lower-cased strings, which the
    code divides. *)
Theorem long_message_does_not_switch (registry : WorkflowRegistry.t)
  (now : Z) (message : string) (session : UserSession) :
  activeWorkflow session = None ->
  Forall (fun workflow =>
            Forall (fun t => (8 * String.length (toLowerCase t)
                              < 7 * String.length (toLowerCase message))%nat)
                   (triggers workflow))
         (WorkflowRegistry.getAll registry) ->
  shouldSwitchWorkflow
    (analyzeMessage toLowerCase extractEntities extractWorkflowData registry
       now message session) = false.
Proof.
  intros Hidle Hshort. unfold analyzeMessage. rewrite Hidle. cbn [from_option].
  rewrite andb_false_r.
  match goal with
  | |- context [List.filter ?P ?l] =>
      pose proof (filter_In P) as Hfilter;
      destruct (List.filter P l) as [|bestMatch rest] eqn:Hmatch
  end; [done|].
  cbn [shouldSwitchWorkflow].
  assert (In bestMatch (WorkflowRegistry.getAll registry)) as Hin.
  { apply (Hfilter bestMatch (WorkflowRegistry.getAll registry)).
    rewrite Hmatch. by left. }
  rewrite Forall_forall in Hshort.
  apply list_elem_of_In in Hin. specialize (Hshort _ Hin).
  apply confidence_short_triggers in Hshort.
  apply Qle_bool_iff in Hshort. by rewrite Hshort.
Qed.

(** Whatever [analyzeMessage] names as target is a registered workflow. *)
Lemma analyzeMessage_target_registered (registry : WorkflowRegistry.t)
  (now : Z) (message : string) (session : UserSession) (w : string) :
  WorkflowRegistry.well_keyed registry ->
  targetWorkflow
    (analyzeMessage toLowerCase extractEntities extractWorkflowData registry
       now message session) = Some w ->
  is_Some (WorkflowRegistry.get w registry).
Proof.
  intros Hwk. unfold analyzeMessage.
  destruct (_ && _); [done|].
  match goal with
  | |- context [List.filter ?P ?l] =>
      pose proof (filter_In P) as Hfilter;
      destruct (List.filter P l) as [|bestMatch rest] eqn:Hmatch
  end; [done|].
  cbn [targetWorkflow]. intros [= <-].
  apply well_keyed_get; [done|]. apply list_elem_of_In.
  apply (Hfilter bestMatch (WorkflowRegistry.getAll registry)).
  rewrite Hmatch. by left.
Qed.

End IntentMore.

Section ContextMore.

Import ContextManager.

Lemma update_recent_shape (w : string) (recent : option (list string)) :
  exists rest, update_recent w recent = w :: rest.
Proof.
  unfold update_recent. destruct (10 <? _)%nat; simpl; eauto.
Qed.

(** The most-recently-used list does not change when the workflow at its
    head is entered again. *)
Lemma update_recent_idempotent (w : string) (recent : option (list string)) :
  update_recent w (Some (update_recent w recent)) = update_recent w recent.
Proof.
  pose proof (update_recent_length w recent) as Hlen.
  destruct (update_recent_shape w recent) as [rest Hrest].
  rewrite Hrest in *. unfold update_recent. cbn [from_option id remove_first].
  rewrite decide_True by done.
  destruct (10 <? length (w :: rest))%nat eqn:Hlt; [|done].
  apply Nat.ltb_lt in Hlt. lia.
Qed.

(** Entering the same workflow twice in a row is the same as entering it
    once, as far as the session's active workflow, current context and
    [recentWorkflows] go. *)
Theorem switchContext_twice (cm : ContextManager.t) (now later : Z)
  (session : UserSession) (w : string) (initData initData' : JsValue) :
  WorkflowRegistry.has w (registry cm) = true ->
  w <> "" ->
  (forall loader, loaders cm !! w = Some loader ->
                  is_returns (loader w (sessionId session)) = true) ->
  exists once twice,
    switchContext cm now session (Some w) initData = Returns once
    /\ switchContext cm later once (Some w) initData' = Returns twice
    /\ recentWorkflows (globalContext twice)
       = recentWorkflows (globalContext once)
    /\ activeWorkflow twice = activeWorkflow once
    /\ currentContext twice = currentContext once.
Proof.
  intros Hreg Hw Hloader. unfold switchContext.
  assert (JsString.truthy w = true) as -> by by destruct w.
  unfold WorkflowRegistry.has, JsMap.has in Hreg.
  unfold WorkflowRegistry.get.
  destruct (JsMap.get w (registry cm)) as [workflow|]; [|discriminate].
  destruct (loaders cm !! w) as [loader|] eqn:Hl.
  - specialize (Hloader loader eq_refl).
    destruct (loader w (sessionId session)) as [context|e] eqn:Hload;
      [|discriminate].
    eexists _, _. split; [reflexivity|]. cbn. rewrite Hload.
    split; [reflexivity|]. cbn. by rewrite update_recent_idempotent.
  - eexists _, _. split; [reflexivity|]. cbn.
    split; [reflexivity|]. cbn. by rewrite update_recent_idempotent.
Qed.

Variable show_Z : Z -> string.

(** The two checkpoint lists of a workflow context stay in step: a
    checkpoint is appended to both, a progress update touches neither, so
    lists that are equal stay equal; the new checkpoint records the step
    and the time at which it was taken. *)
Theorem checkpoints_stay_in_step (now : Z) (session : UserSession)
  (description : option string) (data : JsValue) (step : string)
  (percentage : Q) (both : list WorkflowCheckpoint) :
  checkpoints_of session = Some (both, both) ->
  (exists checkpoint,
      checkpoints_of
        (addWorkflowCheckpoint show_Z now session description data)
      = Some (both ++ [checkpoint], both ++ [checkpoint])
      /\ cp_timestamp checkpoint = now
      /\ Some (cp_step checkpoint)
         = (currentStep ∘ wc_state) <$> workflowContext session)
  /\ checkpoints_of (updateWorkflowProgress now session step percentage)
     = Some (both, both).
Proof.
  unfold checkpoints_of, addWorkflowCheckpoint, updateWorkflowProgress.
  destruct (workflowContext session) as [context|]; [|discriminate].
  intros [= H1 H2]. cbn. rewrite H1, H2. split; [|done].
  eexists. split; [reflexivity|]. done.
Qed.

End ContextMore.

(** Entering ["character-creation"] twice at the sample context manager. *)
Lemma switchContext_twice_witness :
  exists once twice,
    ContextManager.switchContext Samples.context_manager 7
      (Samples.session_with (Some ["story"])) (Some "character-creation")
      JUndefined = Returns once
    /\ ContextManager.switchContext Samples.context_manager 9 once
         (Some "character-creation") JNull = Returns twice
    /\ recentWorkflows (globalContext twice)
       = recentWorkflows (globalContext once)
    /\ activeWorkflow twice = activeWorkflow once
    /\ currentContext twice = currentContext once.
Proof.
  apply (switchContext_twice Samples.context_manager 7 9
           (Samples.session_with (Some ["story"])) "character-creation"
           JUndefined JNull).
  - reflexivity.
  - discriminate.
  - intros loader Hl. vm_compute in Hl. discriminate.
Defined.

Section ContextReset.

Import ContextManager.

(** Without a context loader, entering a workflow always starts it afresh:
    whatever workflow context the session had (the same workflow with
    progress and checkpoints included) is replaced by one at step
    ["initial"], 0 percent, with no history and no checkpoints. *)
Theorem switchContext_starts_afresh (cm : ContextManager.t) (now : Z)
  (session : UserSession) (w : string) (initData : JsValue) :
  WorkflowRegistry.has w (registry cm) = true ->
  w <> "" ->
  loaders cm !! w = None ->
  exists session' context,
    switchContext cm now session (Some w) initData = Returns session'
    /\ workflowContext session' = Some context
    /\ currentStep (wc_state context) = "initial"
    /\ completionPercentage (ws_metadata (wc_state context)) = 0%Q
    /\ wc_history context = []
    /\ checkpoints_of session' = Some ([], []).
Proof.
  intros Hreg Hw Hl. unfold switchContext.
  assert (JsString.truthy w = true) as -> by by destruct w.
  unfold WorkflowRegistry.has, JsMap.has in Hreg.
  unfold WorkflowRegistry.get.
  destruct (JsMap.get w (registry cm)) as [workflow|]; [|discriminate].
  unfold ContextLoader in *. rewrite Hl. eexists _, _. by repeat split.
Qed.

End ContextReset.

Section SessionMore.

Implicit Types (sessions : InMemorySessionStore.t).

(** [createSession] stores the new session under its id, where [getSession]
    finds it; it does not look whether the id is taken, so a session already
    stored under a caller-chosen id is replaced by the empty new one. The
    other sessions are untouched. *)
Theorem createSession_then_getSession (now : Z) (generated : string)
  (userId userName : string) (requested : option string) sessions
  (other : string) :
  let created :=
    SessionManager.createSession now generated userId userName requested
      sessions in
  exists session,
    created.1 = Returns session
    /\ sessionId session = SessionManager.id_or_generated generated requested
    /\ conversationHistory session = []
    /\ activeWorkflow session = None
    /\ currentContext session = "general"
    /\ SessionManager.getSession (sessionId session) created.2
       = (Returns (Some session), created.2)
    /\ JsMap.get other created.2
       = (if decide (other = sessionId session) then Some session
          else JsMap.get other sessions).
Proof.
  cbn. eexists. split; [reflexivity|]. cbn.
  unfold SessionManager.getSession, InMemorySessionStore.get. cbn.
  rewrite JsMap_get_set_eq. repeat split; try done.
  destruct (decide (other = _)) as [->|Hne].
  - apply JsMap_get_set_eq.
  - apply JsMap_get_set_ne. congruence.
Qed.

(** [getOrCreateSession] with an id of the caller's is idempotent: a second
    call, whenever and with whatever user, returns the session of the first
    call and leaves the store alone. *)
Theorem getOrCreateSession_idempotent (now later : Z)
  (generated generated' : string) (userId userName userId' userName' : string)
  (sid : string) sessions :
  sid <> "" ->
  let first :=
    SessionManager.getOrCreateSession now generated (Some sid) userId userName
      sessions in
  SessionManager.getOrCreateSession later generated' (Some sid) userId'
    userName' first.2
  = first.
Proof.
  intros Hsid. cbv zeta. unfold SessionManager.getOrCreateSession.
  assert (JsString.truthy sid = true) as Ht by by destruct sid.
  rewrite Ht. unfold bind, SessionManager.getSession. simpl store_get.
  unfold InMemorySessionStore.get at 2.
  destruct (JsMap.get sid sessions) as [session|] eqn:Hget.
  - cbn. unfold InMemorySessionStore.get. by rewrite Hget.
  - cbn. rewrite Ht. unfold InMemorySessionStore.get.
    by rewrite JsMap_get_set_eq.
Qed.

(** [deleteSession] reports whether the session existed; afterwards the id
    is free, the other sessions are as before, and deleting an id that is
    not there changes nothing. *)
Theorem deleteSession_removes (sid other : string) sessions :
  NoDup (JsMap.keys sessions) ->
  let deleted := SessionManager.deleteSession sid sessions in
  deleted.1 = Returns (JsMap.has sid sessions)
  /\ JsMap.get sid deleted.2 = None
  /\ (other <> sid -> JsMap.get other deleted.2 = JsMap.get other sessions)
  /\ (JsMap.has sid sessions = false -> deleted.2 = sessions).
Proof.
  intros Hnd. cbv zeta. unfold SessionManager.deleteSession, bind.
  simpl store_exists. unfold InMemorySessionStore.exists_.
  destruct (JsMap.has sid sessions) eqn:Hhas; cbn.
  - repeat split; try done.
    + by apply JsMap_get_delete_eq.
    + intros Hne. by apply JsMap_get_delete_ne.
  - unfold JsMap.has in Hhas.
    destruct (JsMap.get sid sessions) eqn:Hget; [done|].
    by repeat split.
Qed.

(** [addMessage] for a stored session appends exactly the message to its
    history, stamps [updatedAt], and keeps everything else: the other
    fields, the other sessions and the number of sessions. *)
Theorem addMessage_appends (now : Z) (sid other : string)
  (message : ConversationEntry) (session : UserSession) sessions :
  JsMap.get sid sessions = Some session ->
  sessionId session = sid ->
  let added := SessionManager.addMessage now sid message sessions in
  added.1 = Returns tt
  /\ JsMap.get sid added.2
     = Some (SessionManager.stamp now
               (SessionManager.push_message message session))
  /\ (other <> sid -> JsMap.get other added.2 = JsMap.get other sessions)
  /\ length added.2 = length sessions.
Proof.
  intros Hget Hkey. cbv zeta.
  unfold SessionManager.addMessage, SessionManager.getSession, bind.
  simpl store_get. unfold InMemorySessionStore.get. rewrite Hget.
  cbn. rewrite Hkey. repeat split.
  - apply JsMap_get_set_eq.
  - intros Hne. by apply JsMap_get_set_ne.
  - apply JsMap_set_length. unfold JsMap.has. by rewrite Hget.
Qed.

(** [cleanup] of the in-memory store drops exactly the sessions last
    updated before [now - sessionTimeout] (a session updated at the cut-off
    itself stays), returns how many it dropped, and leaves the others as
    they are. *)
Theorem cleanup_drops_stale_sessions (now sessionTimeout : Z) (sid : string)
  sessions :
  NoDup (JsMap.keys sessions) ->
  let cleaned := SessionManager.cleanup now sessionTimeout sessions in
  exists dropped,
    cleaned.1 = Returns dropped
    /\ (dropped + length cleaned.2 = length sessions)%nat
    /\ JsMap.get sid cleaned.2
       = match JsMap.get sid sessions with
         | Some session =>
             if (updatedAt session <? now - sessionTimeout)%Z then None
             else Some session
         | None => None
         end.
Proof.
  intros Hnd. cbv zeta. unfold SessionManager.cleanup. simpl store_cleanup.
  unfold InMemorySessionStore.cleanup. cbn.
  eexists. split; [reflexivity|]. split.
  - induction sessions as [|[k v] m IH]; [done|].
    cbn. apply NoDup_cons in Hnd as [_ Hm]. specialize (IH Hm).
    destruct (updatedAt v <? now - sessionTimeout)%Z; cbn; lia.
  - rewrite JsMap_get_filter by done. cbn.
    destruct (JsMap.get sid sessions) as [session|]; [|done].
    by destruct (updatedAt session <? now - sessionTimeout)%Z.
Qed.

End SessionMore.

Section OrchestratorMore.

Variable toLowerCase : string -> string.
Variable extractEntities : string -> list ExtractedEntity.
Variable extractWorkflowData : Z -> string -> WorkflowDefinition -> JsValue.
Variable show_Z : Z -> string.

(** The history of the session that [getOrCreateSession] will hand out. *)
Lemma getOrCreateSession_spec (now : Z) (generated userId userName : string)
  (requested : option string) (sessions : InMemorySessionStore.t) :
  (forall sid session, JsMap.get sid sessions = Some session ->
                       sessionId session = sid) ->
  exists session sessions',
    SessionManager.getOrCreateSession now generated requested userId userName
      sessions = (Returns session, sessions')
    /\ JsMap.get (sessionId session) sessions' = Some session
    /\ conversationHistory session
       = match requested with
         | Some sid =>
             if JsString.truthy sid
             then from_option conversationHistory [] (JsMap.get sid sessions)
             else []
         | None => []
         end.
Proof.
  intros Hkeyed. unfold SessionManager.getOrCreateSession.
  assert (forall requested',
            exists session sessions',
              SessionManager.createSession now generated userId userName
                requested' sessions = (Returns session, sessions')
              /\ JsMap.get (sessionId session) sessions' = Some session
              /\ conversationHistory session = []) as Hcreate.
  { intros requested'. eexists _, _. split; [reflexivity|]. cbn.
    by rewrite JsMap_get_set_eq. }
  destruct requested as [sid|]; [|apply Hcreate].
  destruct (JsString.truthy sid); [|apply Hcreate].
  unfold bind, SessionManager.getSession. simpl store_get.
  unfold InMemorySessionStore.get.
  destruct (JsMap.get sid sessions) as [session|] eqn:Hget; [|apply Hcreate].
  cbn. exists session, sessions. rewrite (Hkeyed _ _ Hget). by rewrite Hget.
Qed.

Lemma switchContext_returns (cm : ContextManager.t) (now : Z)
  (session : UserSession) (target : option string) (initData : JsValue) :
  (forall w, target = Some w -> JsString.truthy w = true ->
             is_Some (WorkflowRegistry.get w (ContextManager.registry cm))) ->
  (forall w loader sid, ContextManager.loaders cm !! w = Some loader ->
                        is_returns (loader w sid) = true) ->
  exists session',
    ContextManager.switchContext cm now session target initData
    = Returns session'
    /\ sessionId session' = sessionId session
    /\ conversationHistory session' = conversationHistory session.
Proof.
  intros Hreg Hload. unfold ContextManager.switchContext.
  destruct target as [w|];
    [|eexists; split; [reflexivity|by split]].
  destruct (JsString.truthy w) eqn:Hw;
    [|eexists; split; [reflexivity|by split]].
  destruct (Hreg w eq_refl Hw) as [workflow ->].
  match goal with
  | |- context [match ?l with Some _ => _ | None => Returns _ end] =>
      destruct l as [loader|] eqn:Hl
  end; [|eexists; split; [reflexivity|by split]].
  specialize (Hload w loader (sessionId session) Hl).
  destruct (loader w (sessionId session)); [|discriminate].
  eexists; split; [reflexivity|by split].
Qed.

(** With the rule-based detector, a registry filled by [registerWorkflow]
    and context loaders that return, [processMessage] always returns: the
    workflow it switches to is a registered one. The returned session has
    the message appended to its history as the only new entry, and is the
    session that the store holds afterwards. *)
Theorem processMessage_returns (o : Orchestrator.t) (now : Z)
  (generated message userId userName : string) (requested : option string) :
  Orchestrator.intentDetector o = None ->
  WorkflowRegistry.well_keyed (Orchestrator.workflowRegistry o) ->
  (forall w loader sid, Orchestrator.loaders o !! w = Some loader ->
                        is_returns (loader w sid) = true) ->
  (forall sid session, JsMap.get sid (Orchestrator.sessions o) = Some session ->
                       sessionId session = sid) ->
  exists res o',
    Orchestrator.processMessage toLowerCase extractEntities
      extractWorkflowData show_Z
      now generated message requested userId userName o = (Returns res, o')
    /\ conversationHistory (Orchestrator.result_session res)
       = match requested with
         | Some sid =>
             if JsString.truthy sid
             then from_option conversationHistory []
                    (JsMap.get sid (Orchestrator.sessions o))
             else []
         | None => []
         end
         ++ [ {| ce_id := "msg_" +:+ show_Z now; ce_timestamp := now;
                 ce_role := RUser; ce_content := message |} ]
    /\ JsMap.get (sessionId (Orchestrator.result_session res))
         (Orchestrator.sessions o')
       = Some (Orchestrator.result_session res)
    /\ Orchestrator.workflowRegistry o' = Orchestrator.workflowRegistry o.
Proof.
  intros Hdet Hwk Hload Hkeyed.
  destruct (getOrCreateSession_spec now generated userId userName requested
              (Orchestrator.sessions o) Hkeyed)
    as (session & st1 & Hgoc & Hstored & Hhist).
  unfold Orchestrator.processMessage, bind, Orchestrator.in_sessions.
  rewrite Hgoc. cbn [Orchestrator.sessions].
  unfold SessionManager.addMessage, SessionManager.getSession, bind.
  simpl store_get. unfold InMemorySessionStore.get, Orchestrator.id_of.
  rewrite Hstored. cbn -[ContextManager.switchContext
                         RuleBasedIntentDetector.analyzeMessage].
  unfold Orchestrator.analyze. cbn [Orchestrator.intentDetector].
  rewrite Hdet. cbn [Orchestrator.workflowRegistry].
  set (session2 := SessionManager.stamp now
                     (SessionManager.push_message _ session)).
  set (intent := RuleBasedIntentDetector.analyzeMessage _ _ _ _ _ _ _).
  destruct (shouldSwitchWorkflow intent
            && from_option JsString.truthy false (targetWorkflow intent))
    eqn:Hswitch.
  - destruct (switchContext_returns
                (Orchestrator.contextManager
                   {| Orchestrator.workflowRegistry :=
                        Orchestrator.workflowRegistry o;
                      Orchestrator.loaders := Orchestrator.loaders o;
                      Orchestrator.intentDetector := None;
                      Orchestrator.sessions :=
                        JsMap.set (sessionId session) session2 st1 |})
                now session2 (targetWorkflow intent)
                (from_option id JUndefined (extractedData intent)))
      as (session3 & Hsw & Hid & Hh).
    + intros w Hw _. cbn.
      by apply (analyzeMessage_target_registered toLowerCase extractEntities
                  extractWorkflowData _ now message session2).
    + intros w loader sid. cbn. apply Hload.
    + rewrite Hsw. cbn. eexists _, _. split; [reflexivity|]. cbn.
      rewrite Hh, JsMap_get_set_eq. cbn. by rewrite Hhist.
  - cbn. eexists _, _. split; [reflexivity|]. cbn.
    rewrite JsMap_get_set_eq. by rewrite Hhist.
Qed.

(** The operations of the facade that need a live session fail with
    ["Session not found: id"] for an id that the store does not hold, and
    leave the orchestrator as it is. *)
Theorem facade_session_not_found (o : Orchestrator.t) (now : Z)
  (sid step : string) (percentage : Q) (target description : option string)
  (data : JsValue) :
  JsMap.get sid (Orchestrator.sessions o) = None ->
  Orchestrator.switchWorkflow now sid target data o
  = (Throws (JsError ("Session not found: " +:+ sid)), o)
  /\ Orchestrator.updateWorkflowProgress now sid step percentage o
     = (Throws (JsError ("Session not found: " +:+ sid)), o)
  /\ Orchestrator.addWorkflowCheckpoint show_Z now sid description data o
     = (Throws (JsError ("Session not found: " +:+ sid)), o).
Proof.
  intros Hnone.
  unfold Orchestrator.switchWorkflow, Orchestrator.updateWorkflowProgress,
    Orchestrator.addWorkflowCheckpoint, bind, Orchestrator.in_sessions,
    SessionManager.getSession.
  simpl store_get. unfold InMemorySessionStore.get. rewrite Hnone.
  by destruct o.
Qed.

End OrchestratorMore.

(* ===================================================================== *)
(** * The further properties at the samples                                *)
(* ===================================================================== *)

(** Registering [demo] a second time. *)
Lemma registerPlugin_duplicate_id_witness :
  fst (registerPlugin Samples.demo JUndefined Samples.host_demo)
  = Throws (JsError "Plugin already registered: demo").
Proof.
  apply (f_equal fst
           (registerPlugin_duplicate_id Samples.demo JUndefined
              Samples.host_demo (Samples.meta "demo") eq_refl
              ltac:(discriminate) eq_refl)).
Defined.

(** Registering [broken], which registers [ping] and then throws. *)
Lemma registerPlugin_failed_initialize_keeps_tools_witness :
  fst (registerPlugin Samples.broken JUndefined (new_PluginManager []))
  = Throws (JsError "boom")
  /\ plugins (snd (registerPlugin Samples.broken JUndefined
                     (new_PluginManager []))) = []
  /\ tools (snd (registerPlugin Samples.broken JUndefined
                   (new_PluginManager [])))
     = [("broken:ping", Samples.ping)].
Proof.
  apply (registerPlugin_failed_initialize_keeps_tools Samples.broken
           JUndefined (new_PluginManager []) (Samples.meta "broken")
           [Samples.ping] (JsError "boom")
           [CallRegisterTool Samples.Journal Samples.late]).
  - reflexivity.
  - discriminate.
  - reflexivity.
  - reflexivity.
Defined.

(** Registering [omega] leaves the tool of [demo] alone. *)
Lemma registerPlugin_stays_in_namespace_witness :
  getTool "demo:ping"
    (snd (registerPlugin Samples.omega JUndefined Samples.host_demo))
  = getTool "demo:ping" Samples.host_demo
  /\ getPrompt "demo:ping"
       (snd (registerPlugin Samples.omega JUndefined Samples.host_demo))
     = getPrompt "demo:ping" Samples.host_demo.
Proof.
  apply (registerPlugin_stays_in_namespace Samples.omega JUndefined
           Samples.host_demo (Samples.meta "omega") "demo:ping");
    reflexivity.
Defined.

(** A second resource under the uri that [quiet] registered. *)
Lemma registerResource_replaces_same_uri_witness :
  fst (registerResource (createPluginContext "omega" JUndefined)
         Samples.status_again Samples.host_four) = Returns tt
  /\ getResource "demo://status"
       (snd (registerResource (createPluginContext "omega" JUndefined)
               Samples.status_again Samples.host_four))
     = Some Samples.status_again
  /\ length (resources
               (snd (registerResource (createPluginContext "omega" JUndefined)
                       Samples.status_again Samples.host_four)))
     = length (resources Samples.host_four).
Proof.
  apply (registerResource_replaces_same_uri
           (createPluginContext "omega" JUndefined) Samples.status_again
           Samples.host_four).
  reflexivity.
Defined.

(** What alice's request stores, bob's request reads. *)
Lemma workflow_state_is_shared_by_workflow_id_witness :
  context_getWorkflowState
    (snd (setRequestContext (Some (Samples.request_of "s-bob" "bob"))
            (snd (setRequestContext None
                    (snd (context_updateWorkflowState (JStr "draft of alice")
                            (snd (setRequestContext
                                    (Some (Samples.request_of "s-alice"
                                             "alice"))
                                    Samples.host_demo))))))))
  = Some (JStr "draft of alice").
Proof.
  apply (proj2 (workflow_state_is_shared_by_workflow_id Samples.host_demo
                  (Samples.request_of "s-alice" "alice")
                  (Samples.request_of "s-bob" "bob")
                  "character-creation" (JStr "draft of alice")
                  eq_refl eq_refl ltac:(discriminate))).
Defined.

(** A call of the unregistered ["demo:nope"] on both paths. *)
Lemma unknown_tool_error_codes_witness :
  callToolRequestHandler (fun _ => "")
    {| ct_name := "demo:nope"; ct_arguments := JObj [] |} Samples.server
  = (Throws (McpError (-32601) "Tool not found: demo:nope"), Samples.server)
  /\ fst (on_request (fun _ => "") 0
            {| req_id := JNum 3;
               req_method := ToolsCall {| ct_name := "demo:nope";
                                          ct_arguments := JObj [] |};
               req_sessionId := None; req_userId := None;
               req_workflowId := None; req_message := None;
               req_metadata := JUndefined |}
            Samples.server)
     = RpcFailure (JNum 3) (-32603)
         "MCP error -32601: Tool not found: demo:nope".
Proof.
  apply (unknown_tool_error_codes (fun _ => "") 0
           {| req_id := JNum 3;
              req_method := ToolsCall {| ct_name := "demo:nope";
                                         ct_arguments := JObj [] |};
              req_sessionId := None; req_userId := None;
              req_workflowId := None; req_message := None;
              req_metadata := JUndefined |}
           {| ct_name := "demo:nope"; ct_arguments := JObj [] |}
           Samples.server);
    reflexivity.
Defined.

(** A call of [demo:ping] with [null] arguments at the sample server, whose
    only [onError] hook returns: the validation middleware's hook fails
    after [audit]'s has run, and the call throws its message, wrapped. *)
Lemma callTool_failures_are_internal_errors_witness :
  fst (callToolRequestHandler (fun _ => "")
         {| ct_name := "demo:ping"; ct_arguments := JNull |} Samples.server)
  = Throws (McpError (-32603)
      "Tool execution failed: Invalid parameters for tool demo:ping: expected object").
Proof.
  apply (callTool_failures_are_internal_errors (fun _ => "")
           {| ct_name := "demo:ping"; ct_arguments := JNull |}
           Samples.server Samples.ping).
  - reflexivity.
  - intros m hook Hm Hhook e c d u.
    apply elem_of_cons in Hm as [->|Hm];
      [injection Hhook as <-; reflexivity|].
    apply elem_of_cons in Hm as [->|Hm]; [discriminate|].
    by apply elem_of_nil in Hm.
Defined.

(** The scenario message ["please create character"] in a new session. *)
Lemma long_message_does_not_switch_witness :
  shouldSwitchWorkflow
    (RuleBasedIntentDetector.analyzeMessage JsString.ascii_toLowerCase
       (fun _ => [])
       (fun _ _ _ => JNull)
       (Orchestrator.workflowRegistry Samples.orchestrator) 0
       "please create character" (Samples.session_with None)) = false.
Proof.
  apply (long_message_does_not_switch JsString.ascii_toLowerCase
           (fun _ => []) (fun _ _ _ => JNull)
           (Orchestrator.workflowRegistry Samples.orchestrator) 0
           "please create character" (Samples.session_with None)).
  - reflexivity.
  - repeat constructor.
Defined.

(** A checkpoint and a progress update in the sample workflow session. *)
Lemma checkpoints_stay_in_step_witness :
  ContextManager.checkpoints_of
    (ContextManager.updateWorkflowProgress 9 Samples.session_in_workflow
       "naming" (1 # 2))
  = Some ([], []).
Proof.
  apply (proj2 (checkpoints_stay_in_step (fun _ => "9") 9
                  Samples.session_in_workflow None JNull "naming" (1 # 2)
                  [] eq_refl)).
Defined.

(** Entering ["character-creation"] from a session that is already in it. *)
Lemma switchContext_starts_afresh_witness :
  exists session' context,
    ContextManager.switchContext Samples.context_manager 11
      (ContextManager.addWorkflowCheckpoint (fun _ => "9") 9
         Samples.session_in_workflow None JNull)
      (Some "character-creation") JUndefined = Returns session'
    /\ workflowContext session' = Some context
    /\ currentStep (wc_state context) = "initial"
    /\ completionPercentage (ws_metadata (wc_state context)) = 0%Q
    /\ wc_history context = []
    /\ ContextManager.checkpoints_of session' = Some ([], []).
Proof.
  apply (switchContext_starts_afresh Samples.context_manager 11
           (ContextManager.addWorkflowCheckpoint (fun _ => "9") 9
              Samples.session_in_workflow None JNull)
           "character-creation" JUndefined).
  - reflexivity.
  - discriminate.
  - reflexivity.
Defined.

(** Asking twice for the session ["s9"] of an empty store. *)
Lemma getOrCreateSession_idempotent_witness :
  SessionManager.getOrCreateSession 20 "session_20_bbbbbbbbb" (Some "s9")
    "v" "V"
    (snd (SessionManager.getOrCreateSession 10 "session_10_aaaaaaaaa"
            (Some "s9") "u" "U" (JsMap.empty : InMemorySessionStore.t)))
  = SessionManager.getOrCreateSession 10 "session_10_aaaaaaaaa" (Some "s9")
      "u" "U" (JsMap.empty : InMemorySessionStore.t).
Proof.
  apply (getOrCreateSession_idempotent 10 20 "session_10_aaaaaaaaa"
           "session_20_bbbbbbbbb" "u" "U" "v" "V" "s9" JsMap.empty).
  discriminate.
Defined.

(** Deleting ["old"] from the store of two sessions. *)
Lemma deleteSession_removes_witness :
  fst (SessionManager.deleteSession "old" Samples.two_sessions)
  = Returns (JsMap.has "old" Samples.two_sessions)
  /\ JsMap.get "old"
       (snd (SessionManager.deleteSession "old" Samples.two_sessions)) = None.
Proof.
  destruct (deleteSession_removes "old" "new" Samples.two_sessions)
    as (Hret & Hgone & _).
  - apply (bool_decide_unpack _). vm_compute. exact I.
  - by split.
Defined.

(** A message for the stored session ["new"]. *)
Lemma addMessage_appends_witness :
  fst (SessionManager.addMessage 950 "new" Samples.hello Samples.two_sessions)
  = Returns tt
  /\ JsMap.get "new"
       (snd (SessionManager.addMessage 950 "new" Samples.hello
               Samples.two_sessions))
     = Some (SessionManager.stamp 950
               (SessionManager.push_message Samples.hello
                  (Samples.session_named "new" 900))).
Proof.
  destruct (addMessage_appends 950 "new" "old" Samples.hello
              (Samples.session_named "new" 900) Samples.two_sessions)
    as (Hret & Hget & _); [reflexivity|reflexivity|].
  by split.
Defined.

(** A cleanup at time 1000 with a timeout of 500: ["old"] goes, ["new"]
    stays. *)
Lemma cleanup_drops_stale_sessions_witness :
  exists dropped,
    fst (SessionManager.cleanup 1000 500 Samples.two_sessions)
    = Returns dropped
    /\ (dropped
        + length (snd (SessionManager.cleanup 1000 500 Samples.two_sessions))
        = length Samples.two_sessions)%nat
    /\ JsMap.get "old"
         (snd (SessionManager.cleanup 1000 500 Samples.two_sessions))
       = match JsMap.get "old" Samples.two_sessions with
         | Some session =>
             if (updatedAt session <? 1000 - 500)%Z then None
             else Some session
         | None => None
         end.
Proof.
  apply (cleanup_drops_stale_sessions 1000 500 "old" Samples.two_sessions).
  apply (bool_decide_unpack _). vm_compute. exact I.
Defined.

(** The first message of a new session at the sample orchestrator. *)
Lemma processMessage_returns_witness :
  exists res o',
    Orchestrator.processMessage JsString.ascii_toLowerCase
      (fun _ => []) (fun _ _ _ => JNull)
      (fun _ => "1000") 1000 "session_1000_k3x9q2m1z" "create character"
      None "u" "U" Samples.orchestrator = (Returns res, o')
    /\ conversationHistory (Orchestrator.result_session res)
       = [] ++ [ {| ce_id := "msg_" +:+ "1000"; ce_timestamp := 1000;
                    ce_role := RUser; ce_content := "create character" |} ]
    /\ JsMap.get (sessionId (Orchestrator.result_session res))
         (Orchestrator.sessions o')
       = Some (Orchestrator.result_session res)
    /\ Orchestrator.workflowRegistry o'
       = Orchestrator.workflowRegistry Samples.orchestrator.
Proof.
  apply (processMessage_returns JsString.ascii_toLowerCase
           (fun _ => []) (fun _ _ _ => JNull)
           (fun _ => "1000") Samples.orchestrator 1000
           "session_1000_k3x9q2m1z" "create character" "u" "U" None).
  - reflexivity.
  - repeat constructor.
  - intros w loader sid Hl. vm_compute in Hl. discriminate.
  - intros sid session Hget. vm_compute in Hget. discriminate.
Defined.

(** The facade on the sample orchestrator, which holds no session. *)
Lemma facade_session_not_found_witness :
  Orchestrator.switchWorkflow 5 "s404" (Some "character-creation") JNull
    Samples.orchestrator
  = (Throws (JsError "Session not found: s404"), Samples.orchestrator).
Proof.
  apply (proj1 (facade_session_not_found (fun _ => "5") Samples.orchestrator
                  5 "s404" "naming" (1 # 2) (Some "character-creation") None
                  JNull eq_refl)).
Defined.

Section ActivationProps.

Variable toLowerCase : string -> string.
Variable extractEntities : string -> list ExtractedEntity.
Variable extractWorkflowData : Z -> string -> WorkflowDefinition -> JsValue.
Variable show_Z : Z -> string.

Lemma prefix_refl (s : string) : String.prefix s s = true.
Proof.
  induction s as [|c s IH]; [done|]. simpl.
  by destruct (ascii_dec c c).
Qed.

Lemma includes_refl (s : string) : JsString.includes s s = true.
Proof. destruct s; cbn [JsString.includes]; by rewrite prefix_refl. Qed.

Lemma switchContext_enters (cm : ContextManager.t) (now : Z)
  (session : UserSession) (w : string) (initData : JsValue) :
  w <> "" ->
  is_Some (WorkflowRegistry.get w (ContextManager.registry cm)) ->
  (forall w' loader sid, ContextManager.loaders cm !! w' = Some loader ->
                         is_returns (loader w' sid) = true) ->
  exists session',
    ContextManager.switchContext cm now session (Some w) initData
    = Returns session'
    /\ activeWorkflow session' = Some w
    /\ currentContext session' = w
    /\ recentWorkflows (globalContext session')
       = Some (ContextManager.update_recent w
                 (recentWorkflows (globalContext session))).
Proof.
  intros Hw [workflow Hreg] Hload. unfold ContextManager.switchContext.
  assert (JsString.truthy w = true) as -> by by destruct w.
  rewrite Hreg.
  match goal with
  | |- context [match ?l with Some _ => _ | None => Returns _ end] =>
      destruct l as [loader|] eqn:Hl
  end; [|eexists; split; [reflexivity|by repeat split]].
  specialize (Hload w loader (sessionId session) Hl).
  destruct (loader w (sessionId session)); [|discriminate].
  eexists; split; [reflexivity|by repeat split].
Qed.

(** The first message of a new session activates a workflow when it is,
    up to case, one of the triggers of the workflow registered first: the
    confidence is 1, [processMessage] switches, and the session returned is
    in that workflow with it at the head of [recentWorkflows]. *)
Theorem processMessage_exact_trigger_activates (o : Orchestrator.t) (now : Z)
  (generated message userId userName : string) (d : WorkflowDefinition)
  (others : list WorkflowDefinition) (t : string) :
  Orchestrator.intentDetector o = None ->
  WorkflowRegistry.well_keyed (Orchestrator.workflowRegistry o) ->
  WorkflowRegistry.getAll (Orchestrator.workflowRegistry o) = d :: others ->
  wf_id d <> "" ->
  t ∈ triggers d ->
  toLowerCase t = toLowerCase message ->
  (forall w loader sid, Orchestrator.loaders o !! w = Some loader ->
                        is_returns (loader w sid) = true) ->
  exists res o',
    Orchestrator.processMessage toLowerCase extractEntities
      extractWorkflowData show_Z
      now generated message None userId userName o = (Returns res, o')
    /\ Orchestrator.workflowChanged res = true
    /\ confidence (Orchestrator.result_intent res) = 1%Q
    /\ activeWorkflow (Orchestrator.result_session res) = Some (wf_id d)
    /\ currentContext (Orchestrator.result_session res) = wf_id d
    /\ recentWorkflows (globalContext (Orchestrator.result_session res))
       = Some [wf_id d].
Proof.
  intros Hdet Hwk Hall Hid Ht Heq Hload.
  unfold Orchestrator.processMessage, bind, Orchestrator.in_sessions.
  cbn -[ContextManager.switchContext RuleBasedIntentDetector.analyzeMessage].
  rewrite JsMap_get_set_eq.
  cbn -[ContextManager.switchContext RuleBasedIntentDetector.analyzeMessage].
  unfold Orchestrator.analyze. cbn [Orchestrator.intentDetector].
  rewrite Hdet. cbn [Orchestrator.workflowRegistry].
  set (session2 := SessionManager.stamp now _).
  assert (RuleBasedIntentDetector.analyzeMessage toLowerCase extractEntities
            extractWorkflowData (Orchestrator.workflowRegistry o) now message
            session2
          = {| confidence := 1%Q;
               intents := [ {| intent_name := "switch_workflow";
                               intent_confidence := 1%Q;
                               intent_parameters :=
                                 Some (JObj [("targetWorkflow",
                                              JStr (wf_id d))]) |} ];
               entities := extractEntities message;
               shouldSwitchWorkflow := true;
               targetWorkflow := Some (wf_id d);
               extractedData :=
                 Some (extractWorkflowData now message d) |}) as ->.
  { unfold RuleBasedIntentDetector.analyzeMessage.
    cbn [activeWorkflow session2 SessionManager.stamp
           SessionManager.push_message from_option].
    rewrite andb_false_r, Hall. cbn [List.filter].
    assert (JsString.some
              (fun trigger =>
                 JsString.includes (toLowerCase message)
                   (toLowerCase trigger)) (triggers d) = true) as ->.
    { unfold JsString.some. apply existsb_exists. exists t.
      split; [by apply list_elem_of_In|]. rewrite Heq. apply includes_refl. }
    unfold RuleBasedIntentDetector.calculateConfidence.
    rewrite (confidence_fold_exact toLowerCase (toLowerCase message) t
               (triggers d) 0%Q ltac:(done) Ht Heq).
    reflexivity. }
  cbn [shouldSwitchWorkflow targetWorkflow from_option andb extractedData].
  assert (JsString.truthy (wf_id d) = true) as -> by by destruct (wf_id d).
  match goal with
  | |- context [ContextManager.switchContext ?cm now session2 _ ?data] =>
      destruct (switchContext_enters cm now session2 (wf_id d) data Hid)
        as (session3 & -> & Hactive & Hcurrent & Hrecent)
  end.
  - cbn. apply well_keyed_get; [done|]. rewrite Hall. left.
  - intros w loader sid. cbn. apply Hload.
  - cbn. eexists _, _. split; [reflexivity|]. cbn.
    rewrite Hactive, Hcurrent, Hrecent. by repeat split.
Qed.

(** Progress updates and checkpoints for a stored session that is in no
    workflow are silently dropped: the call returns normally and the stored
    session changes in its [updatedAt] only. *)
Theorem progress_without_workflow_is_ignored (o : Orchestrator.t) (now : Z)
  (sid step : string) (percentage : Q) (description : option string)
  (data : JsValue) (session : UserSession) :
  JsMap.get sid (Orchestrator.sessions o) = Some session ->
  sessionId session = sid ->
  workflowContext session = None ->
  let progressed :=
    Orchestrator.updateWorkflowProgress now sid step percentage o in
  let checkpointed :=
    Orchestrator.addWorkflowCheckpoint show_Z now sid description data o in
  progressed.1 = Returns tt
  /\ JsMap.get sid (Orchestrator.sessions progressed.2)
     = Some (SessionManager.stamp now session)
  /\ checkpointed.1 = Returns tt
  /\ JsMap.get sid (Orchestrator.sessions checkpointed.2)
     = Some (SessionManager.stamp now session).
Proof.
  intros Hget Hkey Hnone. cbv zeta.
  unfold Orchestrator.updateWorkflowProgress,
    Orchestrator.addWorkflowCheckpoint, bind, Orchestrator.in_sessions,
    SessionManager.getSession, ContextManager.updateWorkflowProgress,
    ContextManager.addWorkflowCheckpoint.
  simpl store_get. unfold InMemorySessionStore.get. rewrite Hget, Hnone.
  cbn. rewrite Hkey, !JsMap_get_set_eq. by repeat split.
Qed.

End ActivationProps.

(** The message ["Create Character"] as the first message of a new session
    at the sample orchestrator. *)
Lemma processMessage_exact_trigger_activates_witness :
  exists res o',
    Orchestrator.processMessage JsString.ascii_toLowerCase
      (fun _ => []) (fun _ _ _ => JNull)
      (fun _ => "1000") 1000 "session_1000_k3x9q2m1z" "Create Character"
      None "u" "U" Samples.orchestrator = (Returns res, o')
    /\ Orchestrator.workflowChanged res = true
    /\ confidence (Orchestrator.result_intent res) = 1%Q
    /\ activeWorkflow (Orchestrator.result_session res)
       = Some "character-creation"
    /\ currentContext (Orchestrator.result_session res) = "character-creation"
    /\ recentWorkflows (globalContext (Orchestrator.result_session res))
       = Some ["character-creation"].
Proof.
  apply (processMessage_exact_trigger_activates JsString.ascii_toLowerCase
           (fun _ => [])
           (fun _ _ _ => JNull) (fun _ => "1000") Samples.orchestrator 1000
           "session_1000_k3x9q2m1z" "Create Character" "u" "U"
           Samples.character_creation [] "create character").
  - reflexivity.
  - repeat constructor.
  - reflexivity.
  - discriminate.
  - apply list_elem_of_In. simpl. tauto.
  - reflexivity.
  - intros w loader sid Hl. vm_compute in Hl. discriminate.
Defined.

(** A progress update for the session ["new"], which is in no workflow. *)
Lemma progress_without_workflow_is_ignored_witness :
  fst (Orchestrator.updateWorkflowProgress 950 "new" "naming" (1 # 2)
         {| Orchestrator.workflowRegistry := JsMap.empty;
            Orchestrator.loaders := ∅;
            Orchestrator.intentDetector := None;
            Orchestrator.sessions := Samples.two_sessions |})
  = Returns tt.
Proof.
  apply (proj1 (progress_without_workflow_is_ignored (fun _ => "950")
                  {| Orchestrator.workflowRegistry := JsMap.empty;
                     Orchestrator.loaders := ∅;
                     Orchestrator.intentDetector := None;
                     Orchestrator.sessions := Samples.two_sessions |}
                  950 "new" "naming" (1 # 2) None JNull
                  (Samples.session_named "new" 900)
                  eq_refl eq_refl eq_refl)).
Defined.
